(** * mindnlp: the NAT model family and the deprecated auto facade

    A shallow embedding of
      - mindnlp/transformers/models/nat/modeling_nat.py
      - mindnlp/transformers/models/auto/modeling_auto.py
    Python exceptions are values of [Exception]; a call that may raise
    returns a [Result]; code that mutates an object or draws random numbers
    runs in the state-and-exception monad [Stateful].  Tensors carry their
    element type, their shape and their row-major data over the rationals;
    the numerics of the heavy framework kernels (convolution, dense
    projection, layer normalisation, ...) are kept abstract, their shape
    discipline is written out. *)

From stdpp Require Import base numbers list strings pretty gmap.
From Stdlib Require Import QArith Qround Qcanon Lqa.

Set Default Proof Using "Type".
Close Scope Qc_scope.
Close Scope Q_scope.
Open Scope nat_scope.

(** ** Python exceptions and results *)

Inductive Exception : Type :=
  | ValueError (msg : string)
  | OptionalDependencyNotAvailable
  | AttributeError (cls attr : string)
  | IndexError
  | KeyError (key : string)
  | TypeError
  | ZeroDivisionError
  | OverflowError
  | UnboundLocalError (name : string)
  | ShapeError (op : string).

Inductive Result (A : Type) : Type :=
  | Ok (a : A)
  | Raise (e : Exception).
Arguments Ok {A} a.
Arguments Raise {A} e.

#[global] Instance Result_ret : MRet Result := λ A a, Ok a.
#[global] Instance Result_bind : MBind Result := λ A B f m,
  match m with
  | Ok a => f a
  | Raise e => Raise e
  end.

#[global] Instance Result_fmap : FMap Result := λ A B f m,
  match m with
  | Ok a => Ok (f a)
  | Raise e => Raise e
  end.

Definition is_Ok {A} (r : Result A) : Prop :=
  match r with Ok _ => True | Raise _ => False end.

(** A computation on a mutable store [S] that may raise: the store it
    leaves behind is kept also when it raises, as in Python. *)
Definition Stateful (S A : Type) : Type := S → Result A * S.

#[global] Instance Stateful_ret {S} : MRet (Stateful S) := λ A a s, (Ok a, s).
#[global] Instance Stateful_bind {S} : MBind (Stateful S) := λ A B f m s,
  match m s with
  | (Ok a, s') => f a s'
  | (Raise e, s') => (Raise e, s')
  end.

Definition pure {S A} (a : A) : Stateful S A := λ s, (Ok a, s).
Definition lift {S A} (r : Result A) : Stateful S A := λ s, (r, s).
Definition get {S} : Stateful S S := λ s, (Ok s, s).
Definition gets {S A} (f : S → A) : Stateful S A := λ s, (Ok (f s), s).
Definition put {S} (s : S) : Stateful S unit := λ _, (Ok tt, s).
Definition modify {S} (f : S → S) : Stateful S unit := λ s, (Ok tt, f s).

(** [zoom] runs a computation on one component of a larger store. *)
Definition zoom {S T A} (proj : S → T) (inj : T → S → S) (m : Stateful T A)
  : Stateful S A := λ s,
  let '(r, t) := m (proj s) in (r, inj t s).

(** A Python [for] loop that threads an accumulator. *)
Fixpoint foldM {S A B} (f : A → B → Stateful S A) (a : A) (l : list B)
  : Stateful S A :=
  match l with
  | [] => mret a
  | b :: l' => a' ← f a b; foldM f a' l'
  end.

(** A list comprehension whose body may raise. *)
Fixpoint mapM {A B} (f : A → Result B) (l : list A) : Result (list B) :=
  match l with
  | [] => Ok []
  | a :: l' => b ← f a; bs ← mapM f l'; mret (b :: bs)
  end.

(** [t[i]] on a Python tuple or list. *)
Definition tuple_at {A} (t : list A) (i : nat) : Result A :=
  match t !! i with
  | Some a => Ok a
  | None => Raise IndexError
  end.

(** ** Python numbers *)

Module py.

(** [a % b] on non-negative integers. *)
Definition mod_ (a b : nat) : Result nat :=
  if decide (b = 0) then Raise ZeroDivisionError else Ok (a mod b).

(** [2 ** e] as a rational. *)
Definition pow2 (e : Z) : Q :=
  if (0 <=? e)%Z then inject_Z (2 ^ e) else (/ inject_Z (2 ^ (- e)))%Q.

(** The exponent [e] with [2^e <= x < 2^(e+1)], for a positive [x]. *)
Definition floor_log2 (x : Q) : Z :=
  let e0 := (Z.log2 (Qnum x) - Z.log2 (Zpos (Qden x)))%Z in
  if Qle_bool (pow2 e0) x then e0 else (e0 - 1)%Z.

Definition round_half_even (x : Q) : Z :=
  let f := Qfloor x in
  match Qcompare (x - inject_Z f) (1 # 2) with
  | Lt => f
  | Gt => (f + 1)%Z
  | Eq => if Z.even f then f else (f + 1)%Z
  end.

(** The double nearest to a positive rational (53 significant bits, ties
    to even), in the normal range. *)
Definition round_double (x : Q) : Q :=
  let ulp := pow2 (floor_log2 x - 52) in
  (inject_Z (round_half_even (x / ulp)) * ulp)%Q.

(** [a / b] on non-negative integers: the correctly rounded quotient. *)
Definition truediv (a b : nat) : Result Qc :=
  if decide (b = 0) then Raise ZeroDivisionError
  else if decide (a = 0) then Ok 0%Qc
  else
    let x := round_double (Z.of_nat a # Pos.of_nat b) in
    if Qle_bool (pow2 1024) x then Raise OverflowError else Ok (Q2Qc x).

(** [int(x)] of a non-negative float: truncation. *)
Definition int (x : Qc) : nat := Z.to_nat (Qfloor x).

Definition Qc_of_nat (n : nat) : Qc := Qc_of_Z (Z.of_nat n).

End py.

(** ** Tensors of the framework *)

Module ms.

Inductive DType : Type :=
  | float16 | float32 | float64
  | int8 | int16 | int32 | int64
  | uint8 | bool_.

#[global] Instance DType_eq_dec : EqDecision DType.
Proof. solve_decision. Defined.

Record Tensor : Type := mkTensor {
  dtype : DType;
  shape : list nat;
  data : list Qc
}.

Definition ndim (t : Tensor) : nat := length (shape t).

(** Number of elements of a shape. *)
Definition numel (s : list nat) : nat := foldr Nat.mul 1 s.

Definition well_shaped (t : Tensor) : Prop :=
  length (data t) = numel (shape t).

(** [t.shape[i]] *)
Definition shape_at (t : Tensor) (i : nat) : Result nat :=
  match shape t !! i with
  | Some d => Ok d
  | None => Raise IndexError
  end.

(** Row-major position of a multi-index, and back. *)
Fixpoint ravel (s idx : list nat) : nat :=
  match s, idx with
  | _ :: ds, j :: js => j * numel ds + ravel ds js
  | _, _ => 0
  end.

Fixpoint unravel (s : list nat) (i : nat) : list nat :=
  match s with
  | [] => []
  | _ :: ds => i / numel ds :: unravel ds (i mod numel ds)
  end.

(** Broadcasting of an operand of shape [s] against an index of the result:
    an axis of extent 1 is read at position 0. *)
Definition broadcast_index (s idx : list nat) : list nat :=
  zip_with (λ d j, if decide (d = 1) then 0 else j) s idx.

(** Result shape of a broadcast of two shapes of the same rank. *)
Fixpoint broadcast_shape (s1 s2 : list nat) : option (list nat) :=
  match s1, s2 with
  | [], [] => Some []
  | d1 :: r1, d2 :: r2 =>
      r ← broadcast_shape r1 r2;
      if decide (d1 = d2) then Some (d1 :: r)
      else if decide (d1 = 1) then Some (d2 :: r)
      else if decide (d2 = 1) then Some (d1 :: r)
      else None
  | _, _ => None
  end.

(** Ranks are aligned by prepending axes of extent 1. *)
Definition align (n : nat) (s : list nat) : list nat :=
  replicate (n - length s) 1 ++ s.

Definition read (t : Tensor) (s idx : list nat) : Qc :=
  default 0%Qc (data t !! ravel s (broadcast_index s idx)).

(** Element-wise binary operation with broadcasting ([a * b], [a + b]). *)
Definition broadcast_op (f : Qc → Qc → Qc) (a b : Tensor) : Result Tensor :=
  let n := max (ndim a) (ndim b) in
  let sa := align n (shape a) in
  let sb := align n (shape b) in
  match broadcast_shape sa sb with
  | None => Raise (ShapeError "broadcast")
  | Some s =>
      Ok {| dtype := dtype a;
            shape := s;
            data := (λ i, let idx := unravel s i in
                          f (read a sa idx) (read b sb idx)) <$> seq 0 (numel s) |}
  end.

Definition mul : Tensor → Tensor → Result Tensor := broadcast_op Qcmult.
Definition add : Tensor → Tensor → Result Tensor := broadcast_op Qcplus.

(** Element-wise operation with a Python scalar. *)
Definition map_scalar (f : Qc → Qc) (t : Tensor) : Tensor :=
  {| dtype := dtype t; shape := shape t; data := f <$> data t |}.

(** [t.div(c)], [c + t] and [t.floor_()] *)
Definition div_scalar (t : Tensor) (c : Qc) : Tensor := map_scalar (λ x, x / c)%Qc t.
Definition scalar_add (c : Qc) (t : Tensor) : Tensor := map_scalar (λ x, c + x)%Qc t.
Definition Qc_floor (x : Qc) : Qc := Qc_of_Z (Qfloor x).
Definition floor_ (t : Tensor) : Tensor := map_scalar Qc_floor t.

(** The generator behind [ops.rand]: an endless tape of draws from [0, 1)
    and the position of the next unread draw. *)
Record Generator : Type := mkGenerator {
  draw : nat → Qc;
  pos : nat
}.

Definition uniform (g : Generator) : Prop :=
  ∀ n, (0 ≤ draw g n)%Qc ∧ (draw g n < 1)%Qc.

(** [ops.rand(shape, dtype)]: one fresh draw per element. *)
Definition rand (s : list nat) (dt : DType) : Stateful Generator Tensor := λ g,
  (Ok {| dtype := dt; shape := s;
         data := (λ i, draw g (pos g + i)) <$> seq 0 (numel s) |},
   {| draw := draw g; pos := pos g + numel s |}).

(** *** Kernels whose numerics are not part of this development

    Each heavy operation of the framework is named by an [Op]; what it
    computes on the data is left to the [Backend], what it does to shapes is
    written out below. *)

Inductive Op : Type :=
  | Conv2dOp (stride padding : nat)
  | DenseOp
  | LayerNormOp (epsilon : Qc)
  | DropoutOp (p : Qc) (training : bool)
  | SoftmaxOp
  | PermuteOp (perm : list nat)
  | PadOp (pad_r pad_b : nat)
  | CropOp (height width : nat)
  | ActOp (name : string)
  | DivSqrtOp (n : nat)
  | ScaleRowOp (row : nat)
  | AvgPoolOp
  | MseLossOp
  | CrossEntropyOp
  | BceWithLogitsOp.

Class Backend : Type := {
  (** data produced by a kernel from its parameters and inputs *)
  kernel : Op → list (list Qc) → list Qc;
  (** initial value of the [i]-th scalar of a freshly created parameter *)
  fresh : nat → Qc;
  (** [ops.linspace(0, stop, steps)]: the evenly spaced values, or the
      exception with which the framework refuses the number of steps *)
  linspace : Qc → nat → Result (list Qc)
}.

(** [t.view(s)]: same data, new shape of the same size. *)
Definition view (t : Tensor) (s : list nat) : Result Tensor :=
  if decide (numel s = numel (shape t))
  then Ok {| dtype := dtype t; shape := s; data := data t |}
  else Raise (ShapeError "view").

(** [t.contiguous()] *)
Definition contiguous (t : Tensor) : Tensor := t.

(** [perm] is a permutation of the axes [0 .. n-1]. *)
Definition is_permutation (perm : list nat) (n : nat) : bool :=
  bool_decide (length perm = n) &&
  forallb (λ a, bool_decide (a ∈ perm)) (seq 0 n).

Section kernels.
Context `{Backend}.

(** [t.permute(perm)] *)
Definition permute (t : Tensor) (perm : list nat) : Result Tensor :=
  if is_permutation perm (ndim t)
  then Ok {| dtype := dtype t;
             shape := (λ a, default 0 (shape t !! a)) <$> perm;
             data := kernel (PermuteOp perm) [data t] |}
  else Raise (ShapeError "permute").

(** [t.swapaxes(1, 2)] on a tensor of rank 3 *)
Definition swapaxes_1_2 (t : Tensor) : Result Tensor := permute t [0; 2; 1].

(** [t.flatten(1, 2)] on a tensor of rank 4, and [ops.flatten(t, 1)]. *)
Definition flatten_1_2 (t : Tensor) : Result Tensor :=
  match shape t with
  | [b; h; w; c] => view t [b; h * w; c]
  | _ => Raise (ShapeError "flatten")
  end.

Definition flatten_from_1 (t : Tensor) : Result Tensor :=
  match shape t with
  | b :: rest => view t [b; numel rest]
  | [] => Raise (ShapeError "flatten")
  end.

(** [t.squeeze()]: axes of extent 1 are removed. *)
Definition squeeze (t : Tensor) : Tensor :=
  {| dtype := dtype t;
     shape := filter (λ d, d ≠ 1) (shape t);
     data := data t |}.

(** [ops.softmax(t, axis=-1)] *)
Definition softmax (t : Tensor) : Tensor :=
  {| dtype := dtype t; shape := shape t; data := kernel SoftmaxOp [data t] |}.

(** [t / math.sqrt(n)] *)
Definition div_sqrt (t : Tensor) (n : nat) : Tensor :=
  {| dtype := dtype t; shape := shape t; data := kernel (DivSqrtOp n) [data t] |}.

(** [ops.pad(t, (0, 0, 0, pad_r, 0, pad_b))] on a [(batch, height, width,
    channels)] tensor: the pairs of the pad tuple run from the last axis. *)
Definition pad_right_bottom (t : Tensor) (pad_r pad_b : nat) : Result Tensor :=
  match shape t with
  | [b; h; w; c] =>
      Ok {| dtype := dtype t;
            shape := [b; h + pad_b; w + pad_r; c];
            data := kernel (PadOp pad_r pad_b) [data t] |}
  | _ => Raise (ShapeError "pad")
  end.

(** [t[:, :height, :width, :]] *)
Definition crop (t : Tensor) (height width : nat) : Result Tensor :=
  match shape t with
  | [b; h; w; c] =>
      Ok {| dtype := dtype t;
            shape := [b; min h height; min w width; c];
            data := kernel (CropOp height width) [data t] |}
  | _ => Raise IndexError
  end.

(** Loss functions of [ops]: the result is a scalar tensor. *)
Definition loss_op (op : Op) (logits labels : Tensor) : Tensor :=
  {| dtype := dtype logits; shape := []; data := kernel op [data logits; data labels] |}.

Definition mse_loss (logits labels : Tensor) : Result Tensor :=
  match broadcast_shape (align (max (ndim logits) (ndim labels)) (shape logits))
                        (align (max (ndim logits) (ndim labels)) (shape labels)) with
  | Some _ => Ok (loss_op MseLossOp logits labels)
  | None => Raise (ShapeError "mse_loss")
  end.

Definition cross_entropy (logits labels : Tensor) : Result Tensor :=
  match shape logits, shape labels with
  | [n; _], [m] =>
      if decide (n = m) then Ok (loss_op CrossEntropyOp logits labels)
      else Raise (ShapeError "cross_entropy")
  | _, _ => Raise (ShapeError "cross_entropy")
  end.

Definition binary_cross_entropy_with_logits (logits labels : Tensor) : Result Tensor :=
  if decide (shape logits = shape labels)
  then Ok (loss_op BceWithLogitsOp logits labels)
  else Raise (ShapeError "binary_cross_entropy_with_logits").

End kernels.

End ms.

(** ** Layers of the framework ([mindspore.nn]) *)

Module nn.
Import ms.

Record Conv2d : Type := mkConv2d {
  conv_in_channels : nat;
  conv_out_channels : nat;
  conv_kernel_size : nat;
  conv_stride : nat;
  conv_padding : nat;
  conv_weight : list Qc;
  conv_bias : option (list Qc)
}.

(** A weight matrix is kept row by row: [out_channels] rows of
    [in_channels] entries. *)
Record Dense : Type := mkDense {
  in_channels : nat;
  out_channels : nat;
  weight : list (list Qc);
  bias : option (list Qc)
}.

Record LayerNorm : Type := mkLayerNorm {
  normalized_shape : list nat;
  epsilon : Qc;
  gamma : list Qc;
  beta : list Qc
}.

Record Dropout : Type := mkDropout {
  p : Qc;
  dropout_training : bool
}.

Definition default_epsilon : Qc := Q2Qc (1 # 10000000).

Section layers.
Context `{Backend}.

Definition fresh_vector (n : nat) : list Qc := fresh <$> seq 0 n.
Definition fresh_matrix (rows cols : nat) : list (list Qc) :=
  (λ r, (λ c, fresh (r * cols + c)) <$> seq 0 cols) <$> seq 0 rows.

(** [nn.Conv2d(in, out, kernel_size, stride, padding, has_bias, pad_mode="pad")] *)
Definition Conv2d_init (c_in c_out k stride padding : nat) (has_bias : bool) : Conv2d :=
  {| conv_in_channels := c_in;
     conv_out_channels := c_out;
     conv_kernel_size := k;
     conv_stride := stride;
     conv_padding := padding;
     conv_weight := fresh_vector (c_out * c_in * k * k);
     conv_bias := if has_bias then Some (fresh_vector c_out) else None |}.

(** Extent of one spatial axis after a padded, strided convolution. *)
Definition conv_extent (n k stride padding : nat) : option nat :=
  if decide (stride = 0) then None
  else if decide (n + 2 * padding < k) then None
  else Some ((n + 2 * padding - k) / stride + 1).

Definition Conv2d_construct (c : Conv2d) (x : Tensor) : Result Tensor :=
  match shape x with
  | [b; ch; h; w] =>
      if decide (ch = conv_in_channels c) then
        match conv_extent h (conv_kernel_size c) (conv_stride c) (conv_padding c),
              conv_extent w (conv_kernel_size c) (conv_stride c) (conv_padding c) with
        | Some h', Some w' =>
            Ok {| dtype := dtype x;
                  shape := [b; conv_out_channels c; h'; w'];
                  data := kernel (Conv2dOp (conv_stride c) (conv_padding c))
                            [conv_weight c; default [] (conv_bias c); data x] |}
        | _, _ => Raise (ShapeError "Conv2d")
        end
      else Raise (ShapeError "Conv2d")
  | _ => Raise (ShapeError "Conv2d")
  end.

(** [nn.Dense(in, out, has_bias)] *)
Definition Dense_init (c_in c_out : nat) (has_bias : bool) : Dense :=
  {| in_channels := c_in;
     out_channels := c_out;
     weight := fresh_matrix c_out c_in;
     bias := if has_bias then Some (fresh_vector c_out) else None |}.

Definition Dense_construct (d : Dense) (x : Tensor) : Result Tensor :=
  match reverse (shape x) with
  | c :: rest =>
      if decide (c = in_channels d) then
        Ok {| dtype := dtype x;
              shape := reverse (out_channels d :: rest);
              data := kernel DenseOp [concat (weight d); default [] (bias d); data x] |}
      else Raise (ShapeError "Dense")
  | [] => Raise (ShapeError "Dense")
  end.

(** [nn.LayerNorm(normalized_shape, epsilon)] *)
Definition LayerNorm_init (normalized_shape : list nat) (epsilon : Qc) : LayerNorm :=
  {| normalized_shape := normalized_shape;
     epsilon := epsilon;
     gamma := replicate (numel normalized_shape) 1%Qc;
     beta := replicate (numel normalized_shape) 0%Qc |}.

Definition LayerNorm_construct (l : LayerNorm) (x : Tensor) : Result Tensor :=
  if decide (normalized_shape l `suffix_of` shape x) then
    Ok {| dtype := dtype x;
          shape := shape x;
          data := kernel (LayerNormOp (epsilon l)) [gamma l; beta l; data x] |}
  else Raise (ShapeError "LayerNorm").

(** [nn.Dropout(p)] *)
Definition Dropout_construct (d : Dropout) (x : Tensor) : Tensor :=
  {| dtype := dtype x;
     shape := shape x;
     data := kernel (DropoutOp (p d) (dropout_training d)) [data x] |}.

(** [nn.AdaptiveAvgPool1d(1)] on a [(batch, channels, length)] tensor *)
Definition AdaptiveAvgPool1d_1 (x : Tensor) : Result Tensor :=
  match shape x with
  | [b; c; _] =>
      Ok {| dtype := dtype x; shape := [b; c; 1]; data := kernel AvgPoolOp [data x] |}
  | _ => Raise (ShapeError "AdaptiveAvgPool1d")
  end.

(** An entry of [ACT2FN] applied to a tensor. *)
Definition activation (name : string) (x : Tensor) : Tensor :=
  {| dtype := dtype x; shape := shape x; data := kernel (ActOp name) [data x] |}.

End layers.

End nn.

(** ** ms_utils.py: pruning helpers *)

Module ms_utils.
Import nn.

(** Modelled from the spec: [find_pruneable_heads_and_indices] of
    ms_utils.py is not part of the sources at hand.  Heads already pruned are
    left out; every remaining head is located in the current, already
    shrunk, layout (its number minus the pruned heads before it) and its row
    of the mask is cleared, an index outside the mask being an error; the
    result is the set of heads to prune and the positions of the value
    vectors of the surviving heads. *)
Definition find_pruneable_heads_and_indices (heads : list nat) (n_heads head_size : nat)
    (already_pruned_heads : gset nat) : Result (gset nat * list nat) :=
  let heads : gset nat := list_to_set heads ∖ already_pruned_heads in
  mask ← foldr (λ head acc,
                  mask ← acc;
                  let head := head - size (filter (λ h, h < head) already_pruned_heads) in
                  if decide (head < length mask) then Ok (<[head := false]> mask)
                  else Raise IndexError)
               (Ok (replicate n_heads true)) (elements heads);
  let mask := mask ≫= replicate head_size in
  let index := filter (λ i, mask !! i = Some true) (seq 0 (length mask)) in
  mret (heads, index).

(** Modelled from the spec: [prune_linear_layer] of ms_utils.py is not part
    of the sources at hand.  The weight is sliced to the entries of [index]
    along [axis] (0: the output rows, together with the bias; 1: the input
    columns, the bias being kept) and a layer of the new size is returned. *)
Definition prune_linear_layer (layer : Dense) (index : list nat) (axis : nat)
  : Result Dense :=
  W ← (if decide (axis = 0) then mapM (tuple_at (weight layer)) index
       else mapM (λ row, mapM (tuple_at row) index) (weight layer));
  b ← match bias layer with
      | None => Ok None
      | Some b => if decide (axis = 1) then Ok (Some b)
                  else Some <$> mapM (tuple_at b) index
      end;
  let new_size := <[axis := length index]> [out_channels layer; in_channels layer] in
  mret {| in_channels := default 0 (new_size !! 1);
          out_channels := default 0 (new_size !! 0);
          weight := W;
          bias := b |}.

End ms_utils.

(** ** modeling_nat.py *)

Module modeling_nat.
Import py ms nn ms_utils.

(** [natten2dqkrpb] and [natten2dav] take any positional and keyword
    arguments; the argument list is not inspected. *)
Definition natten2dqkrpb {Args : Type} (args : Args) : Result Tensor :=
  Raise OptionalDependencyNotAvailable.

Definition natten2dav {Args : Type} (args : Args) : Result Tensor :=
  Raise OptionalDependencyNotAvailable.

Record NatConfig : Type := mkNatConfig {
  patch_size : nat;
  num_channels : nat;
  embed_dim : nat;
  depths : list nat;
  num_heads : list nat;
  kernel_size : nat;
  mlp_ratio : Qc;
  qkv_bias : bool;
  hidden_act : string;
  hidden_dropout_prob : Qc;
  attention_probs_dropout_prob : Qc;
  drop_path_rate : Qc;
  layer_norm_eps : Qc;
  layer_scale_init_value : Qc;
  initializer_range : Qc;
  num_labels : nat;
  problem_type : option string;
  output_attentions : bool;
  output_hidden_states : bool;
  use_return_dict : bool;
  chunk_size_feed_forward : nat;
  stage_names : list string;
  out_features : list string
}.

(** The mode the cells are in ([Cell.training]), the activation registry
    [ACT2FN] and the numerics of the framework are fixed throughout. *)
Section nat.
Context `{Backend}.
Variable training : bool.
Variable ACT2FN : gset string.

Definition Dropout_init (p : Qc) : Dropout :=
  {| nn.p := p; dropout_training := training |}.

(** *** NatPatchEmbeddings *)

Record NatPatchEmbeddings : Type := mkNatPatchEmbeddings {
  pe_num_channels : nat;
  projection : Conv2d * Conv2d
}.

Definition NatPatchEmbeddings_init (config : NatConfig) : Result NatPatchEmbeddings :=
  let patch_size := patch_size config in
  let num_channels := num_channels config in
  let hidden_size := embed_dim config in
  _ ← (if decide (patch_size = 4) then Ok tt
       else Raise (ValueError "Dinat only supports patch size of 4 at the moment."));
  mret {| pe_num_channels := num_channels;
          projection :=
            (Conv2d_init num_channels (hidden_size / 2) 3 2 1 false,
             Conv2d_init (hidden_size / 2) hidden_size 3 2 1 false) |}.

Definition NatPatchEmbeddings_construct (self : NatPatchEmbeddings)
    (pixel_values : Tensor) : Result Tensor :=
  match shape pixel_values with
  | [_; num_channels; height; width] =>
      if decide (num_channels ≠ pe_num_channels self) then
        Raise (ValueError
          "Make sure that the channel dimension of the pixel values match with the one set in the configuration.")
      else
        embeddings ← Conv2d_construct (projection self).1 pixel_values;
        embeddings ← Conv2d_construct (projection self).2 embeddings;
        permute embeddings [0; 2; 3; 1]
  | _ => Raise (ValueError "not enough values to unpack")
  end.

(** *** NatEmbeddings *)

Record NatEmbeddings : Type := mkNatEmbeddings {
  patch_embeddings : NatPatchEmbeddings;
  emb_norm : LayerNorm;
  emb_dropout : Dropout
}.

Definition NatEmbeddings_init (config : NatConfig) : Result NatEmbeddings :=
  patch_embeddings ← NatPatchEmbeddings_init config;
  mret {| patch_embeddings := patch_embeddings;
          emb_norm := LayerNorm_init [embed_dim config] default_epsilon;
          emb_dropout := Dropout_init (hidden_dropout_prob config) |}.

Definition NatEmbeddings_construct (self : NatEmbeddings) (pixel_values : Tensor)
  : Result Tensor :=
  embeddings ← NatPatchEmbeddings_construct (patch_embeddings self) pixel_values;
  embeddings ← LayerNorm_construct (emb_norm self) embeddings;
  mret (Dropout_construct (emb_dropout self) embeddings).

(** *** NatDownsampler *)

Record NatDownsampler : Type := mkNatDownsampler {
  ds_dim : nat;
  reduction : Conv2d;
  ds_norm : LayerNorm
}.

Definition NatDownsampler_init (dim : nat) : NatDownsampler :=
  {| ds_dim := dim;
     reduction := Conv2d_init dim (2 * dim) 3 2 1 false;
     ds_norm := LayerNorm_init [2 * dim] default_epsilon |}.

Definition NatDownsampler_construct (self : NatDownsampler) (input_feature : Tensor)
  : Result Tensor :=
  x ← permute input_feature [0; 3; 1; 2];
  x ← Conv2d_construct (reduction self) x;
  input_feature ← permute x [0; 2; 3; 1];
  LayerNorm_construct (ds_norm self) input_feature.

(** [drop_path(input, drop_prob, training)] *)
Definition drop_path (input : Tensor) (drop_prob : Qc) (training : bool)
  : Stateful Generator Tensor :=
  if bool_decide (drop_prob = 0%Qc) || negb training then pure input
  else
    let keep_prob := (1 - drop_prob)%Qc in
    b ← lift (shape_at input 0);
    let shape := b :: replicate (ndim input - 1) 1 in
    r ← rand shape (dtype input);
    let random_tensor := scalar_add keep_prob r in
    let random_tensor := floor_ random_tensor in
    lift (mul (div_scalar input keep_prob) random_tensor).

(** *** NatDropPath *)

Record NatDropPath : Type := mkNatDropPath {
  drop_prob : option Qc
}.

Definition NatDropPath_construct (self : NatDropPath) (hidden_states : Tensor)
  : Stateful Generator Tensor :=
  match drop_prob self with
  | Some p => drop_path hidden_states p training
  | None =>
      (* [None == 0.0] is false; [1 - None] is a type error *)
      if negb training then pure hidden_states else lift (Raise TypeError)
  end.

(** *** NeighborhoodAttention *)

Record NeighborhoodAttention : Type := mkNeighborhoodAttention {
  num_attention_heads : nat;
  attention_head_size : nat;
  all_head_size : nat;
  na_kernel_size : nat;
  rpb : Tensor;
  query : Dense;
  key : Dense;
  value : Dense;
  na_dropout : Dropout
}.

Definition NeighborhoodAttention_init (config : NatConfig) (dim num_heads kernel_size : nat)
  : Result NeighborhoodAttention :=
  r ← py.mod_ dim num_heads;
  _ ← (if decide (r ≠ 0) then
         Raise (ValueError ("The hidden size (" +:+ pretty dim +:+
                            ") is not a multiple of the number of attention heads (" +:+
                            pretty num_heads +:+ ")"))
       else Ok tt);
  q ← py.truediv dim num_heads;
  let attention_head_size := py.int q in
  let all_head_size := num_heads * attention_head_size in
  let rpb_shape := [num_heads; 2 * kernel_size - 1; 2 * kernel_size - 1] in
  mret {| num_attention_heads := num_heads;
          attention_head_size := attention_head_size;
          all_head_size := all_head_size;
          na_kernel_size := kernel_size;
          rpb := {| dtype := float32; shape := rpb_shape;
                    data := replicate (numel rpb_shape) 0%Qc |};
          query := Dense_init all_head_size all_head_size (qkv_bias config);
          key := Dense_init all_head_size all_head_size (qkv_bias config);
          value := Dense_init all_head_size all_head_size (qkv_bias config);
          na_dropout := Dropout_init (attention_probs_dropout_prob config) |}.

Definition transpose_for_scores (self : NeighborhoodAttention) (x : Tensor)
  : Result Tensor :=
  let new_x_shape :=
    take (ndim x - 1) (shape x) ++ [num_attention_heads self; attention_head_size self] in
  x ← view x new_x_shape;
  permute x [0; 3; 1; 2; 4].

Definition NeighborhoodAttention_construct (self : NeighborhoodAttention)
    (hidden_states : Tensor) (output_attentions : bool) : Result (list Tensor) :=
  query_layer ← Dense_construct (query self) hidden_states ≫= transpose_for_scores self;
  key_layer ← Dense_construct (key self) hidden_states ≫= transpose_for_scores self;
  value_layer ← Dense_construct (value self) hidden_states ≫= transpose_for_scores self;
  let query_layer := div_sqrt query_layer (attention_head_size self) in
  attention_scores ←
    natten2dqkrpb (query_layer, key_layer, rpb self, na_kernel_size self, 1);
  let attention_probs := softmax attention_scores in
  let attention_probs := Dropout_construct (na_dropout self) attention_probs in
  context_layer ← natten2dav (attention_probs, value_layer, na_kernel_size self, 1);
  context_layer ← permute context_layer [0; 2; 3; 1; 4];
  let context_layer := contiguous context_layer in
  let new_context_layer_shape :=
    take (ndim context_layer - 2) (shape context_layer) ++ [all_head_size self] in
  context_layer ← view context_layer new_context_layer_shape;
  mret (if output_attentions then [context_layer; attention_probs] else [context_layer]).

(** *** NeighborhoodAttentionOutput *)

Record NeighborhoodAttentionOutput : Type := mkNeighborhoodAttentionOutput {
  nao_dense : Dense;
  nao_dropout : Dropout
}.

Definition NeighborhoodAttentionOutput_init (config : NatConfig) (dim : nat)
  : NeighborhoodAttentionOutput :=
  {| nao_dense := Dense_init dim dim true;
     nao_dropout := Dropout_init (attention_probs_dropout_prob config) |}.

Definition NeighborhoodAttentionOutput_construct (self : NeighborhoodAttentionOutput)
    (hidden_states input_tensor : Tensor) : Result Tensor :=
  hidden_states ← Dense_construct (nao_dense self) hidden_states;
  mret (Dropout_construct (nao_dropout self) hidden_states).

(** *** NeighborhoodAttentionModule *)

Record NeighborhoodAttentionModule : Type := mkNeighborhoodAttentionModule {
  self_ : NeighborhoodAttention;
  output : NeighborhoodAttentionOutput;
  pruned_heads : gset nat
}.

Definition NeighborhoodAttentionModule_init (config : NatConfig)
    (dim num_heads kernel_size : nat) : Result NeighborhoodAttentionModule :=
  self_ ← NeighborhoodAttention_init config dim num_heads kernel_size;
  mret {| self_ := self_;
          output := NeighborhoodAttentionOutput_init config dim;
          pruned_heads := ∅ |}.

Definition NeighborhoodAttentionModule_construct (self : NeighborhoodAttentionModule)
    (hidden_states : Tensor) (output_attentions : bool) : Result (list Tensor) :=
  self_outputs ← NeighborhoodAttention_construct (self_ self) hidden_states output_attentions;
  first ← tuple_at self_outputs 0;
  attention_output ← NeighborhoodAttentionOutput_construct (output self) first hidden_states;
  mret (attention_output :: drop 1 self_outputs).

(** [NeighborhoodAttentionModule.prune_heads(heads)]: every assignment to
    an attribute is a write to the module. *)
Definition set_self (f : NeighborhoodAttention → NeighborhoodAttention)
  : Stateful NeighborhoodAttentionModule unit :=
  modify (λ m, {| self_ := f (self_ m); output := output m;
                  pruned_heads := pruned_heads m |}).

Definition with_query (d : Dense) (a : NeighborhoodAttention) : NeighborhoodAttention :=
  {| num_attention_heads := num_attention_heads a;
     attention_head_size := attention_head_size a;
     all_head_size := all_head_size a; na_kernel_size := na_kernel_size a;
     rpb := rpb a; query := d; key := key a; value := value a;
     na_dropout := na_dropout a |}.

Definition with_key (d : Dense) (a : NeighborhoodAttention) : NeighborhoodAttention :=
  {| num_attention_heads := num_attention_heads a;
     attention_head_size := attention_head_size a;
     all_head_size := all_head_size a; na_kernel_size := na_kernel_size a;
     rpb := rpb a; query := query a; key := d; value := value a;
     na_dropout := na_dropout a |}.

Definition with_value (d : Dense) (a : NeighborhoodAttention) : NeighborhoodAttention :=
  {| num_attention_heads := num_attention_heads a;
     attention_head_size := attention_head_size a;
     all_head_size := all_head_size a; na_kernel_size := na_kernel_size a;
     rpb := rpb a; query := query a; key := key a; value := d;
     na_dropout := na_dropout a |}.

Definition with_num_attention_heads (n : nat) (a : NeighborhoodAttention)
  : NeighborhoodAttention :=
  {| num_attention_heads := n;
     attention_head_size := attention_head_size a;
     all_head_size := all_head_size a; na_kernel_size := na_kernel_size a;
     rpb := rpb a; query := query a; key := key a; value := value a;
     na_dropout := na_dropout a |}.

Definition with_all_head_size (n : nat) (a : NeighborhoodAttention)
  : NeighborhoodAttention :=
  {| num_attention_heads := num_attention_heads a;
     attention_head_size := attention_head_size a;
     all_head_size := n; na_kernel_size := na_kernel_size a;
     rpb := rpb a; query := query a; key := key a; value := value a;
     na_dropout := na_dropout a |}.

Definition prune_heads (heads : list nat) : Stateful NeighborhoodAttentionModule unit :=
  if decide (length heads = 0) then pure tt
  else
    self ← get;
    '(heads, index) ←
      lift (find_pruneable_heads_and_indices heads
              (num_attention_heads (self_ self)) (attention_head_size (self_ self))
              (pruned_heads self));
    (* Prune linear layers *)
    self ← get;
    q ← lift (prune_linear_layer (query (self_ self)) index 0);
    _ ← set_self (with_query q);
    self ← get;
    k ← lift (prune_linear_layer (key (self_ self)) index 0);
    _ ← set_self (with_key k);
    self ← get;
    v ← lift (prune_linear_layer (value (self_ self)) index 0);
    _ ← set_self (with_value v);
    self ← get;
    d ← lift (prune_linear_layer (nao_dense (output self)) index 1);
    _ ← modify (λ m, {| self_ := self_ m;
                        output := {| nao_dense := d;
                                     nao_dropout := nao_dropout (output m) |};
                        pruned_heads := pruned_heads m |});
    (* Update hyper params and store pruned heads *)
    self ← get;
    _ ← set_self (with_num_attention_heads
                    (num_attention_heads (self_ self) - size heads));
    self ← get;
    _ ← set_self (with_all_head_size
                    (attention_head_size (self_ self) * num_attention_heads (self_ self)));
    modify (λ m, {| self_ := self_ m; output := output m;
                    pruned_heads := pruned_heads m ∪ heads |}).

(** *** NatIntermediate and NatOutput *)

Record NatIntermediate : Type := mkNatIntermediate {
  int_dense : Dense;
  intermediate_act_fn : string
}.

Definition NatIntermediate_init (config : NatConfig) (dim : nat) : Result NatIntermediate :=
  act ← (if decide (hidden_act config ∈ ACT2FN) then Ok (hidden_act config)
         else Raise (KeyError (hidden_act config)));
  mret {| int_dense := Dense_init dim (py.int (mlp_ratio config * Qc_of_nat dim)) true;
          intermediate_act_fn := act |}.

Definition NatIntermediate_construct (self : NatIntermediate) (hidden_states : Tensor)
  : Result Tensor :=
  hidden_states ← Dense_construct (int_dense self) hidden_states;
  mret (activation (intermediate_act_fn self) hidden_states).

Record NatOutput : Type := mkNatOutput {
  out_dense : Dense;
  out_dropout : Dropout
}.

Definition NatOutput_init (config : NatConfig) (dim : nat) : NatOutput :=
  {| out_dense := Dense_init (py.int (mlp_ratio config * Qc_of_nat dim)) dim true;
     out_dropout := Dropout_init (hidden_dropout_prob config) |}.

Definition NatOutput_construct (self : NatOutput) (hidden_states : Tensor) : Result Tensor :=
  hidden_states ← Dense_construct (out_dense self) hidden_states;
  mret (Dropout_construct (out_dropout self) hidden_states).

(** *** NatLayer *)

(** [self.drop_path] is a [NatDropPath] or [nn.Identity()]. *)
Inductive DropPathCell : Type :=
  | DropPath (cell : NatDropPath)
  | Identity.

Record NatLayer : Type := mkNatLayer {
  l_chunk_size_feed_forward : nat;
  l_kernel_size : nat;
  layernorm_before : LayerNorm;
  attention : NeighborhoodAttentionModule;
  l_drop_path : DropPathCell;
  layernorm_after : LayerNorm;
  intermediate : NatIntermediate;
  l_output : NatOutput;
  layer_scale_parameters : option Tensor
}.

Definition NatLayer_init (config : NatConfig) (dim num_heads : nat) (drop_path_rate : Qc)
  : Result NatLayer :=
  let kernel_size := kernel_size config in
  attention ← NeighborhoodAttentionModule_init config dim num_heads kernel_size;
  intermediate ← NatIntermediate_init config dim;
  mret {| l_chunk_size_feed_forward := chunk_size_feed_forward config;
          l_kernel_size := kernel_size;
          layernorm_before := LayerNorm_init [dim] (layer_norm_eps config);
          attention := attention;
          l_drop_path :=
            if decide (0 < drop_path_rate)%Qc
            then DropPath {| drop_prob := Some drop_path_rate |} else Identity;
          layernorm_after := LayerNorm_init [dim] (layer_norm_eps config);
          intermediate := intermediate;
          l_output := NatOutput_init config dim;
          layer_scale_parameters :=
            if decide (0 < layer_scale_init_value config)%Qc
            then Some {| dtype := float32; shape := [2; dim];
                         data := replicate (2 * dim) (layer_scale_init_value config) |}
            else None |}.

Definition maybe_pad (self : NatLayer) (hidden_states : Tensor) (height width : nat)
  : Result (Tensor * (nat * nat * nat * nat * nat * nat)) :=
  let window_size := l_kernel_size self in
  if decide (height < window_size ∨ width < window_size) then
    let pad_r := max 0 (window_size - width) in
    let pad_b := max 0 (window_size - height) in
    hidden_states ← pad_right_bottom hidden_states pad_r pad_b;
    mret (hidden_states, (0, 0, 0, pad_r, 0, pad_b))
  else mret (hidden_states, (0, 0, 0, 0, 0, 0)).

Definition DropPathCell_construct (cell : DropPathCell) (x : Tensor)
  : Stateful Generator Tensor :=
  match cell with
  | DropPath c => NatDropPath_construct c x
  | Identity => pure x
  end.

(** [self.layer_scale_parameters[row] * x] *)
Definition layer_scale (self : NatLayer) (row : nat) (x : Tensor) : Result Tensor :=
  match layer_scale_parameters self with
  | None => Ok x
  | Some lsp =>
      dim ← shape_at lsp 1;
      mul {| dtype := dtype lsp; shape := [dim];
             data := take dim (drop (row * dim) (data lsp)) |} x
  end.

Definition NatLayer_construct (self : NatLayer) (hidden_states : Tensor)
    (output_attentions : bool) : Stateful Generator (list Tensor) :=
  match shape hidden_states with
  | [batch_size; height; width; channels] =>
      let shortcut := hidden_states in
      hidden_states ← lift (LayerNorm_construct (layernorm_before self) hidden_states);
      '(hidden_states, pad_values) ← lift (maybe_pad self hidden_states height width);
      _ ← lift (match shape hidden_states with
                | [_; height_pad; width_pad; _] => Ok tt
                | _ => Raise (ValueError "not enough values to unpack")
                end);
      attention_outputs ←
        lift (NeighborhoodAttentionModule_construct (attention self) hidden_states
                output_attentions);
      attention_output ← lift (tuple_at attention_outputs 0);
      let '(_, _, _, pad_r, _, pad_b) := pad_values in
      let was_padded := bool_decide (0 < pad_r) || bool_decide (0 < pad_b) in
      attention_output ←
        (if was_padded then lift (contiguous <$> crop attention_output height width)
         else pure attention_output);
      attention_output ← lift (layer_scale self 0 attention_output);
      dropped ← DropPathCell_construct (l_drop_path self) attention_output;
      hidden_states ← lift (add shortcut dropped);
      layer_output ← lift (LayerNorm_construct (layernorm_after self) hidden_states);
      layer_output ←
        lift (NatIntermediate_construct (intermediate self) layer_output
              ≫= NatOutput_construct (l_output self));
      layer_output ← lift (layer_scale self 1 layer_output);
      dropped ← DropPathCell_construct (l_drop_path self) layer_output;
      layer_output ← lift (add hidden_states dropped);
      if output_attentions then
        probs ← lift (tuple_at attention_outputs 1);
        pure [layer_output; probs]
      else pure [layer_output]
  | _ => lift (Raise (ValueError "not enough values to unpack"))
  end.

(** *** NatStage *)

Record NatStage : Type := mkNatStage {
  st_dim : nat;
  layers : list NatLayer;
  downsample : option NatDownsampler;
  pointing : bool
}.

Definition NatStage_init (config : NatConfig) (dim depth num_heads : nat)
    (drop_path_rate : list Qc) (downsample : bool) : Result NatStage :=
  layers ← mapM (λ i, rate ← tuple_at drop_path_rate i;
                      NatLayer_init config dim num_heads rate) (seq 0 depth);
  mret {| st_dim := dim;
          layers := layers;
          downsample := if downsample then Some (NatDownsampler_init dim) else None;
          pointing := false |}.

Definition NatStage_construct (self : NatStage) (hidden_states : Tensor)
    (output_attentions : bool) : Stateful Generator (list Tensor) :=
  match shape hidden_states with
  | [_; height; width; _] =>
      '(hidden_states, layer_outputs) ←
        foldM (λ '(hidden_states, _) layer_module,
                 layer_outputs ← NatLayer_construct layer_module hidden_states
                                   output_attentions;
                 hidden_states ← lift (tuple_at layer_outputs 0);
                 pure (hidden_states, Some layer_outputs))
              (hidden_states, None) (layers self);
      let hidden_states_before_downsampling := hidden_states in
      hidden_states ←
        match downsample self with
        | Some d => lift (NatDownsampler_construct d hidden_states_before_downsampling)
        | None => pure hidden_states
        end;
      let stage_outputs := [hidden_states; hidden_states_before_downsampling] in
      if output_attentions then
        match layer_outputs with
        | Some layer_outputs => pure (stage_outputs ++ drop 1 layer_outputs)
        | None => lift (Raise (UnboundLocalError "layer_outputs"))
        end
      else pure stage_outputs
  | _ => lift (Raise (ValueError "not enough values to unpack"))
  end.

(** *** NatEncoder *)

(** An item of a returned Python tuple. *)
Inductive Value : Type :=
  | VNone
  | VTensor (t : Tensor)
  | VTuple (ts : list Tensor).

Definition of_optional (o : option (list Tensor)) : Value :=
  match o with Some ts => VTuple ts | None => VNone end.

Definition is_None (v : Value) : bool :=
  match v with VNone => true | _ => false end.

(** [tuple(v for v in items if v is not None)] *)
Definition not_None (items : list Value) : list Value :=
  filter (λ v, is_None v = false) items.

Record NatEncoderOutput : Type := mkNatEncoderOutput {
  last_hidden_state : Tensor;
  hidden_states : option (list Tensor);
  attentions : option (list Tensor);
  reshaped_hidden_states : option (list Tensor)
}.

(** What [NatEncoder.construct] returns: a plain tuple or the record. *)
Inductive EncoderReturn : Type :=
  | EncoderTuple (items : list Value)
  | EncoderRecord (r : NatEncoderOutput).

(** [ModelOutput.to_tuple]: the fields that are not [None], in order. *)
Definition NatEncoderOutput_to_tuple (r : NatEncoderOutput) : list Value :=
  not_None [VTensor (last_hidden_state r); of_optional (hidden_states r);
            of_optional (attentions r); of_optional (reshaped_hidden_states r)].

Definition EncoderReturn_items (o : EncoderReturn) : list Value :=
  match o with
  | EncoderTuple items => items
  | EncoderRecord r => NatEncoderOutput_to_tuple r
  end.

Record NatEncoder : Type := mkNatEncoder {
  num_levels : nat;
  levels : list NatStage
}.

(** [l[a:b]] *)
Definition slice {A} (l : list A) (a b : nat) : list A := take (b - a) (drop a l).

Definition sum (l : list nat) : nat := foldr Nat.add 0 l.

Definition NatEncoder_init (config : NatConfig) : Result NatEncoder :=
  let num_levels := length (depths config) in
  dpr ← linspace (drop_path_rate config) (sum (depths config));
  levels ← mapM (λ i_layer,
      depth ← tuple_at (depths config) i_layer;
      heads ← tuple_at (num_heads config) i_layer;
      NatStage_init config (embed_dim config * 2 ^ i_layer) depth heads
        (slice dpr (sum (take i_layer (depths config)))
                   (sum (take (i_layer + 1) (depths config))))
        (bool_decide (i_layer < num_levels - 1)))
    (seq 0 num_levels);
  mret {| num_levels := num_levels; levels := levels |}.

(** The loop state of [NatEncoder.construct]. *)
Record EncoderLoop : Type := mkEncoderLoop {
  loop_hidden_states : Tensor;
  acc_hidden_states : option (list Tensor);
  acc_reshaped_hidden_states : option (list Tensor);
  acc_self_attentions : option (list Tensor)
}.

(** [t += (x,)] on a tuple that is [None] when not collected. *)
Definition append (o : option (list Tensor)) (xs : list Tensor) : Result (option (list Tensor)) :=
  match o with
  | Some ts => Ok (Some (ts ++ xs))
  | None => Raise TypeError
  end.

Definition NatEncoder_step (output_attentions output_hidden_states
    output_hidden_states_before_downsampling : bool)
    (st : EncoderLoop) (layer_module : NatStage) : Stateful Generator EncoderLoop :=
  layer_outputs ← NatStage_construct layer_module (loop_hidden_states st) output_attentions;
  hidden_states ← lift (tuple_at layer_outputs 0);
  hidden_states_before_downsampling ← lift (tuple_at layer_outputs 1);
  '(all_hs, all_rs) ←
    (if output_hidden_states && output_hidden_states_before_downsampling then
       reshaped ← lift (permute hidden_states_before_downsampling [0; 3; 1; 2]);
       a ← lift (append (acc_hidden_states st) [hidden_states_before_downsampling]);
       r ← lift (append (acc_reshaped_hidden_states st) [reshaped]);
       pure (a, r)
     else if output_hidden_states && negb output_hidden_states_before_downsampling then
       reshaped ← lift (permute hidden_states [0; 3; 1; 2]);
       a ← lift (append (acc_hidden_states st) [hidden_states]);
       r ← lift (append (acc_reshaped_hidden_states st) [reshaped]);
       pure (a, r)
     else pure (acc_hidden_states st, acc_reshaped_hidden_states st));
  all_att ←
    (if output_attentions
     then lift (append (acc_self_attentions st) (drop 2 layer_outputs))
     else pure (acc_self_attentions st));
  pure {| loop_hidden_states := hidden_states;
          acc_hidden_states := all_hs;
          acc_reshaped_hidden_states := all_rs;
          acc_self_attentions := all_att |}.

Definition NatEncoder_construct (self : NatEncoder) (hidden_states : Tensor)
    (output_attentions output_hidden_states
     output_hidden_states_before_downsampling return_dict : bool)
  : Stateful Generator EncoderReturn :=
  let all_hidden_states := if output_hidden_states then Some [] else None in
  let all_reshaped_hidden_states := if output_hidden_states then Some [] else None in
  let all_self_attentions := if output_attentions then Some [] else None in
  '(all_hidden_states, all_reshaped_hidden_states) ←
    (if output_hidden_states then
       reshaped_hidden_state ← lift (permute hidden_states [0; 3; 1; 2]);
       a ← lift (append all_hidden_states [hidden_states]);
       r ← lift (append all_reshaped_hidden_states [reshaped_hidden_state]);
       pure (a, r)
     else pure (all_hidden_states, all_reshaped_hidden_states));
  st ← foldM (NatEncoder_step output_attentions output_hidden_states
                output_hidden_states_before_downsampling)
         {| loop_hidden_states := hidden_states;
            acc_hidden_states := all_hidden_states;
            acc_reshaped_hidden_states := all_reshaped_hidden_states;
            acc_self_attentions := all_self_attentions |}
         (levels self);
  if negb return_dict then
    pure (EncoderTuple (not_None [VTensor (loop_hidden_states st);
                                  of_optional (acc_hidden_states st);
                                  of_optional (acc_self_attentions st)]))
  else
    pure (EncoderRecord {| last_hidden_state := loop_hidden_states st;
                           hidden_states := acc_hidden_states st;
                           attentions := acc_self_attentions st;
                           reshaped_hidden_states := acc_reshaped_hidden_states st |}).

(** *** NatModel *)

(** The objects a forward pass reads and writes: the configuration shared
    by a model and its sub-models, and the random generator. *)
Record Store : Type := mkStore {
  config : NatConfig;
  generator : Generator
}.

Definition with_generator {A} (m : Stateful Generator A) : Stateful Store A :=
  zoom generator (λ g s, {| config := config s; generator := g |}) m.

Definition set_problem_type (v : string) : Stateful Store unit :=
  modify (λ s,
    let c := config s in
    {| config :=
         {| patch_size := patch_size c; num_channels := num_channels c;
            embed_dim := embed_dim c; depths := depths c; num_heads := num_heads c;
            kernel_size := kernel_size c; mlp_ratio := mlp_ratio c;
            qkv_bias := qkv_bias c; hidden_act := hidden_act c;
            hidden_dropout_prob := hidden_dropout_prob c;
            attention_probs_dropout_prob := attention_probs_dropout_prob c;
            drop_path_rate := drop_path_rate c; layer_norm_eps := layer_norm_eps c;
            layer_scale_init_value := layer_scale_init_value c;
            initializer_range := initializer_range c; num_labels := num_labels c;
            problem_type := Some v;
            output_attentions := output_attentions c;
            output_hidden_states := output_hidden_states c;
            use_return_dict := use_return_dict c;
            chunk_size_feed_forward := chunk_size_feed_forward c;
            stage_names := stage_names c; out_features := out_features c |};
       generator := generator s |}).

Record NatModelOutput : Type := mkNatModelOutput {
  mo_last_hidden_state : Tensor;
  pooler_output : option Tensor;
  mo_hidden_states : option (list Tensor);
  mo_attentions : option (list Tensor);
  mo_reshaped_hidden_states : option (list Tensor)
}.

Inductive ModelReturn : Type :=
  | ModelTuple (items : list Value)
  | ModelRecord (r : NatModelOutput).

Definition of_optional_tensor (o : option Tensor) : Value :=
  match o with Some t => VTensor t | None => VNone end.

Definition ModelReturn_items (o : ModelReturn) : list Value :=
  match o with
  | ModelTuple items => items
  | ModelRecord r =>
      not_None [VTensor (mo_last_hidden_state r); of_optional_tensor (pooler_output r);
                of_optional (mo_hidden_states r); of_optional (mo_attentions r);
                of_optional (mo_reshaped_hidden_states r)]
  end.

(** A value used where a tensor is expected. *)
Definition as_tensor (v : Value) : Result Tensor :=
  match v with
  | VTensor t => Ok t
  | _ => Raise TypeError
  end.

Record NatModel : Type := mkNatModel {
  m_num_levels : nat;
  m_num_features : nat;
  embeddings : NatEmbeddings;
  encoder : NatEncoder;
  layernorm : LayerNorm;
  pooler : bool
}.

(** [int(embed_dim * 2 ** (num_levels - 1))]; [2 ** -1] is [0.5]. *)
Definition last_stage_width (embed_dim num_levels : nat) : nat :=
  match num_levels with
  | 0 => embed_dim / 2
  | S n => embed_dim * 2 ^ n
  end.

Definition NatModel_init (config : NatConfig) (add_pooling_layer : bool) : Result NatModel :=
  let num_levels := length (depths config) in
  let num_features := last_stage_width (embed_dim config) num_levels in
  embeddings ← NatEmbeddings_init config;
  encoder ← NatEncoder_init config;
  mret {| m_num_levels := num_levels;
          m_num_features := num_features;
          embeddings := embeddings;
          encoder := encoder;
          layernorm := LayerNorm_init [num_features] (layer_norm_eps config);
          pooler := add_pooling_layer |}.

(** Attribute access on the cells, by name. *)
Inductive Attribute : Type :=
  | AInt (n : nat)
  | ABool (b : bool)
  | AStages (cells : list NatStage)
  | ALayers (cells : list NatLayer)
  | ADownsampler (cell : option NatDownsampler).

Definition NatEncoder_getattr (self : NatEncoder) (name : string) : Result Attribute :=
  if decide (name = "num_levels") then Ok (AInt (num_levels self))
  else if decide (name = "levels") then Ok (AStages (levels self))
  else Raise (AttributeError "NatEncoder" name).

Definition NatStage_getattr (self : NatStage) (name : string) : Result Attribute :=
  if decide (name = "dim") then Ok (AInt (st_dim self))
  else if decide (name = "layers") then Ok (ALayers (layers self))
  else if decide (name = "downsample") then Ok (ADownsampler (downsample self))
  else if decide (name = "pointing") then Ok (ABool (pointing self))
  else Raise (AttributeError "NatStage" name).

(** [cells[i]] on an attribute that holds a list of stages. *)
Definition Attribute_getitem (a : Attribute) (i : nat) : Result NatStage :=
  match a with
  | AStages cells => tuple_at cells i
  | _ => Raise TypeError
  end.

Definition Attribute_class (a : Attribute) : string :=
  match a with
  | AInt _ => "int"
  | ABool _ => "bool"
  | AStages _ | ALayers _ => "CellList"
  | ADownsampler (Some _) => "NatDownsampler"
  | ADownsampler None => "NoneType"
  end.

(** [a.prune_heads(heads)] on the value of an attribute of a stage: none of
    them is an attention module. *)
Definition Attribute_prune_heads (a : Attribute) (heads : list nat) : Result unit :=
  Raise (AttributeError (Attribute_class a) "prune_heads").

(** [NatModel._prune_heads(heads_to_prune)]: the dictionary is given by its
    items in insertion order. *)
Definition NatModel__prune_heads (heads_to_prune : list (nat * list nat))
  : Stateful NatModel unit :=
  foldM (λ _ '(layer, heads),
           self ← get;
           cells ← lift (NatEncoder_getattr (encoder self) "layer");
           stage ← lift (Attribute_getitem cells layer);
           attention ← lift (NatStage_getattr stage "attention");
           lift (Attribute_prune_heads attention heads))
        tt heads_to_prune.

Definition NatModel_construct (self : NatModel) (pixel_values : option Tensor)
    (output_attentions output_hidden_states return_dict : option bool)
  : Stateful Store ModelReturn :=
  cfg ← gets config;
  let output_attentions := default (modeling_nat.output_attentions cfg) output_attentions in
  let output_hidden_states :=
    default (modeling_nat.output_hidden_states cfg) output_hidden_states in
  let return_dict := default (use_return_dict cfg) return_dict in
  pixel_values ←
    lift (match pixel_values with
          | None => Raise (ValueError "You have to specify pixel_values")
          | Some t => Ok t
          end);
  embedding_output ← lift (NatEmbeddings_construct (embeddings self) pixel_values);
  encoder_outputs ←
    with_generator (NatEncoder_construct (encoder self) embedding_output
                      output_attentions output_hidden_states false return_dict);
  sequence_output ← lift (tuple_at (EncoderReturn_items encoder_outputs) 0 ≫= as_tensor);
  sequence_output ← lift (LayerNorm_construct (layernorm self) sequence_output);
  pooled_output ←
    (if pooler self then
       lift (x ← flatten_1_2 sequence_output;
             x ← swapaxes_1_2 x;
             pooled_output ← AdaptiveAvgPool1d_1 x;
             Some <$> flatten_from_1 pooled_output)
     else pure None);
  if negb return_dict then
    pure (ModelTuple ([VTensor sequence_output; of_optional_tensor pooled_output]
                      ++ drop 1 (EncoderReturn_items encoder_outputs)))
  else
    match encoder_outputs with
    | EncoderRecord r =>
        pure (ModelRecord {| mo_last_hidden_state := sequence_output;
                             pooler_output := pooled_output;
                             mo_hidden_states := hidden_states r;
                             mo_attentions := attentions r;
                             mo_reshaped_hidden_states := reshaped_hidden_states r |})
    | EncoderTuple _ => lift (Raise (AttributeError "tuple" "hidden_states"))
    end.

(** *** NatForImageClassification *)

Record NatImageClassifierOutput : Type := mkNatImageClassifierOutput {
  loss : option Tensor;
  logits : Tensor;
  co_hidden_states : option (list Tensor);
  co_attentions : option (list Tensor);
  co_reshaped_hidden_states : option (list Tensor)
}.

Inductive ClassifierReturn : Type :=
  | ClassifierTuple (items : list Value)
  | ClassifierRecord (r : NatImageClassifierOutput).

(** [self.classifier] is a dense layer, or [nn.Identity()] when there are no
    labels. *)
Record NatForImageClassification : Type := mkNatForImageClassification {
  c_num_labels : nat;
  nat_ : NatModel;
  classifier : option Dense
}.

Definition NatForImageClassification_init (config : NatConfig)
  : Result NatForImageClassification :=
  nat_ ← NatModel_init config true;
  mret {| c_num_labels := num_labels config;
          nat_ := nat_;
          classifier :=
            if decide (0 < num_labels config)
            then Some (Dense_init (m_num_features nat_) (num_labels config) true)
            else None |}.

(** The value stored in [config.problem_type] when it is unset. *)
Definition infer_problem_type (num_labels : nat) (labels_dtype : DType) : string :=
  if decide (num_labels = 1) then "regression"
  else if bool_decide (1 < num_labels) &&
          (bool_decide (labels_dtype = int64) || bool_decide (labels_dtype = int32))
  then "single_label_classification"
  else "multi_label_classification".

(** [t.view(-1, n)] and [t.view(-1)] *)
Definition view_rows (t : Tensor) (n : nat) : Result Tensor :=
  if decide (n = 0) then Raise (ShapeError "view")
  else view t [numel (shape t) / n; n].

Definition view_flat (t : Tensor) : Result Tensor := view t [numel (shape t)].

(** The loss of the given problem type. *)
Definition loss_for (problem_type : option string) (num_labels : nat)
    (logits labels : Tensor) : Result (option Tensor) :=
  if decide (problem_type = Some "regression") then
    if decide (num_labels = 1) then Some <$> mse_loss (squeeze logits) (squeeze labels)
    else Some <$> mse_loss logits labels
  else if decide (problem_type = Some "single_label_classification") then
    l ← view_rows logits num_labels;
    t ← view_flat labels;
    Some <$> cross_entropy l t
  else if decide (problem_type = Some "multi_label_classification") then
    Some <$> binary_cross_entropy_with_logits logits labels
  else Ok None.

Definition NatForImageClassification_construct (self : NatForImageClassification)
    (pixel_values labels : option Tensor)
    (output_attentions output_hidden_states return_dict : option bool)
  : Stateful Store ClassifierReturn :=
  cfg ← gets config;
  let return_dict := default (use_return_dict cfg) return_dict in
  outputs ← NatModel_construct (nat_ self) pixel_values output_attentions
              output_hidden_states (Some return_dict);
  pooled_output ← lift (tuple_at (ModelReturn_items outputs) 1);
  logits ←
    lift (match classifier self with
          | Some d => as_tensor pooled_output ≫= Dense_construct d
          | None => as_tensor pooled_output
          end);
  loss ←
    match labels with
    | None => pure None
    | Some labels =>
        cfg ← gets config;
        _ ← (if decide (problem_type cfg = None)
             then set_problem_type (infer_problem_type (c_num_labels self) (dtype labels))
             else pure tt);
        cfg ← gets config;
        lift (loss_for (problem_type cfg) (c_num_labels self) logits labels)
    end;
  if negb return_dict then
    let output := VTensor logits :: drop 2 (ModelReturn_items outputs) in
    pure (ClassifierTuple
            (match loss with
             | Some l => VTensor l :: output
             | None => output
             end))
  else
    match outputs with
    | ModelRecord r =>
        pure (ClassifierRecord {| loss := loss;
                                  logits := logits;
                                  co_hidden_states := mo_hidden_states r;
                                  co_attentions := mo_attentions r;
                                  co_reshaped_hidden_states := mo_reshaped_hidden_states r |})
    | ModelTuple _ => lift (Raise (AttributeError "tuple" "hidden_states"))
    end.

(** *** NatBackbone *)

Record BackboneOutput : Type := mkBackboneOutput {
  feature_maps : list Tensor;
  bo_hidden_states : option (list Tensor);
  bo_attentions : option (list Tensor)
}.

Inductive BackboneReturn : Type :=
  | BackboneTuple (feature_maps : list Tensor) (rest : list Value)
  | BackboneRecord (r : BackboneOutput).


Record NatBackbone : Type := mkNatBackbone {
  bb_stage_names : list string;
  bb_out_features : list string;
  bb_embeddings : NatEmbeddings;
  bb_encoder : NatEncoder;
  bb_num_features : list nat;
  hidden_states_norms : gmap string LayerNorm
}.

(** [l.index(x)] *)
Fixpoint index_of (x : string) (l : list string) : option nat :=
  match l with
  | [] => None
  | y :: l' => if decide (x = y) then Some 0 else S <$> index_of x l'
  end.

(** Modelled from the spec: [BackboneMixin] of backbone_utils.py is not part
    of the sources at hand.  The stage names and the selected output stages
    are those of the configuration, and [channels] lists, for every selected
    stage, the width recorded in [num_features] at the position of its name
    among the stage names. *)
Definition channels (stage_names out_features : list string) (num_features : list nat)
  : Result (list nat) :=
  mapM (λ name, match index_of name stage_names with
                | Some i => tuple_at num_features i
                | None => Raise (KeyError name)
                end) out_features.

Definition NatBackbone_init (config : NatConfig) : Result NatBackbone :=
  let stage_names := stage_names config in
  let out_features := out_features config in
  embeddings ← NatEmbeddings_init config;
  encoder ← NatEncoder_init config;
  let num_features :=
    embed_dim config :: ((λ i, embed_dim config * 2 ^ i) <$> seq 0 (length (depths config))) in
  (* Add layer norms to hidden states of out_features *)
  chans ← channels stage_names out_features num_features;
  let hidden_states_norms :=
    foldl (λ (norms : gmap string LayerNorm) '(stage, num_channels),
             <[stage := LayerNorm_init [num_channels] default_epsilon]> norms)
          ∅ (zip out_features chans) in
  mret {| bb_stage_names := stage_names;
          bb_out_features := out_features;
          bb_embeddings := embeddings;
          bb_encoder := encoder;
          bb_num_features := num_features;
          hidden_states_norms := hidden_states_norms |}.

(** The body of the loop over the stages, for a selected stage. *)
Definition NatBackbone_feature_map (norm : LayerNorm) (hidden_state : Tensor)
  : Result Tensor :=
  match shape hidden_state with
  | [batch_size; num_channels; height; width] =>
      hidden_state ← contiguous <$> permute hidden_state [0; 2; 3; 1];
      hidden_state ← view hidden_state [batch_size; height * width; num_channels];
      hidden_state ← LayerNorm_construct norm hidden_state;
      hidden_state ← view hidden_state [batch_size; height; width; num_channels];
      contiguous <$> permute hidden_state [0; 3; 1; 2]
  | _ => Raise (ValueError "not enough values to unpack")
  end.

Definition NatBackbone_construct (self : NatBackbone) (pixel_values : Tensor)
    (output_hidden_states output_attentions return_dict : option bool)
  : Stateful Store BackboneReturn :=
  cfg ← gets config;
  let return_dict := default (use_return_dict cfg) return_dict in
  let output_hidden_states :=
    default (modeling_nat.output_hidden_states cfg) output_hidden_states in
  let output_attentions := default (modeling_nat.output_attentions cfg) output_attentions in
  embedding_output ← lift (NatEmbeddings_construct (bb_embeddings self) pixel_values);
  outputs ←
    with_generator (NatEncoder_construct (bb_encoder self) embedding_output
                      output_attentions true true true);
  outputs ← lift (match outputs with
                  | EncoderRecord r => Ok r
                  | EncoderTuple _ => Raise (AttributeError "tuple" "reshaped_hidden_states")
                  end);
  reshaped ← lift (match reshaped_hidden_states outputs with
                        | Some hs => Ok hs
                        | None => Raise TypeError
                        end);
  feature_maps ←
    foldM (λ feature_maps '(stage, hidden_state),
             if decide (stage ∈ bb_out_features self) then
               norm ← lift (match hidden_states_norms self !! stage with
                            | Some norm => Ok norm
                            | None => Raise (KeyError stage)
                            end);
               hidden_state ← lift (NatBackbone_feature_map norm hidden_state);
               pure (feature_maps ++ [hidden_state])
             else pure feature_maps)
          [] (zip (bb_stage_names self) reshaped);
  if negb return_dict then
    pure (BackboneTuple feature_maps
            (if output_hidden_states then [of_optional (hidden_states outputs)] else []))
  else
    pure (BackboneRecord {| feature_maps := feature_maps;
                            bo_hidden_states :=
                              if output_hidden_states then hidden_states outputs else None;
                            bo_attentions := attentions outputs |}).

End nat.

End modeling_nat.

(** ** modeling_auto.py *)

Module modeling_auto.

Inductive WarningCategory : Type :=
  | UserWarning
  | DeprecationWarning
  | FutureWarning.

Record Warning : Type := mkWarning {
  message : string;
  category : WarningCategory
}.

(** An auto class: its name and the table behind its [_model_mapping], from
    architecture key to the name of the implementing class, in order. *)
Record AutoClass : Type := mkAutoClass {
  name : string;
  _model_mapping : list (string * string)
}.

Definition MODEL_WITH_LM_HEAD_MAPPING_NAMES : list (string * string) :=
  [("bert", "BertForMaskedLM"); ("roberta", "RobertaForMaskedLM")].

Definition MODEL_FOR_CAUSAL_LM_MAPPING_NAMES : list (string * string) :=
  [("bert", "BertLMHeadModel"); ("roberta", "RobertaLMHeadModel");
   ("gpt2", "GPT2LMHeadModel")].

Definition MODEL_FOR_MASKED_LM_MAPPING_NAMES : list (string * string) :=
  [("bert", "BertForMaskedLM")].

(** Private on purpose, the public class adds the deprecation warnings. *)
Definition _AutoModelWithLMHead : AutoClass :=
  {| name := "_AutoModelWithLMHead";
     _model_mapping := MODEL_WITH_LM_HEAD_MAPPING_NAMES |}.

Definition AutoModelForCausalLM : AutoClass :=
  {| name := "AutoModelForCausalLM";
     _model_mapping := MODEL_FOR_CAUSAL_LM_MAPPING_NAMES |}.

Definition AutoModelForMaskedLM : AutoClass :=
  {| name := "AutoModelForMaskedLM";
     _model_mapping := MODEL_FOR_MASKED_LM_MAPPING_NAMES |}.

(** A subclass inherits the class attributes it does not redefine. *)
Definition subclass (name : string) (base : AutoClass) : AutoClass :=
  {| name := name; _model_mapping := _model_mapping base |}.

Definition AutoModelWithLMHead : AutoClass :=
  subclass "AutoModelWithLMHead" _AutoModelWithLMHead.

Definition deprecation_message : string :=
  "The class `AutoModelWithLMHead` is deprecated and will be removed in a future version. Please use " +:+
  "`AutoModelForCausalLM` for causal language models, `AutoModelForMaskedLM` for masked language models and " +:+
  "`AutoModelForSeq2SeqLM` for encoder-decoder models.".

(** [needle in text] *)
Definition mentions (needle text : string) : bool :=
  match String.index 0 needle text with
  | Some _ => true
  | None => false
  end.

(** The class methods of [_BaseAutoModelClass] (auto_factory.py) are taken
    as given; they run on the state of the process: the warnings issued so
    far and everything else the loading of a model touches. *)
Section facade.
Variables Environment Config Model Args : Type.

Record Process : Type := mkProcess {
  issued : list Warning;
  environment : Environment
}.

Variable _BaseAutoModelClass_from_config :
  AutoClass → Config → Stateful Process Model.
Variable _BaseAutoModelClass_from_pretrained :
  AutoClass → string → Args → Stateful Process Model.

(** [warnings.warn(message, category)] *)
Definition warn (message : string) (category : WarningCategory) : Stateful Process unit :=
  modify (λ p, {| issued := issued p ++ [{| message := message; category := category |}];
                  environment := environment p |}).

(** [AutoModelWithLMHead.from_config(config)]; [super()] hands the class
    itself on to the method of the base class. *)
Definition AutoModelWithLMHead_from_config (config : Config) : Stateful Process Model :=
  _ ← warn deprecation_message FutureWarning;
  _BaseAutoModelClass_from_config AutoModelWithLMHead config.

(** [AutoModelWithLMHead.from_pretrained(pretrained_model_name_or_path,
    *model_args, **kwargs)] *)
Definition AutoModelWithLMHead_from_pretrained (pretrained_model_name_or_path : string)
    (model_args_kwargs : Args) : Stateful Process Model :=
  _ ← warn deprecation_message FutureWarning;
  _BaseAutoModelClass_from_pretrained AutoModelWithLMHead
    pretrained_model_name_or_path model_args_kwargs.

End facade.

Arguments mkProcess {Environment}.
Arguments issued {Environment}.
Arguments environment {Environment}.
Arguments warn {Environment}.
Arguments AutoModelWithLMHead_from_config {Environment Config Model}.
Arguments AutoModelWithLMHead_from_pretrained {Environment Model Args}.

End modeling_auto.

(** ** Notions used to state the properties *)

Module notions.
Import ms nn modeling_nat.

(** Number of rows of a head mask that are still set. *)
Definition count_true (l : list bool) : nat := length (filter (λ b, b = true) l).

(** Position of a head in the layout left by the earlier prunings. *)
Definition shifted (pruned : gset nat) (head : nat) : nat :=
  head - size (filter (λ h, h < head) pruned).

Section schedules.
Context `{Backend}.


End schedules.

End notions.

(** ** Concrete configurations, models and inputs *)

Module examples.
Import py ms nn modeling_nat.

(** A backend whose kernels return no data and whose parameters start at
    zero: enough to run the shape discipline of the model.  Its schedules
    are evenly spaced and, as MindSpore documents for [ops.linspace], a
    schedule of no step is refused. *)
Definition zero_backend : Backend :=
  {| kernel := λ _ _, []; fresh := λ _, 0%Qc;
     linspace := λ stop steps,
       if decide (steps = 0) then Raise (ValueError "steps must be positive")
       else Ok ((λ i, stop * Qc_of_nat i / Qc_of_nat (steps - 1))%Qc <$> seq 0 steps) |}.

Definition activations : gset string := {["gelu"; "relu"]}.

(** Four stages of [depth] layers each, and a classification head of
    [num_labels] labels. *)
Definition four_stage_config (depth num_labels : nat) : NatConfig :=
  {| patch_size := 4; num_channels := 3; embed_dim := 2;
     depths := replicate 4 depth; num_heads := [1; 1; 1; 1];
     kernel_size := 3; mlp_ratio := 2%Qc; qkv_bias := true; hidden_act := "gelu";
     hidden_dropout_prob := 0%Qc; attention_probs_dropout_prob := 0%Qc;
     drop_path_rate := 0%Qc; layer_norm_eps := Q2Qc (1 # 100000);
     layer_scale_init_value := 0%Qc; initializer_range := Q2Qc (1 # 50);
     num_labels := num_labels; problem_type := None;
     output_attentions := false; output_hidden_states := false;
     use_return_dict := true; chunk_size_feed_forward := 0;
     stage_names := ["stem"; "stage1"; "stage2"; "stage3"; "stage4"];
     out_features := ["stage1"; "stage3"] |}.

Definition with_patch_size (n : nat) (c : NatConfig) : NatConfig :=
  {| patch_size := n; num_channels := num_channels c; embed_dim := embed_dim c;
     depths := depths c; num_heads := num_heads c; kernel_size := kernel_size c;
     mlp_ratio := mlp_ratio c; qkv_bias := qkv_bias c; hidden_act := hidden_act c;
     hidden_dropout_prob := hidden_dropout_prob c;
     attention_probs_dropout_prob := attention_probs_dropout_prob c;
     drop_path_rate := drop_path_rate c; layer_norm_eps := layer_norm_eps c;
     layer_scale_init_value := layer_scale_init_value c;
     initializer_range := initializer_range c; num_labels := num_labels c;
     problem_type := problem_type c; output_attentions := output_attentions c;
     output_hidden_states := output_hidden_states c;
     use_return_dict := use_return_dict c;
     chunk_size_feed_forward := chunk_size_feed_forward c;
     stage_names := stage_names c; out_features := out_features c |}.

Definition zeros (dt : DType) (s : list nat) : Tensor :=
  {| dtype := dt; shape := s; data := replicate (numel s) 0%Qc |}.

(** One image of 32 by 32 pixels in three channels. *)
Definition example_pixels : Tensor := zeros float32 [1; 3; 32; 32].

(** A generator whose first draw is 1/10 and whose later draws are 9/10. *)
Definition example_generator : Generator :=
  {| draw := λ n, if decide (n = 0) then Q2Qc (1 # 10) else Q2Qc (9 # 10); pos := 0 |}.

Definition example_store (c : NatConfig) : Store :=
  {| config := c; generator := example_generator |}.

(** An attention module of three heads of size two, as constructed for a
    hidden size of six. *)
Definition example_attention_module : NeighborhoodAttentionModule :=
  let dense := Dense_init (H:=zero_backend) 6 6 true in
  {| self_ := {| num_attention_heads := 3; attention_head_size := 2;
                 all_head_size := 6; na_kernel_size := 3;
                 rpb := zeros float32 [3; 5; 5];
                 query := dense; key := dense; value := dense;
                 na_dropout := {| p := 0%Qc; dropout_training := false |} |};
     output := {| nao_dense := dense;
                  nao_dropout := {| p := 0%Qc; dropout_training := false |} |};
     pruned_heads := ∅ |}.

(** Two samples of two values each. *)
Definition example_batch : Tensor :=
  {| dtype := float32; shape := [2; 2];
     data := [Q2Qc 1; Q2Qc 2; Q2Qc 3; Q2Qc 4] |}.

End examples.

(** ** Further configurations *)

Module config_examples.
Import py ms nn modeling_nat examples.

Definition with_num_heads (l : list nat) (c : NatConfig) : NatConfig :=
  {| patch_size := patch_size c; num_channels := num_channels c; embed_dim := embed_dim c;
     depths := depths c; num_heads := l; kernel_size := kernel_size c;
     mlp_ratio := mlp_ratio c; qkv_bias := qkv_bias c; hidden_act := hidden_act c;
     hidden_dropout_prob := hidden_dropout_prob c;
     attention_probs_dropout_prob := attention_probs_dropout_prob c;
     drop_path_rate := drop_path_rate c; layer_norm_eps := layer_norm_eps c;
     layer_scale_init_value := layer_scale_init_value c;
     initializer_range := initializer_range c; num_labels := num_labels c;
     problem_type := problem_type c; output_attentions := output_attentions c;
     output_hidden_states := output_hidden_states c;
     use_return_dict := use_return_dict c;
     chunk_size_feed_forward := chunk_size_feed_forward c;
     stage_names := stage_names c; out_features := out_features c |}.

End config_examples.

(** * Properties *)

(** ** Python's true division on the sizes a model has *)

Module py_facts.
Import py.

Lemma Qle_eq_r (x y z : Q) : (x <= y)%Q → (y == z)%Q → (x <= z)%Q.
Proof. intros Hxy Hyz. apply (Qle_trans _ _ _ Hxy), Qle_lteq. by right. Qed.

Lemma pow2_pos e : (0 < pow2 e)%Q.
Proof.
  unfold pow2. destruct (Z.leb_spec 0 e).
  - rewrite <- (Zlt_Qlt 0). lia.
  - apply Qinv_lt_0_compat. rewrite <- (Zlt_Qlt 0). lia.
Qed.

Lemma round_half_even_integer (x : Q) (z : Z) :
  (x == inject_Z z)%Q → round_half_even x = z.
Proof.
  intros Hx. unfold round_half_even.
  rewrite (Qfloor_comp _ _ Hx), Qfloor_Z.
  assert (x - inject_Z z == 0)%Q as Hd by (rewrite Hx; ring).
  rewrite (Qcompare_comp _ _ Hd _ _ (Qeq_refl (1 # 2))). reflexivity.
Qed.

(** Dividing by the unit in the last place is a multiplication by a power
    of two as long as the exponent is at most 52. *)
Lemma scale_by_ulp (x : Q) (e : Z) :
  (e <= 52)%Z → (x / pow2 (e - 52) == x * inject_Z (2 ^ (52 - e)))%Q.
Proof.
  intros He. unfold pow2. destruct (Z.leb_spec 0 (e - 52)).
  - assert (e = 52%Z) as -> by lia. change (x / 1 == x * 1)%Q. field.
  - replace (- (e - 52))%Z with (52 - e)%Z by lia.
    assert (¬ inject_Z (2 ^ (52 - e)) == 0)%Q.
    { intros Hz. pose proof (pow2_pos (e - 52)) as Hp. unfold pow2 in Hp.
      destruct (Z.leb_spec 0 (e - 52)); [lia|].
      replace (- (e - 52))%Z with (52 - e)%Z in Hp by lia.
      rewrite Hz in Hp. by apply Qlt_irrefl in Hp. }
    field. done.
Qed.

Lemma unscale_by_ulp (z : Z) (e : Z) :
  (e <= 52)%Z → (inject_Z (z * 2 ^ (52 - e)) * pow2 (e - 52) == inject_Z z)%Q.
Proof.
  intros He. rewrite inject_Z_mult.
  rewrite <- (scale_by_ulp (inject_Z z) e He).
  field. apply Qnot_eq_sym, Qlt_not_eq, pow2_pos.
Qed.

Lemma floor_log2_small (a b : positive) (q : Z) :
  (0 < q < 2 ^ 53)%Z → (Zpos a = q * Zpos b)%Z →
  (floor_log2 (Zpos a # b) <= 52)%Z.
Proof.
  intros Hq Hab. unfold floor_log2. simpl Qnum. simpl Qden.
  assert (Z.log2 q < 53)%Z by (apply Z.log2_lt_pow2; lia).
  pose proof (Z.log2_mul_above q (Zpos b) ltac:(lia) ltac:(lia)) as Hmul.
  rewrite <- Hab in Hmul.
  destruct (Qle_bool _ _) eqn:Hle; [|lia].
  apply Qle_bool_iff in Hle.
  destruct (Z_le_gt_dec (Z.log2 (Z.pos a) - Z.log2 (Z.pos b)) 52) as [|Hbig]; [done|].
  exfalso. unfold pow2 in Hle.
  destruct (Z.leb_spec 0 (Z.log2 (Z.pos a) - Z.log2 (Z.pos b))); [|lia].
  assert (Zpos a # b == inject_Z q)%Q as Hx by (unfold Qeq; simpl; lia).
  pose proof (Qle_eq_r _ _ _ Hle Hx) as Hle'.
  rewrite <- Zle_Qle in Hle'.
  assert (2 ^ 53 <= 2 ^ (Z.log2 (Z.pos a) - Z.log2 (Z.pos b)))%Z
    by (apply Z.pow_le_mono_r; lia).
  lia.
Qed.

Lemma round_double_exact (a b : positive) (q : Z) :
  (0 < q < 2 ^ 53)%Z → (Zpos a = q * Zpos b)%Z →
  (round_double (Zpos a # b) == inject_Z q)%Q.
Proof.
  intros Hq Hab. unfold round_double.
  pose proof (floor_log2_small a b q Hq Hab) as He.
  assert (Zpos a # b == inject_Z q)%Q as Hx by (unfold Qeq; simpl; lia).
  rewrite (round_half_even_integer _ (q * 2 ^ (52 - floor_log2 (Z.pos a # b)))).
  - by apply unscale_by_ulp.
  - rewrite scale_by_ulp by done. rewrite inject_Z_mult.
    apply Qmult_comp; [exact Hx | reflexivity].
Qed.

(** An exact quotient below 2^53 survives the rounding to a double. *)
Lemma truediv_exact (a b q : nat) :
  b ≠ 0 → a = q * b → 0 < q → (Z.of_nat q < 2 ^ 53)%Z →
  truediv a b = Ok (Qc_of_nat q).
Proof.
  intros Hb Ha Hq Hlt. unfold truediv.
  rewrite decide_False by done. rewrite decide_False by (subst a; nia).
  assert (Z.of_nat a = Z.pos (Pos.of_nat a)) as -> by (subst a; nia).
  assert (round_double (Z.pos (Pos.of_nat a) # Pos.of_nat b) == inject_Z (Z.of_nat q))%Q
    as Hr.
  { apply round_double_exact; [lia|]. subst a. nia. }
  destruct (Qle_bool _ _) eqn:Hle.
  - exfalso. apply Qle_bool_iff in Hle.
    pose proof (Qle_eq_r _ _ _ Hle Hr) as Hle'.
    change (pow2 1024) with (inject_Z (2 ^ 1024)) in Hle'.
    rewrite <- Zle_Qle in Hle'.
    assert (2 ^ 53 < 2 ^ 1024)%Z by (apply Z.pow_lt_mono_r; lia). lia.
  - f_equal. apply Qc_is_canon. simpl. rewrite Qred_correct. exact Hr.
Qed.

Lemma int_of_nat (q : nat) : int (Qc_of_nat q) = q.
Proof. unfold int, Qc_of_nat, Qc_of_Z. cbn [this]. rewrite Qfloor_Z. lia. Qed.

End py_facts.

(** ** Rationals and row-major indices *)

Module tensor_facts.
Import ms.

Ltac qc_lra :=
  unfold Qclt, Qcle, Qcminus, Qcplus, Qcopp in *; simpl in *;
  rewrite ?Qred_correct in *; lra.

Lemma Qfloor_unique (y : Q) (z : Z) :
  (inject_Z z <= y)%Q → (y < inject_Z (z + 1))%Q → Qfloor y = z.
Proof.
  intros Hl Hu.
  pose proof (Qfloor_le y) as H1. pose proof (Qlt_floor y) as H2.
  assert (Qfloor y < z + 1)%Z.
  { rewrite Zlt_Qlt. eapply Qle_lt_trans; eauto. }
  assert (z < Qfloor y + 1)%Z.
  { rewrite Zlt_Qlt. eapply Qle_lt_trans; eauto. }
  lia.
Qed.

Lemma Qc_floor_0 (y : Qc) : (0 ≤ y)%Qc → (y < 1)%Qc → Qc_floor y = 0%Qc.
Proof.
  intros Hl Hu. unfold Qc_floor.
  rewrite (Qfloor_unique y 0); [by apply Qc_is_canon| exact Hl | exact Hu].
Qed.

Lemma Qc_floor_1 (y : Qc) : (1 ≤ y)%Qc → (y < 2)%Qc → Qc_floor y = 1%Qc.
Proof.
  intros Hl Hu. unfold Qc_floor.
  rewrite (Qfloor_unique y 1); [by apply Qc_is_canon| exact Hl | exact Hu].
Qed.

(** The keep mask of a sample: 0 when its draw falls below the drop
    probability, 1 otherwise. *)
Lemma keep_mask (p u : Qc) :
  (0 < p)%Qc → (p < 1)%Qc → (0 ≤ u)%Qc → (u < 1)%Qc →
  Qc_floor (1 - p + u) = if decide (u < p)%Qc then 0%Qc else 1%Qc.
Proof.
  intros Hp0 Hp1 Hu0 Hu1. case_decide as Hlt.
  - apply Qc_floor_0; qc_lra.
  - apply Qc_floor_1; qc_lra.
Qed.

Lemma numel_cons d ds : numel (d :: ds) = d * numel ds.
Proof. reflexivity. Qed.

Lemma numel_replicate_1 k : numel (replicate k 1) = 1.
Proof.
  induction k as [|k IH]; [done|]. change (1 * numel (replicate k 1) = 1). lia.
Qed.

Lemma unravel_bounded s i :
  i < numel s → Forall2 (λ j d, j < d) (unravel s i) s.
Proof.
  revert i. induction s as [|d ds IH]; intros i Hi; simpl; [constructor|].
  rewrite numel_cons in Hi.
  assert (0 < numel ds) by (destruct (numel ds); lia).
  constructor.
  - apply Nat.Div0.div_lt_upper_bound. lia.
  - apply IH. apply Nat.mod_upper_bound. lia.
Qed.

Lemma broadcast_index_bounded s idx :
  Forall2 (λ j d, j < d) idx s → broadcast_index s idx = idx.
Proof.
  unfold broadcast_index. induction 1 as [|j d idx s Hj ? IH]; simpl; [done|].
  rewrite IH. case_decide; [|done]. f_equal. lia.
Qed.

Lemma ravel_unravel s i : i < numel s → ravel s (unravel s i) = i.
Proof.
  revert i. induction s as [|d ds IH]; intros i Hi; simpl.
  - change (numel []) with 1 in Hi. lia.
  - rewrite numel_cons in Hi.
    assert (0 < numel ds) by (destruct (numel ds); lia).
    rewrite IH by (apply Nat.mod_upper_bound; lia).
    pose proof (Nat.div_mod_eq i (numel ds)). lia.
Qed.

Lemma ravel_ones k idx :
  ravel (replicate k 1) (broadcast_index (replicate k 1) idx) = 0.
Proof. revert idx. induction k as [|k IH]; intros [|j idx]; simpl; done. Qed.

Lemma broadcast_shape_ones ds :
  broadcast_shape ds (replicate (length ds) 1) = Some ds.
Proof.
  induction ds as [|d ds IH]; simpl; [done|].
  rewrite IH. simpl. repeat case_decide; try done; by subst.
Qed.

Lemma broadcast_shape_batch b ds :
  broadcast_shape (b :: ds) (b :: replicate (length ds) 1) = Some (b :: ds).
Proof. simpl. rewrite broadcast_shape_ones. simpl. by rewrite decide_True. Qed.

(** Reading a tensor at the index of one of its own positions. *)
Lemma read_own (t : Tensor) i :
  i < numel (shape t) →
  read t (shape t) (unravel (shape t) i) = default 0%Qc (data t !! i).
Proof.
  intros Hi. unfold read.
  rewrite broadcast_index_bounded by by apply unravel_bounded.
  by rewrite ravel_unravel.
Qed.

(** Reading a per-sample tensor at the index of a position of the whole
    batch: the sample the position belongs to. *)
Lemma read_batch (t : Tensor) b ds i :
  i < numel (b :: ds) →
  read t (b :: replicate (length ds) 1) (unravel (b :: ds) i)
  = default 0%Qc (data t !! (i / numel ds)).
Proof.
  intros Hi. unfold read. simpl unravel. unfold broadcast_index. simpl zip_with.
  simpl ravel.
  fold (broadcast_index (replicate (length ds) 1) (unravel ds (i `mod` numel ds))).
  rewrite ravel_ones, numel_replicate_1.
  case_decide as Hb; [|by rewrite Nat.mul_1_r, Nat.add_0_r].
  subst b. rewrite numel_cons in Hi.
  rewrite (Nat.div_small i) by lia. done.
Qed.

End tensor_facts.

(** ** Drop path *)

Module drop_path_properties.
Import ms modeling_nat tensor_facts examples.

(** C8: for every input tensor, of any shape, the drop-path operation
    called in non-training mode, or with drop_prob = 0, returns its input
    itself, and draws no random number. *)
Theorem drop_path_inference_is_identity (input : Tensor) (drop_prob : Qc)
    (training : bool) (g : Generator) :
  drop_path input drop_prob false g = (Ok input, g) ∧
  drop_path input 0%Qc training g = (Ok input, g).
Proof.
  unfold drop_path. split.
  - by rewrite orb_true_r.
  - by rewrite bool_decide_eq_true_2.
Qed.

(** C9: in training mode with 0 < p < 1 the drop-path operation makes one
    draw per batch sample (the generator advances by the batch size) and
    broadcasts it over the remaining dimensions: every element of a sample
    is zero when the draw of its sample is below p (a set of draws of
    measure p), and the input element scaled by 1/(1 − p) otherwise. *)
Theorem drop_path_per_sample (input : Tensor) (p : Qc) (g : Generator) :
  (0 < p)%Qc → (p < 1)%Qc → uniform g → well_shaped input → shape input ≠ [] →
  let batch := default 0 (head (shape input)) in
  let stride := numel (tail (shape input)) in
  ∃ out,
    drop_path input p true g = (Ok out, {| draw := draw g; pos := pos g + batch |}) ∧
    shape out = shape input ∧
    length (data out) = length (data input) ∧
    ∀ i x, data input !! i = Some x →
      data out !! i =
        Some (if decide (draw g (pos g + i / stride) < p)%Qc then 0%Qc
              else (x * (1 / (1 - p)))%Qc).
Proof.
  intros Hp0 Hp1 Hg Hwf Hne.
  destruct input as [dt s dat]. simpl in *. unfold well_shaped in Hwf. simpl in Hwf.
  destruct s as [|b ds]; [done|]. simpl.
  unfold drop_path.
  rewrite bool_decide_eq_false_2 by (intros ->; clear -Hp0; qc_lra).
  simpl orb. cbv iota.
  unfold shape_at. simpl. rewrite Nat.sub_0_r.
  unfold mbind, Stateful_bind, lift, rand. cbn beta iota.
  rewrite numel_cons, numel_replicate_1, Nat.mul_1_r.
  unfold mul, broadcast_op, ndim.
  cbn [shape div_scalar floor_ scalar_add map_scalar dtype data].
  assert (length (b :: replicate (length ds) 1) = length (b :: ds)) as ->
    by (simpl; by rewrite length_replicate).
  rewrite Nat.max_id. unfold align.
  assert (length (b :: replicate (length ds) 1) = length (b :: ds)) as ->
    by (simpl; by rewrite length_replicate).
  rewrite Nat.sub_diag. cbn [replicate app].
  rewrite broadcast_shape_batch.
  eexists. split; [reflexivity|]. cbn [shape data].
  split; [done|].
  split; [by rewrite length_fmap, length_seq|].
  intros i x Hx.
  assert (i < numel (b :: ds)) as Hi by (rewrite <- Hwf; by eapply lookup_lt_Some).
  rewrite list_lookup_fmap, lookup_seq_lt by done.
  cbn [fmap option_fmap option_map Nat.add].
  f_equal.
  pose proof (read_own (div_scalar {| dtype := dt; shape := b :: ds; data := dat |}
                          (1 - p)) i Hi) as Hr.
  cbn [shape div_scalar map_scalar] in Hr. cbn [div_scalar map_scalar].
  rewrite Hr. clear Hr.
  rewrite (read_batch _ b ds i Hi).
  assert (i `div` numel ds < b) as Hb.
  { rewrite numel_cons in Hi. apply Nat.Div0.div_lt_upper_bound. lia. }
  cbn [data div_scalar floor_ scalar_add map_scalar].
  rewrite !list_lookup_fmap, Hx, lookup_seq_lt by done.
  cbn [fmap option_fmap option_map default Nat.add].
  destruct (Hg (pos g + i `div` numel ds)) as [Hu0 Hu1].
  rewrite keep_mask by done.
  unfold id. case_decide; [ring|]. field.
  intros Hz. clear -Hz Hp1.
  assert (1 - p = 0)%Qc as Hz' by exact Hz.
  assert (p = 1%Qc) as -> by (transitivity ((1 - p) + p)%Qc; [rewrite Hz'|]; ring).
  qc_lra.
Qed.

Lemma example_generator_uniform : uniform example_generator.
Proof. intros n. simpl. case_decide; split; by vm_compute. Qed.

(** Two samples under drop probability 1/4: the first draw, 1/10, zeroes
    the first sample; the second draw, 9/10, keeps the second sample, scaled
    by 4/3. *)
Lemma drop_path_per_sample_witness :
  ∃ out,
    drop_path example_batch (Q2Qc (1 # 4)) true example_generator
      = (Ok out, {| draw := draw example_generator; pos := 2 |}) ∧
    shape out = [2; 2] ∧
    length (data out) = 4 ∧
    ∀ i x, data example_batch !! i = Some x →
      data out !! i =
        Some (if decide (draw example_generator (0 + i / 2) < Q2Qc (1 # 4))%Qc then 0%Qc
              else (x * (1 / (1 - Q2Qc (1 # 4))))%Qc).
Proof.
  apply (drop_path_per_sample example_batch (Q2Qc (1 # 4)) example_generator).
  - by vm_compute.
  - by vm_compute.
  - exact example_generator_uniform.
  - reflexivity.
  - discriminate.
Defined.

End drop_path_properties.

(** ** Head pruning *)

Module pruning_facts.
Import nn ms_utils notions.

Lemma count_true_cons b l :
  count_true (b :: l) = (if b then 1 else 0) + count_true l.
Proof. unfold count_true. rewrite filter_cons. destruct b; case_decide; done. Qed.

Lemma count_true_app l k : count_true (l ++ k) = count_true l + count_true k.
Proof. unfold count_true. by rewrite filter_app, length_app. Qed.

Lemma count_true_replicate n b :
  count_true (replicate n b) = if b then n else 0.
Proof.
  induction n as [|n IH]; simpl; [by destruct b|].
  rewrite count_true_cons, IH. by destruct b.
Qed.

Lemma count_true_clear l a :
  l !! a = Some true → S (count_true (<[a := false]> l)) = count_true l.
Proof.
  revert a. induction l as [|b l IH]; intros [|a] Ha; simpl in *; try done.
  - injection Ha as ->. by rewrite !count_true_cons.
  - rewrite !count_true_cons, <- (IH a Ha). lia.
Qed.

Lemma count_true_bind mask hs :
  count_true (mask ≫= replicate hs) = count_true mask * hs.
Proof.
  induction mask as [|b mask IH]; [done|].
  rewrite bind_cons, count_true_app, count_true_cons, IH, count_true_replicate.
  destruct b; lia.
Qed.

Lemma filter_all {A} (P : A → Prop) `{∀ x, Decision (P x)} (l : list A) :
  Forall P l → filter P l = l.
Proof.
  induction 1 as [|x l Hx ? IH]; [done|].
  rewrite filter_cons, IH. by case_decide.
Qed.

Lemma filter_agree {A} (P Q : A → Prop) `{∀ x, Decision (P x)} `{∀ x, Decision (Q x)}
    (l : list A) :
  Forall (λ x, P x ↔ Q x) l → filter P l = filter Q l.
Proof.
  induction 1 as [|x l Hx ? IH]; [done|].
  rewrite !filter_cons, IH. repeat case_decide; naive_solver.
Qed.

(** The positions selected by a flat mask are as many as its set entries. *)
Lemma positions_length (l : list bool) :
  length (filter (λ i, l !! i = Some true) (seq 0 (length l))) = count_true l.
Proof.
  induction l as [|b l IH] using rev_ind; [done|].
  rewrite length_app. simpl. rewrite Nat.add_1_r, seq_S, filter_app, length_app.
  rewrite count_true_app. simpl. f_equal.
  - rewrite <- IH. f_equal. apply filter_agree.
    apply Forall_forall. intros i Hi%elem_of_seq.
    by rewrite lookup_app_l by lia.
  - rewrite filter_cons, filter_nil. rewrite list_lookup_middle by done.
    rewrite count_true_cons. destruct b; case_decide; naive_solver.
Qed.

Lemma pruned_before_le (pruned : gset nat) h :
  size (filter (λ p, p < h) pruned) ≤ h.
Proof.
  trans (size (set_seq 0 h : gset nat)); [|by rewrite size_set_seq].
  apply subseteq_size. intros p [Hp _]%elem_of_filter.
  apply elem_of_set_seq. lia.
Qed.

Lemma pruned_between (pruned : gset nat) h1 h2 :
  h1 < h2 → h1 ∉ pruned →
  size (filter (λ p, p < h2) pruned)
  ≤ size (filter (λ p, p < h1) pruned) + (h2 - h1 - 1).
Proof.
  intros Hlt Hh1.
  rewrite <- (size_set_seq (C:=gset nat) (S h1) (h2 - h1 - 1)).
  trans (size (filter (λ p, p < h1) pruned ∪ set_seq (S h1) (h2 - h1 - 1))).
  2:{ rewrite size_union_alt. apply Nat.add_le_mono_l, subseteq_size. set_solver. }
  apply subseteq_size. intros p [Hp Hin]%elem_of_filter.
  destruct (decide (p < h1)).
  - apply elem_of_union_l, elem_of_filter. done.
  - apply elem_of_union_r, elem_of_set_seq.
    assert (p ≠ h1) by congruence. lia.
Qed.

(** Heads that are not yet pruned keep their order in the shrunk layout. *)
Lemma shifted_lt (pruned : gset nat) h1 h2 :
  h1 < h2 → h1 ∉ pruned → shifted pruned h1 < shifted pruned h2.
Proof.
  intros Hlt Hh1. unfold shifted.
  pose proof (pruned_before_le pruned h1).
  pose proof (pruned_before_le pruned h2).
  pose proof (pruned_between pruned h1 h2 Hlt Hh1). lia.
Qed.

Lemma shifted_inj (pruned : gset nat) h1 h2 :
  h1 ∉ pruned → h2 ∉ pruned → shifted pruned h1 = shifted pruned h2 → h1 = h2.
Proof.
  intros H1 H2 Heq.
  destruct (Nat.lt_trichotomy h1 h2) as [Hlt | [-> | Hlt]]; [|done|].
  - pose proof (shifted_lt pruned h1 h2 Hlt H1). lia.
  - pose proof (shifted_lt pruned h2 h1 Hlt H2). lia.
Qed.

(** Clearing the rows of distinct heads: every head takes one row away. *)
Lemma clear_rows_spec (pruned : gset nat) (l : list nat) n mask :
  NoDup (shifted pruned <$> l) →
  foldr (λ head acc,
           mask ← acc;
           let head := head - size (filter (λ h, h < head) pruned) in
           if decide (head < length mask) then Ok (<[head := false]> mask)
           else Raise IndexError)
        (Ok (replicate n true)) l = Ok mask →
  length mask = n ∧ count_true mask + length l = n ∧
  ∀ i, i ∉ shifted pruned <$> l → i < n → mask !! i = Some true.
Proof.
  revert mask. induction l as [|h l IH]; intros mask Hnd Hrun; simpl in Hrun.
  - injection Hrun as <-. rewrite length_replicate, count_true_replicate.
    split_and!; [done|simpl; lia|]. intros i _ Hi. by apply lookup_replicate_2.
  - rewrite fmap_cons in Hnd. apply NoDup_cons in Hnd as [Hfresh Hnd].
    destruct (foldr _ _ l) as [mask'|e] eqn:Hl; simpl in Hrun; [|done].
    fold (shifted pruned h) in Hrun.
    case_decide as Hin; [|done]. injection Hrun as <-.
    destruct (IH mask' Hnd eq_refl) as (Hlen & Hcount & Hset).
    rewrite length_insert. split_and!; [done| |].
    + pose proof (count_true_clear mask' (shifted pruned h)
                    (Hset _ Hfresh ltac:(lia))). simpl. lia.
    + intros i Hi Hn. rewrite fmap_cons, not_elem_of_cons in Hi.
      destruct Hi as [Hne Hi]. rewrite list_lookup_insert_ne by done. by apply Hset.
Qed.

Lemma find_pruneable_spec heads n hs (pruned : gset nat) H index :
  find_pruneable_heads_and_indices heads n hs pruned = Ok (H, index) →
  H = list_to_set heads ∖ pruned ∧ length index = (n - size H) * hs ∧ size H ≤ n.
Proof.
  unfold find_pruneable_heads_and_indices. intros Hrun.
  destruct (foldr _ _ _) as [mask|e] eqn:Hmask; simpl in Hrun; [|done].
  injection Hrun as <- <-. split; [done|].
  apply clear_rows_spec in Hmask as (Hlen & Hcount & _).
  - rewrite positions_length, count_true_bind.
    unfold size, set_size. simpl. split; [f_equal|]; lia.
  - apply NoDup_fmap_2_strong; [|apply NoDup_elements].
    intros h1 h2 Hh1%elem_of_elements Hh2%elem_of_elements.
    apply shifted_inj; set_solver.
Qed.

(** When every requested head is pruned already, nothing is selected for
    pruning and every position is kept. *)
Lemma find_pruneable_nothing heads n hs (pruned : gset nat) :
  list_to_set heads ⊆ pruned →
  find_pruneable_heads_and_indices heads n hs pruned = Ok (∅, seq 0 (n * hs)).
Proof.
  intros Hsub. unfold find_pruneable_heads_and_indices.
  assert (list_to_set heads ∖ pruned = (∅ : gset nat)) as -> by set_solver.
  rewrite elements_empty. cbn [foldr]. unfold mbind at 1. unfold Result_bind.
  cbn [mret Result_ret]. do 2 f_equal.
  assert (replicate n true ≫= replicate hs = replicate (n * hs) true) as ->.
  { induction n as [|n IH]; [done|].
    change (replicate (S n) true) with (true :: replicate n true).
    rewrite bind_cons, IH. by rewrite <- replicate_add. }
  rewrite length_replicate. apply filter_all, Forall_forall.
  intros i Hi%elem_of_seq. apply lookup_replicate_2. lia.
Qed.

Lemma mapM_Ok_length {A B} (f : A → Result B) l r :
  mapM f l = Ok r → length r = length l.
Proof.
  revert r. induction l as [|a l IH]; intros r Hr; simpl in Hr.
  - by injection Hr as <-.
  - destruct (f a); simpl in Hr; [|done].
    destruct (mapM f l) eqn:Hl; simpl in Hr; [|done].
    injection Hr as <-. simpl. f_equal. by apply IH.
Qed.

Lemma mapM_Ok_Forall {A B} (P : B → Prop) (f : A → Result B) l r :
  (∀ a b, f a = Ok b → P b) → mapM f l = Ok r → Forall P r.
Proof.
  intros Hf. revert r. induction l as [|a l IH]; intros r Hr; simpl in Hr.
  - injection Hr as <-. constructor.
  - destruct (f a) eqn:Ha; simpl in Hr; [|done].
    destruct (mapM f l) eqn:Hl; simpl in Hr; [|done].
    injection Hr as <-. constructor; eauto.
Qed.

Lemma mapM_Forall2 {A B} (f : A → Result B) l r :
  mapM f l = Ok r → Forall2 (λ a b, f a = Ok b) l r.
Proof.
  revert r. induction l as [|a l IH]; intros r Hr; simpl in Hr.
  - injection Hr as <-. constructor.
  - destruct (f a) eqn:Ha; simpl in Hr; [|done].
    destruct (mapM f l) eqn:Hl; simpl in Hr; [|done].
    injection Hr as <-. constructor; eauto.
Qed.

Lemma mapM_agree {A B} (f g : A → Result B) l :
  Forall (λ a, f a = g a) l → mapM f l = mapM g l.
Proof. induction 1 as [|a l Ha ? IH]; [done|]. simpl. by rewrite Ha, IH. Qed.

(** Selecting every position of a list gives the list back. *)
Lemma select_all {A} (l : list A) : mapM (tuple_at l) (seq 0 (length l)) = Ok l.
Proof.
  induction l as [|a l IH] using rev_ind; [done|].
  rewrite length_app. simpl. rewrite Nat.add_1_r, seq_S. simpl.
  assert (∀ k r, mapM (tuple_at (l ++ [a])) k = Ok r →
          mapM (tuple_at (l ++ [a])) (k ++ [length l]) = Ok (r ++ [a])) as Hsnoc.
  { induction k as [|i k IHk]; intros r Hr; simpl in *.
    - injection Hr as <-. unfold tuple_at. by rewrite list_lookup_middle.
    - destruct (tuple_at (l ++ [a]) i); simpl in *; [|done].
      destruct (mapM _ k); simpl in *; [|done].
      injection Hr as <-. by rewrite (IHk _ eq_refl). }
  apply Hsnoc.
  etrans; [|exact IH]. apply mapM_agree, Forall_forall.
  intros i Hi%elem_of_seq. unfold tuple_at. rewrite lookup_app_l by lia. done.
Qed.

Lemma prune_rows_spec layer index r :
  prune_linear_layer layer index 0 = Ok r →
  length (weight r) = length index ∧ out_channels r = length index ∧
  match bias r with Some b => length b = length index | None => True end.
Proof.
  unfold prune_linear_layer. rewrite decide_True by done.
  destruct (mapM (tuple_at (weight layer)) index) as [W|] eqn:HW; simpl; [|done].
  destruct (bias layer) as [b|]; simpl.
  - destruct (mapM (tuple_at b) index) as [b'|] eqn:Hb; simpl; [|done].
    intros [= <-]. simpl. apply mapM_Ok_length in HW, Hb. done.
  - intros [= <-]. simpl. apply mapM_Ok_length in HW. done.
Qed.

Lemma prune_rows_all layer n :
  length (weight layer) = n → out_channels layer = n →
  match bias layer with Some b => length b = n | None => True end →
  prune_linear_layer layer (seq 0 n) 0 = Ok layer.
Proof.
  intros HW Hout Hb. destruct layer as [cin cout W b]. simpl in *. subst n.
  unfold prune_linear_layer. simpl. rewrite select_all. simpl.
  destruct b as [b|]; simpl.
  - rewrite <- Hb, select_all. simpl. rewrite Hb, length_seq. by subst cout.
  - rewrite length_seq. by subst cout.
Qed.

Lemma prune_cols_spec layer index r :
  prune_linear_layer layer index 1 = Ok r →
  Forall (λ row, length row = length index) (weight r) ∧ in_channels r = length index.
Proof.
  unfold prune_linear_layer. rewrite decide_False by done.
  destruct (mapM _ (weight layer)) as [W|] eqn:HW; simpl; [|done].
  assert (Forall (λ row, length row = length index) W) as HF.
  { eapply mapM_Ok_Forall; [|exact HW]. intros row row' Hrow.
    by apply mapM_Ok_length in Hrow. }
  destruct (bias layer) as [b|]; simpl; unfold mret, Result_ret; intros [= <-]; done.
Qed.

Lemma prune_cols_all layer n :
  Forall (λ row, length row = n) (weight layer) → in_channels layer = n →
  prune_linear_layer layer (seq 0 n) 1 = Ok layer.
Proof.
  intros HW Hin. destruct layer as [cin cout W b]. simpl in *. subst cin.
  unfold prune_linear_layer. simpl.
  assert (mapM (λ row, mapM (tuple_at row) (seq 0 n)) W = Ok W) as ->.
  { induction HW as [|row W Hrow ? IH]; [done|]. simpl.
    rewrite <- Hrow at 1. rewrite select_all. simpl. by rewrite IH. }
  simpl. destruct b; simpl; by rewrite length_seq.
Qed.

End pruning_facts.

Module pruning_properties.
Import nn ms_utils modeling_nat pruning_facts examples.

(** C7: head pruning on an attention module is idempotent: once a call of
    prune_heads with a list of heads has gone through, a second call with
    the same list goes through as well and leaves the module (head count,
    aggregate head size, the four projection layers and the set of pruned
    heads) exactly as the first call left it. *)
Theorem prune_heads_idempotent (heads : list nat) (m m1 : NeighborhoodAttentionModule) :
  prune_heads heads m = (Ok tt, m1) →
  prune_heads heads m1 = (Ok tt, m1).
Proof.
  unfold prune_heads. case_decide as Hlen.
  { unfold pure. by intros [= <-]. }
  unfold mbind, Stateful_bind, get, lift, set_self, modify. cbn beta iota.
  destruct (find_pruneable_heads_and_indices _ _ _ _) as [[H index]|] eqn:Hfind; [|done].
  cbn beta iota.
  destruct (prune_linear_layer (query _) index 0) as [q|] eqn:Hq; [|done]. cbn.
  destruct (prune_linear_layer (key _) index 0) as [k|] eqn:Hk; [|done]. cbn.
  destruct (prune_linear_layer (value _) index 0) as [v|] eqn:Hv; [|done]. cbn.
  destruct (prune_linear_layer (nao_dense _) index 1) as [d|] eqn:Hd; [|done]. cbn.
  intros [= <-]. cbn.
  apply find_pruneable_spec in Hfind as (HH & Hindex & Hsize).
  assert (list_to_set heads ⊆ pruned_heads m ∪ H) as Hsub.
  { rewrite HH. intros h Hh. destruct (decide (h ∈ pruned_heads m)); set_solver. }
  rewrite (find_pruneable_nothing _ _ _ _ Hsub).
  cbn.
  apply prune_rows_spec in Hq as (Hq1 & Hq2 & Hq3).
  apply prune_rows_spec in Hk as (Hk1 & Hk2 & Hk3).
  apply prune_rows_spec in Hv as (Hv1 & Hv2 & Hv3).
  apply prune_cols_spec in Hd as (Hd1 & Hd2).
  rewrite <- Hindex.
  rewrite (prune_rows_all q), (prune_rows_all k), (prune_rows_all v), (prune_cols_all d);
    try done.
  cbn. rewrite size_empty, Nat.sub_0_r, union_empty_r_L. done.
Qed.

(** An attention module of three heads of size two: pruning head 2 leaves
    two heads, and pruning head 2 again changes nothing. *)
Lemma prune_heads_idempotent_witness :
  ∃ m1,
    NeighborhoodAttentionModule_init (H:=zero_backend) false (four_stage_config 1 0) 6 3 3
      = Ok example_attention_module ∧
    prune_heads [2] example_attention_module = (Ok tt, m1) ∧
    num_attention_heads (self_ m1) = 2 ∧
    prune_heads [2] m1 = (Ok tt, m1).
Proof.
  eexists.
  split; [vm_compute; reflexivity|].
  split; [vm_compute; reflexivity|].
  split; [reflexivity|].
  apply (prune_heads_idempotent [2] example_attention_module).
  vm_compute. reflexivity.
Defined.

End pruning_properties.

(** ** Construction of the cells, and the attention kernels *)

Module construction_properties.
Import py ms nn ms_utils modeling_nat py_facts examples.

Section construction.
Context `{Backend}.
Variable training : bool.

(** C1: both kernel entry points raise OptionalDependencyNotAvailable on
    every argument list; so NeighborhoodAttention.construct never returns:
    it raises in one of its three projections or, once these have gone
    through, raises OptionalDependencyNotAvailable at the first kernel call,
    and no other path computes a result. *)
Theorem neighborhood_attention_kernels_unavailable :
  (∀ (Args : Type) (args : Args),
      natten2dqkrpb args = Raise OptionalDependencyNotAvailable ∧
      natten2dav args = Raise OptionalDependencyNotAvailable) ∧
  (∀ self hidden_states output_attentions,
      NeighborhoodAttention_construct self hidden_states output_attentions =
        (_ ← Dense_construct (query self) hidden_states ≫= transpose_for_scores self;
         _ ← Dense_construct (key self) hidden_states ≫= transpose_for_scores self;
         _ ← Dense_construct (value self) hidden_states ≫= transpose_for_scores self;
         Raise OptionalDependencyNotAvailable)) ∧
  (∀ self hidden_states output_attentions,
      ∃ e, NeighborhoodAttention_construct self hidden_states output_attentions
           = Raise e).
Proof.
  split; [done|]. split.
  - intros self hs oa. unfold NeighborhoodAttention_construct.
    destruct (Dense_construct (query self) hs ≫= transpose_for_scores self); [|done].
    destruct (Dense_construct (key self) hs ≫= transpose_for_scores self); [|done].
    destruct (Dense_construct (value self) hs ≫= transpose_for_scores self); done.
  - intros self hs oa. unfold NeighborhoodAttention_construct.
    destruct (Dense_construct (query self) hs ≫= transpose_for_scores self); [|by eexists].
    destruct (Dense_construct (key self) hs ≫= transpose_for_scores self); [|by eexists].
    destruct (Dense_construct (value self) hs ≫= transpose_for_scores self); by eexists.
Qed.

Lemma NeighborhoodAttention_init_divisible config dim num_heads kernel_size q :
  num_heads ≠ 0 → dim = q * num_heads → 0 < q → (Z.of_nat q < 2 ^ 53)%Z →
  ∃ a, NeighborhoodAttention_init training config dim num_heads kernel_size = Ok a ∧
       attention_head_size a = q ∧ num_attention_heads a = num_heads ∧
       all_head_size a = dim.
Proof.
  intros Hn Hdim Hq Hlt. unfold NeighborhoodAttention_init, mod_.
  rewrite decide_False by done. cbn [mbind Result_bind].
  rewrite decide_False.
  2:{ intros Hr. apply Hr. subst dim. apply Nat.Div0.mod_mul. }
  cbn [mbind Result_bind].
  rewrite (truediv_exact dim num_heads q) by done. cbn [mbind Result_bind].
  rewrite int_of_nat. eexists. split; [reflexivity|]. cbn. split_and!; [done..|lia].
Qed.

(** C4: constructing an attention block whose dim is not a multiple of
    num_heads raises a ValueError (so for dim = 96 and num_heads = 7); when
    dim is a multiple of num_heads (dim = 96, num_heads = 3) construction
    succeeds and attention_head_size is dim / num_heads (32), for every
    quotient that a double holds exactly. *)
Theorem attention_head_count_invariant :
  (∀ config dim num_heads kernel_size,
      num_heads ≠ 0 → dim `mod` num_heads ≠ 0 →
      NeighborhoodAttention_init training config dim num_heads kernel_size =
        Raise (ValueError ("The hidden size (" +:+ pretty dim +:+
                 ") is not a multiple of the number of attention heads (" +:+
                 pretty num_heads +:+ ")"))) ∧
  (∀ config kernel_size,
      NeighborhoodAttention_init training config 96 7 kernel_size =
        Raise (ValueError
          "The hidden size (96) is not a multiple of the number of attention heads (7)")) ∧
  (∀ config kernel_size,
      ∃ a, NeighborhoodAttention_init training config 96 3 kernel_size = Ok a ∧
           attention_head_size a = 32 ∧ num_attention_heads a = 3 ∧
           all_head_size a = 96) ∧
  (∀ config dim num_heads kernel_size,
      num_heads ≠ 0 → dim `mod` num_heads = 0 → 0 < dim →
      (Z.of_nat (dim / num_heads) < 2 ^ 53)%Z →
      ∃ a, NeighborhoodAttention_init training config dim num_heads kernel_size = Ok a ∧
           attention_head_size a = dim / num_heads).
Proof.
  assert (∀ config dim num_heads kernel_size,
      num_heads ≠ 0 → dim `mod` num_heads ≠ 0 →
      NeighborhoodAttention_init training config dim num_heads kernel_size =
        Raise (ValueError ("The hidden size (" +:+ pretty dim +:+
                 ") is not a multiple of the number of attention heads (" +:+
                 pretty num_heads +:+ ")"))) as Hbad.
  { intros config dim num_heads kernel_size Hn Hr.
    unfold NeighborhoodAttention_init, mod_.
    rewrite decide_False by done. cbn [mbind Result_bind].
    by rewrite decide_True by done. }
  split_and!.
  - exact Hbad.
  - intros config kernel_size. by rewrite Hbad.
  - intros config kernel_size.
    apply (NeighborhoodAttention_init_divisible config 96 3 kernel_size 32);
      [done|done|lia|by vm_compute].
  - intros config dim num_heads kernel_size Hn Hr Hdim Hlt.
    pose proof (Nat.div_mod_eq dim num_heads) as Hdm.
    destruct (NeighborhoodAttention_init_divisible config dim num_heads kernel_size
                (dim / num_heads)) as (a & Ha & Hs & _); try done; [lia| |by eauto].
    destruct (dim / num_heads); lia.
Qed.

(** C3: constructing the patch embedding with a patch size other than 4
    raises a ValueError, at construction; with patch size 4, 64 embedding
    dimensions and 3 channels an input of shape (1, 3, 224, 224) gives an
    output of shape (1, 56, 56, 64), and in general an input of shape
    (batch, channels, 4h, 4w) gives (batch, h, w, embed_dim). *)
Theorem patch_embeddings_patch_size_and_shape :
  (∀ config, patch_size config ≠ 4 →
      NatPatchEmbeddings_init config =
        Raise (ValueError "Dinat only supports patch size of 4 at the moment.")) ∧
  (∀ config pixel_values,
      patch_size config = 4 → embed_dim config = 64 → num_channels config = 3 →
      shape pixel_values = [1; 3; 224; 224] →
      ∃ self out,
        NatPatchEmbeddings_init config = Ok self ∧
        NatPatchEmbeddings_construct self pixel_values = Ok out ∧
        shape out = [1; 56; 56; 64]) ∧
  (∀ config pixel_values batch height width,
      patch_size config = 4 → 0 < height → 0 < width →
      shape pixel_values = [batch; num_channels config; 4 * height; 4 * width] →
      ∃ self out,
        NatPatchEmbeddings_init config = Ok self ∧
        NatPatchEmbeddings_construct self pixel_values = Ok out ∧
        shape out = [batch; height; width; embed_dim config]).
Proof.
  assert (∀ config pixel_values batch height width,
      patch_size config = 4 → 0 < height → 0 < width →
      shape pixel_values = [batch; num_channels config; 4 * height; 4 * width] →
      ∃ self out,
        NatPatchEmbeddings_init config = Ok self ∧
        NatPatchEmbeddings_construct self pixel_values = Ok out ∧
        shape out = [batch; height; width; embed_dim config]) as Hshape.
  { intros config pv b h w Hps Hh Hw Hshape.
    unfold NatPatchEmbeddings_init. rewrite decide_True by done.
    cbn [mbind Result_bind mret Result_ret].
    eexists. eexists. split; [reflexivity|].
    unfold NatPatchEmbeddings_construct. rewrite Hshape.
    cbn [pe_num_channels projection fst snd].
    rewrite decide_False by (intros Hc; by apply Hc).
    unfold Conv2d_construct at 2. rewrite Hshape.
    cbn [Conv2d_init conv_in_channels conv_out_channels conv_kernel_size
         conv_stride conv_padding].
    rewrite decide_True by done.
    assert (∀ n, 0 < n → conv_extent (2 * n) 3 2 1 = Some n) as Hext.
    { intros n Hn. unfold conv_extent. rewrite (decide_False (P:=2 = 0)) by done.
      rewrite decide_False by lia. f_equal.
      replace (2 * n + 2 * 1 - 3) with (1 + (n - 1) * 2) by lia.
      rewrite Nat.div_add by done. simpl. lia. }
    replace (4 * h) with (2 * (2 * h)) by lia.
    replace (4 * w) with (2 * (2 * w)) by lia.
    rewrite !Hext by lia. cbn [mbind Result_bind].
    unfold Conv2d_construct.
    cbn [shape conv_in_channels conv_out_channels conv_kernel_size conv_stride
         conv_padding].
    rewrite decide_True by done. rewrite !Hext by lia. cbn [mbind Result_bind].
    unfold permute. cbn. split; reflexivity. }
  split_and!.
  - intros config Hps. unfold NatPatchEmbeddings_init. by rewrite decide_False by done.
  - intros config pv Hps He Hc Hs.
    destruct (Hshape config pv 1 56 56) as (self & out & ? & ? & Hout);
      [done|lia|lia|by rewrite Hs, Hc|].
    exists self, out. by rewrite <- He.
  - exact Hshape.
Qed.

(** C6: the head-pruning entry point of NatModel, on a dictionary with at
    least one entry, raises an AttributeError at the lookup of the attribute
    [layer] of the encoder, and leaves the model as it was: no attention
    module is pruned. *)
Theorem NatModel__prune_heads_raises (self : NatModel) layer heads rest :
  NatModel__prune_heads ((layer, heads) :: rest) self =
    (Raise (AttributeError "NatEncoder" "layer"), self).
Proof. reflexivity. Qed.

End construction.

(** A patch size of 8 is refused; a patch size of 4 turns the example
    image of 32 by 32 pixels into a grid of 8 by 8 positions. *)
Lemma patch_embeddings_witness :
  NatPatchEmbeddings_init (H:=zero_backend) (with_patch_size 8 (four_stage_config 1 0))
    = Raise (ValueError "Dinat only supports patch size of 4 at the moment.") ∧
  ∃ self out,
    NatPatchEmbeddings_init (H:=zero_backend) (four_stage_config 1 0) = Ok self ∧
    NatPatchEmbeddings_construct (H:=zero_backend) self example_pixels = Ok out ∧
    shape out = [1; 8; 8; 2].
Proof.
  destruct (patch_embeddings_patch_size_and_shape (H:=zero_backend)) as (Hbad & _ & Hok).
  split.
  - apply Hbad. discriminate.
  - apply (Hok (four_stage_config 1 0) example_pixels 1 8 8); [reflexivity|lia|lia|reflexivity].
Defined.

(** 96 is not a multiple of 7, and 96 / 3 = 32. *)
Lemma attention_head_count_witness :
  NeighborhoodAttention_init (H:=zero_backend) false (four_stage_config 1 0) 96 7 3 =
    Raise (ValueError
      "The hidden size (96) is not a multiple of the number of attention heads (7)") ∧
  ∃ a, NeighborhoodAttention_init (H:=zero_backend) false (four_stage_config 1 0) 96 3 3
         = Ok a ∧
       attention_head_size a = 96 / 3.
Proof.
  destruct (attention_head_count_invariant (H:=zero_backend) false)
    as (_ & Hbad & _ & Hok).
  split.
  - apply Hbad.
  - apply (Hok (four_stage_config 1 0) 96 3 3); [discriminate|reflexivity|lia|by vm_compute].
Defined.

End construction_properties.

(** ** The deprecated facade *)

Module auto_properties.
Import modeling_auto.

(** C10: both operations of AutoModelWithLMHead issue one FutureWarning
    whose text names AutoModelForCausalLM, AutoModelForMaskedLM and
    AutoModelForSeq2SeqLM, and then run the operation of the base class on
    the class itself, which carries the table of the underlying LM-head
    facade; its result, a model or an exception, is returned unchanged, and
    the warning does not interrupt the call. *)
Theorem AutoModelWithLMHead_warns_then_delegates
    (Environment Config Model Args : Type)
    (from_config : AutoClass → Config → Stateful (Process Environment) Model)
    (from_pretrained : AutoClass → string → Args → Stateful (Process Environment) Model) :
  let warned := λ p : Process Environment,
    {| issued := issued p ++ [{| message := deprecation_message;
                                 category := FutureWarning |}];
       environment := environment p |} in
  (∀ config p,
      AutoModelWithLMHead_from_config from_config config p
      = from_config AutoModelWithLMHead config (warned p)) ∧
  (∀ path args p,
      AutoModelWithLMHead_from_pretrained from_pretrained path args p
      = from_pretrained AutoModelWithLMHead path args (warned p)) ∧
  (∀ p, warn deprecation_message FutureWarning p = (Ok tt, warned p)) ∧
  _model_mapping AutoModelWithLMHead = _model_mapping _AutoModelWithLMHead ∧
  mentions "AutoModelForCausalLM" deprecation_message = true ∧
  mentions "AutoModelForMaskedLM" deprecation_message = true ∧
  mentions "AutoModelForSeq2SeqLM" deprecation_message = true.
Proof.
  cbv zeta. split_and!; reflexivity.
Qed.

End auto_properties.

(** ** Layers and stages never return with the kernels as they are *)

Module encoder_facts.
Import py ms nn ms_utils modeling_nat notions.

Section encoder.
Context `{Backend}.
Variable training : bool.

Lemma NeighborhoodAttention_construct_raises self hidden_states output_attentions :
  ∃ e, NeighborhoodAttention_construct self hidden_states output_attentions = Raise e.
Proof.
  unfold NeighborhoodAttention_construct.
  destruct (Dense_construct (query self) _ ≫= _); [|by eexists].
  destruct (Dense_construct (key self) _ ≫= _); [|by eexists].
  destruct (Dense_construct (value self) _ ≫= _); by eexists.
Qed.

Lemma NeighborhoodAttentionModule_construct_raises self hidden_states output_attentions :
  ∃ e, NeighborhoodAttentionModule_construct self hidden_states output_attentions = Raise e.
Proof.
  unfold NeighborhoodAttentionModule_construct.
  destruct (NeighborhoodAttention_construct_raises (self_ self) hidden_states
              output_attentions) as [e ->]. by eexists.
Qed.

(** A layer never returns, and it fails before any random number is drawn. *)
Lemma NatLayer_construct_raises self hidden_states output_attentions g :
  ∃ e, NatLayer_construct training self hidden_states output_attentions g = (Raise e, g).
Proof.
  unfold NatLayer_construct.
  destruct (shape hidden_states) as [|? [|? [|? [|? [|]]]]]; try by eexists.
  unfold mbind, Stateful_bind, lift.
  destruct (LayerNorm_construct _ _) as [x|]; [|by eexists].
  destruct (maybe_pad _ _ _ _) as [[x' pads]|]; [|by eexists].
  destruct (shape x') as [|? [|? [|? [|? [|]]]]]; try by eexists.
  destruct (NeighborhoodAttentionModule_construct_raises (attention self) x'
              output_attentions) as [e ->]. by eexists.
Qed.

(** A stage returns only when it has no layer and attentions are not
    asked for; it then hands on its input, downsampled if it has a
    downsampler, next to the input itself. *)
Lemma NatStage_construct_Ok self hidden_states output_attentions g outs g' :
  NatStage_construct training self hidden_states output_attentions g = (Ok outs, g') →
  layers self = [] ∧ output_attentions = false ∧ g' = g ∧
  ∃ h, outs = [h; hidden_states] ∧
       match downsample self with
       | Some d => NatDownsampler_construct d hidden_states = Ok h
       | None => h = hidden_states
       end.
Proof.
  unfold NatStage_construct.
  destruct (shape hidden_states) as [|? [|? [|? [|? [|]]]]]; try done.
  destruct (layers self) as [|layer ls].
  - simpl. unfold mbind, Stateful_bind, pure, lift. simpl.
    destruct (downsample self) as [d|].
    + destruct (NatDownsampler_construct d hidden_states) as [h|]; [|done].
      destruct output_attentions; [done|]. intros [= <- <-]. eauto 10.
    + destruct output_attentions; [done|]. intros [= <- <-]. eauto 10.
  - simpl. unfold mbind at 1. unfold Stateful_bind at 1.
    unfold mbind at 1. unfold Stateful_bind at 1.
    unfold mbind at 1. unfold Stateful_bind at 1.
    destruct (NatLayer_construct_raises layer hidden_states output_attentions g)
      as [e ->]. done.
Qed.

End encoder.
End encoder_facts.

(** ** Shapes of the embeddings, and the table of the backbone *)

Module backbone_facts.
Import py ms nn ms_utils modeling_nat notions pruning_facts encoder_facts.

Section backbone.
Context `{Backend}.
Variable training : bool.
Variable ACT2FN : gset string.

Lemma permute_shape4 (t : Tensor) b h w c :
  shape t = [b; h; w; c] →
  (∃ t', permute t [0; 3; 1; 2] = Ok t' ∧ shape t' = [b; c; h; w]) ∧
  (∃ t', permute t [0; 2; 3; 1] = Ok t' ∧ shape t' = [b; w; c; h]).
Proof.
  intros Hs. unfold permute, ndim. rewrite Hs. simpl. split; eexists; split; done.
Qed.




(** The layer normalisations of the backbone, one per selected stage. *)
Lemma norms_lookup (g : nat → LayerNorm) (w : string → nat) (l : list string)
    (m0 : gmap string LayerNorm) (k : string) :
  foldl (λ (norms : gmap string LayerNorm) '(stage, num_channels),
           <[stage := g num_channels]> norms) m0 (zip l (w <$> l)) !! k
  = if decide (k ∈ l) then Some (g (w k)) else m0 !! k.
Proof.
  revert m0. induction l as [|x l IH]; intros m0.
  - cbn [zip zip_with fmap list_fmap foldl].
    destruct (decide (k ∈ [])) as [Hin|Hin]; [|done]. by apply elem_of_nil in Hin.
  - cbn [zip zip_with fmap list_fmap foldl]. rewrite IH.
    destruct (decide (k ∈ l)) as [Hin|Hin].
    + rewrite decide_True; [done|]. by apply elem_of_cons; right.
    + destruct (decide (k = x)) as [->|Hne].
      * rewrite lookup_insert_eq, decide_True; [done|]. apply elem_of_cons; by left.
      * rewrite lookup_insert_ne by done. rewrite decide_False; [done|].
        rewrite elem_of_cons. naive_solver.
Qed.


End backbone.
End backbone_facts.

(** ** Shapes through the embeddings and the downsampler *)

Module embeddings_properties.
Import py ms nn ms_utils modeling_nat notions examples backbone_facts.

Section embeddings.
Context `{Backend}.
Variable training : bool.

Lemma conv_extent_half (n : nat) : 0 < n → conv_extent n 3 2 1 = Some ((n + 1) / 2).
Proof.
  intros Hn. unfold conv_extent. rewrite decide_False by done.
  rewrite decide_False by lia. f_equal.
  replace (n + 2 * 1 - 3) with (n - 1) by lia.
  destruct n as [|n]; [lia|]. simpl Nat.sub. rewrite Nat.sub_0_r.
  replace (S n + 1) with (n + 1 * 2) by lia. rewrite Nat.div_add by done. lia.
Qed.

Lemma conv_extent_pos (n : nat) : 0 < n → 0 < (n + 1) / 2.
Proof.
  intros Hn. destruct n as [|n]; [lia|].
  replace (S n + 1) with (n + 1 * 2) by lia. rewrite Nat.div_add by done. lia.
Qed.

(** A 3 by 3 convolution of stride 2 and padding 1. *)
Lemma Conv2d_construct_half c_in c_out has_bias (x : Tensor) b h w :
  shape x = [b; c_in; h; w] → 0 < h → 0 < w →
  ∃ y, Conv2d_construct (Conv2d_init c_in c_out 3 2 1 has_bias) x = Ok y ∧
       shape y = [b; c_out; (h + 1) / 2; (w + 1) / 2] ∧ dtype y = dtype x.
Proof.
  intros Hs Hh Hw. unfold Conv2d_construct. rewrite Hs.
  cbn [Conv2d_init conv_in_channels conv_kernel_size conv_stride conv_padding
    conv_out_channels].
  rewrite decide_True by done. rewrite !conv_extent_half by done.
  eexists. split; [reflexivity|]. by cbn.
Qed.

Lemma permute_0231 (t : Tensor) b c h w :
  shape t = [b; c; h; w] →
  ∃ t', permute t [0; 2; 3; 1] = Ok t' ∧ shape t' = [b; h; w; c] ∧ dtype t' = dtype t.
Proof.
  intros Hs. unfold permute, ndim. rewrite Hs. simpl. eexists. split; done.
Qed.

Lemma LayerNorm_construct_last (norm : LayerNorm) (x : Tensor) (c : nat) (rest : list nat) :
  normalized_shape norm = [c] → shape x = rest ++ [c] →
  ∃ y, LayerNorm_construct norm x = Ok y ∧ shape y = shape x ∧ dtype y = dtype x.
Proof.
  intros Hn Hs. unfold LayerNorm_construct. rewrite Hn, Hs.
  rewrite decide_True by (by exists rest).
  eexists. split; [reflexivity|]. by cbn.
Qed.

(** X1: the embeddings of a configuration turn pixel values of shape
    (batch, num_channels, height, width), both extents positive, into a grid
    of shape (batch, ceil(height/4), ceil(width/4), embed_dim): the two
    convolutions each halve the extents, rounding up, and the layer
    normalisation and the dropout keep the shape and the element type. *)
Theorem NatEmbeddings_construct_shape config emb (pixel_values : Tensor) b h w :
  NatEmbeddings_init training config = Ok emb →
  shape pixel_values = [b; num_channels config; h; w] →
  0 < h → 0 < w →
  ∃ e, NatEmbeddings_construct emb pixel_values = Ok e ∧
       shape e = [b; (h + 3) / 4; (w + 3) / 4; embed_dim config] ∧
       dtype e = dtype pixel_values.
Proof.
  intros Hinit Hs Hh Hw.
  unfold NatEmbeddings_init, NatPatchEmbeddings_init in Hinit.
  case_decide; [|done]. cbn [mbind Result_bind mret Result_ret] in Hinit.
  injection Hinit as <-.
  unfold NatEmbeddings_construct, NatPatchEmbeddings_construct.
  cbn [patch_embeddings emb_norm emb_dropout pe_num_channels projection fst snd].
  rewrite Hs. rewrite decide_False by (intros Hne; by apply Hne).
  change (Nat.divmod (embed_dim config) 1 0 1).1 with (embed_dim config / 2).
  destruct (Conv2d_construct_half (num_channels config) (embed_dim config / 2) false
              pixel_values b h w Hs Hh Hw) as (x1 & -> & Hs1 & Hd1).
  cbn [mbind Result_bind].
  destruct (Conv2d_construct_half (embed_dim config / 2) (embed_dim config) false
              x1 b _ _ Hs1 (conv_extent_pos h Hh) (conv_extent_pos w Hw))
    as (x2 & -> & Hs2 & Hd2).
  cbn [mbind Result_bind].
  destruct (permute_0231 x2 _ _ _ _ Hs2) as (x3 & -> & Hs3 & Hd3).
  cbn [mbind Result_bind].
  destruct (LayerNorm_construct_last (LayerNorm_init [embed_dim config] default_epsilon)
              x3 (embed_dim config) [b; ((h + 1) / 2 + 1) / 2; ((w + 1) / 2 + 1) / 2]
              eq_refl Hs3) as (x4 & -> & Hs4 & Hd4).
  cbn [mbind Result_bind mret Result_ret]. eexists. split; [reflexivity|].
  cbn [Dropout_construct shape dtype]. split; [|congruence].
  assert (∀ n, ((n + 1) / 2 + 1) / 2 = (n + 3) / 4) as Hq.
  { intros n. replace 4 with (2 * 2) by done. rewrite <- Nat.Div0.div_div.
    f_equal. replace (n + 3) with (n + 1 + 1 * 2) by lia. by rewrite Nat.div_add. }
  by rewrite Hs4, Hs3, !Hq.
Qed.

(** X2: a downsampler for [dim] channels turns a grid of shape (batch,
    height, width, dim), both extents positive, into one of shape (batch,
    ceil(height/2), ceil(width/2), 2 dim) of the same element type; a grid
    whose last axis is not [dim] wide is refused. *)
Theorem NatDownsampler_halves_and_doubles dim (x : Tensor) b h w c :
  shape x = [b; h; w; c] →
  (c = dim → 0 < h → 0 < w →
   ∃ y, NatDownsampler_construct (NatDownsampler_init dim) x = Ok y ∧
        shape y = [b; (h + 1) / 2; (w + 1) / 2; 2 * dim] ∧ dtype y = dtype x) ∧
  (c ≠ dim →
   NatDownsampler_construct (NatDownsampler_init dim) x = Raise (ShapeError "Conv2d")).
Proof.
  intros Hs. unfold NatDownsampler_construct.
  destruct (proj1 (permute_shape4 x b h w c Hs)) as (x1 & Hx1 & Hs1).
  rewrite Hx1. cbn [mbind Result_bind].
  assert (dtype x1 = dtype x) as Hd1.
  { unfold permute in Hx1. destruct (is_permutation _ _); [|done]. by injection Hx1 as <-. }
  cbn [NatDownsampler_init reduction ds_norm].
  split.
  - intros -> Hh Hw.
    destruct (Conv2d_construct_half dim (2 * dim) false x1 b h w Hs1 Hh Hw)
      as (x2 & -> & Hs2 & Hd2).
    cbn [mbind Result_bind].
    destruct (permute_0231 x2 _ _ _ _ Hs2) as (x3 & -> & Hs3 & Hd3).
    cbn [mbind Result_bind].
    destruct (LayerNorm_construct_last (LayerNorm_init [2 * dim] default_epsilon)
                x3 (2 * dim) [b; (h + 1) / 2; (w + 1) / 2] eq_refl Hs3)
      as (x4 & -> & Hs4 & Hd4).
    eexists. split; [reflexivity|]. split; congruence.
  - intros Hc. unfold Conv2d_construct. rewrite Hs1.
    cbn [Conv2d_init conv_in_channels]. by rewrite decide_False.
Qed.

End embeddings.

(** An image of 30 by 17 pixels becomes a grid of 8 by 5 positions. *)
Lemma NatEmbeddings_construct_shape_witness :
  ∃ emb e,
    NatEmbeddings_init (H:=zero_backend) false (four_stage_config 1 0) = Ok emb ∧
    NatEmbeddings_construct (H:=zero_backend) emb (zeros float32 [1; 3; 30; 17]) = Ok e ∧
    shape e = [1; 8; 5; 2].
Proof.
  destruct (NatEmbeddings_init (H:=zero_backend) false (four_stage_config 1 0))
    as [emb|] eqn:Hinit; [|by vm_compute in Hinit].
  destruct (NatEmbeddings_construct_shape (H:=zero_backend) false (four_stage_config 1 0)
              emb (zeros float32 [1; 3; 30; 17]) 1 30 17 Hinit eq_refl)
    as (e & He & Hs & _); [lia|lia|].
  exists emb, e. split; [done|]. split; [done|]. exact Hs.
Defined.

(** The grid of 28 by 28 positions and 96 channels becomes one of 14 by 14
    positions and 192 channels. *)
Lemma NatDownsampler_halves_and_doubles_witness :
  ∃ y, NatDownsampler_construct (H:=zero_backend) (NatDownsampler_init (H:=zero_backend) 96)
         (zeros float32 [1; 28; 28; 96]) = Ok y ∧
       shape y = [1; 14; 14; 192].
Proof.
  destruct (NatDownsampler_halves_and_doubles (H:=zero_backend) 96
              (zeros float32 [1; 28; 28; 96]) 1 28 28 96 eq_refl) as [Hok _].
  destruct Hok as (y & Hy & Hs & _); [done|lia|lia|].
  exists y. split; [exact Hy|exact Hs].
Defined.

End embeddings_properties.

(** ** Inputs that are refused *)

Module usage_errors.
Import py ms nn ms_utils modeling_nat notions examples.

Section usage.
Context `{Backend}.
Variable training : bool.

(** X3: pixel values whose channel axis differs from the configured number
    of channels are refused with a ValueError by the patch embeddings, before
    any convolution; the bare model, the classification model and the
    backbone hand this error on and leave configuration and generator as
    they were. *)
Theorem channel_mismatch_is_refused (pe : NatPatchEmbeddings)
    (pixel_values : Tensor) b c h w :
  shape pixel_values = [b; c; h; w] → c ≠ pe_num_channels pe →
  NatPatchEmbeddings_construct pe pixel_values = Raise (ValueError
       "Make sure that the channel dimension of the pixel values match with the one set in the configuration.") ∧
  (∀ self oa ohs rd s,
     patch_embeddings (embeddings self) = pe →
     NatModel_construct training self (Some pixel_values) oa ohs rd s
     = (Raise (ValueError
       "Make sure that the channel dimension of the pixel values match with the one set in the configuration."), s)) ∧
  (∀ self labels oa ohs rd s,
     patch_embeddings (embeddings (nat_ self)) = pe →
     NatForImageClassification_construct training self (Some pixel_values) labels oa ohs rd s
     = (Raise (ValueError
       "Make sure that the channel dimension of the pixel values match with the one set in the configuration."), s)) ∧
  (∀ self ohs oa rd s,
     patch_embeddings (bb_embeddings self) = pe →
     NatBackbone_construct training self pixel_values ohs oa rd s
     = (Raise (ValueError
       "Make sure that the channel dimension of the pixel values match with the one set in the configuration."), s)).
Proof.
  intros Hs Hc.
  assert (NatPatchEmbeddings_construct pe pixel_values
          = Raise (ValueError
       "Make sure that the channel dimension of the pixel values match with the one set in the configuration.")) as Hpe.
  { unfold NatPatchEmbeddings_construct. rewrite Hs. by rewrite decide_True. }
  assert (∀ emb, patch_embeddings emb = pe →
            NatEmbeddings_construct emb pixel_values = Raise (ValueError
       "Make sure that the channel dimension of the pixel values match with the one set in the configuration."))
    as Hemb.
  { intros emb <-. unfold NatEmbeddings_construct. by rewrite Hpe. }
  assert (∀ self oa ohs rd s,
     patch_embeddings (embeddings self) = pe →
     NatModel_construct training self (Some pixel_values) oa ohs rd s
     = (Raise (ValueError
       "Make sure that the channel dimension of the pixel values match with the one set in the configuration."), s)) as Hmodel.
  { intros self oa ohs rd s Hself. unfold NatModel_construct.
    unfold mbind, Stateful_bind, gets, lift. cbv beta iota zeta.
    by rewrite (Hemb _ Hself). }
  split_and!; [done|done| |].
  - intros self labels oa ohs rd s Hself. unfold NatForImageClassification_construct.
    unfold mbind at 1. unfold Stateful_bind at 1. unfold gets at 1. cbv beta iota zeta.
    unfold mbind at 1. unfold Stateful_bind at 1.
    by rewrite (Hmodel _ _ _ _ _ Hself).
  - intros self ohs oa rd s Hself. unfold NatBackbone_construct.
    unfold mbind, Stateful_bind, gets, lift. cbv beta iota zeta.
    by rewrite (Hemb _ Hself).
Qed.

End usage.

(** Pixel values of four channels on a model configured for three. *)
Lemma channel_mismatch_is_refused_witness :
  ∃ model,
    NatForImageClassification_init (H:=zero_backend) false activations
      (four_stage_config 1 5) = Ok model ∧
    NatForImageClassification_construct (H:=zero_backend) false model
      (Some (zeros float32 [1; 4; 32; 32])) (Some (zeros int64 [1])) None None None
      (example_store (four_stage_config 1 5))
    = (Raise (ValueError
       "Make sure that the channel dimension of the pixel values match with the one set in the configuration."), example_store (four_stage_config 1 5)).
Proof.
  destruct (NatForImageClassification_init (H:=zero_backend) false activations
              (four_stage_config 1 5)) as [model|] eqn:Hinit; [|by vm_compute in Hinit].
  exists model. split; [reflexivity|].
  assert (pe_num_channels (patch_embeddings (embeddings (nat_ model))) = 3) as Hch
    by (vm_compute in Hinit; by injection Hinit as <-).
  destruct (channel_mismatch_is_refused (H:=zero_backend) false
              (patch_embeddings (embeddings (nat_ model)))
              (zeros float32 [1; 4; 32; 32]) 1 4 32 32 eq_refl) as (_ & _ & Hcls & _).
  { rewrite Hch. lia. }
  apply Hcls. reflexivity.
Defined.

End usage_errors.

(** ** The cells of a layer *)

Module layer_facts.
Import py ms nn ms_utils modeling_nat notions py_facts encoder_facts.

Section layer.
Context `{Backend}.
Variable training : bool.
Variable ACT2FN : gset string.

Lemma Dense_construct_last (d : Dense) (x : Tensor) (rest : list nat) :
  shape x = rest ++ [in_channels d] →
  ∃ y, Dense_construct d x = Ok y ∧ shape y = rest ++ [out_channels d] ∧
       dtype y = dtype x.
Proof.
  intros Hs. unfold Dense_construct. rewrite Hs, reverse_snoc.
  rewrite decide_True by done. eexists. split; [reflexivity|].
  cbn [shape dtype]. by rewrite reverse_cons, reverse_involutive.
Qed.

Lemma transpose_for_scores_Ok (self : NeighborhoodAttention) (x : Tensor) b h w :
  shape x = [b; h; w; num_attention_heads self * attention_head_size self] →
  ∃ y, transpose_for_scores self x = Ok y ∧
       shape y = [b; num_attention_heads self; h; w; attention_head_size self] ∧
       dtype y = dtype x.
Proof.
  intros Hs. unfold transpose_for_scores, ndim, view. rewrite Hs.
  cbn [length Nat.sub take app].
  rewrite decide_True by (unfold numel; simpl; lia).
  cbn [mbind Result_bind]. unfold permute, ndim. cbn [shape length].
  simpl is_permutation. eexists. split; [reflexivity|]. by cbn.
Qed.

Lemma maybe_pad_Ok (self : NatLayer) (hidden_states : Tensor) b h w c :
  shape hidden_states = [b; h; w; c] →
  ∃ padded,
    maybe_pad self hidden_states h w
    = Ok (padded, (0, 0, 0, l_kernel_size self - w, 0, l_kernel_size self - h)) ∧
    shape padded = [b; max h (l_kernel_size self); max w (l_kernel_size self); c] ∧
    dtype padded = dtype hidden_states ∧
    (l_kernel_size self ≤ h → l_kernel_size self ≤ w → padded = hidden_states).
Proof.
  intros Hs. unfold maybe_pad. cbv zeta. case_decide as Hsmall.
  - unfold pad_right_bottom. rewrite Hs. cbn [mbind Result_bind mret Result_ret].
    eexists. split; [by rewrite !Nat.max_0_l|]. cbn [shape dtype].
    split; [|split; [done|lia]].
    replace (h + (l_kernel_size self - h)) with (max h (l_kernel_size self)) by lia.
    by replace (w + (l_kernel_size self - w)) with (max w (l_kernel_size self)) by lia.
  - cbn [mret Result_ret]. exists hidden_states.
    replace (l_kernel_size self - w) with 0 by lia.
    replace (l_kernel_size self - h) with 0 by lia.
    split; [done|]. split; [|done].
    rewrite Hs.
    replace (max h (l_kernel_size self)) with h by lia.
    by replace (max w (l_kernel_size self)) with w by lia.
Qed.

Lemma LayerNorm_construct_suffix (norm : LayerNorm) (x : Tensor) (c : nat) (rest : list nat) :
  normalized_shape norm = [c] → shape x = rest ++ [c] →
  ∃ y, LayerNorm_construct norm x = Ok y ∧ shape y = shape x ∧ dtype y = dtype x.
Proof.
  intros Hn Hs. unfold LayerNorm_construct. rewrite Hn, Hs.
  rewrite decide_True by (by exists rest).
  eexists. split; [reflexivity|]. by cbn.
Qed.

(** What the construction of a layer fixes, when the head size is an exact
    quotient. *)
Lemma NatLayer_init_Ok config dim num_heads rate layer :
  NatLayer_init training ACT2FN config dim num_heads rate = Ok layer →
  0 < dim → (Z.of_nat (dim / num_heads) < 2 ^ 53)%Z →
  l_kernel_size layer = kernel_size config ∧
  normalized_shape (layernorm_before layer) = [dim] ∧
  normalized_shape (layernorm_after layer) = [dim] ∧
  num_attention_heads (self_ (attention layer)) = num_heads ∧
  num_attention_heads (self_ (attention layer))
    * attention_head_size (self_ (attention layer)) = dim ∧
  in_channels (query (self_ (attention layer))) = dim ∧
  out_channels (query (self_ (attention layer))) = dim ∧
  in_channels (key (self_ (attention layer))) = dim ∧
  out_channels (key (self_ (attention layer))) = dim ∧
  in_channels (value (self_ (attention layer))) = dim ∧
  out_channels (value (self_ (attention layer))) = dim.
Proof.
  intros Hinit Hdim Hlt.
  unfold NatLayer_init, NeighborhoodAttentionModule_init, NeighborhoodAttention_init,
    mod_ in Hinit. cbv zeta in Hinit.
  destruct (decide (num_heads = 0)) as [|Hn]; [done|].
  cbn [mbind Result_bind] in Hinit.
  destruct (decide (dim `mod` num_heads ≠ 0)) as [|Hr]; [done|].
  cbn [mbind Result_bind] in Hinit.
  assert (dim `mod` num_heads = 0) as Hmod by lia.
  assert (dim = dim / num_heads * num_heads) as Hq.
  { pose proof (Nat.div_mod_eq dim num_heads). lia. }
  assert (0 < dim / num_heads) as Hpos by (destruct (dim / num_heads); lia).
  rewrite (truediv_exact dim num_heads (dim / num_heads)) in Hinit by done.
  cbn [mbind Result_bind] in Hinit. rewrite int_of_nat in Hinit.
  destruct (NatIntermediate_init _ _ _) as [inter|]; [|done].
  cbn [mbind Result_bind mret Result_ret] in Hinit. injection Hinit as <-.
  cbn. split_and!; try done; lia.
Qed.

(** On an input of its own width a constructed layer gets as far as the
    first kernel call. *)
Lemma NatLayer_construct_at_kernel config dim num_heads rate layer
    (hidden_states : Tensor) b h w output_attentions g :
  NatLayer_init training ACT2FN config dim num_heads rate = Ok layer →
  0 < dim → (Z.of_nat (dim / num_heads) < 2 ^ 53)%Z →
  shape hidden_states = [b; h; w; dim] →
  NatLayer_construct training layer hidden_states output_attentions g
  = (Raise OptionalDependencyNotAvailable, g).
Proof.
  intros Hinit Hdim Hlt Hs.
  destruct (NatLayer_init_Ok _ _ _ _ _ Hinit Hdim Hlt)
    as (Hk & Hnb & Hna & Hheads & Hsize & Hqi & Hqo & Hki & Hko & Hvi & Hvo).
  unfold NatLayer_construct. rewrite Hs.
  unfold mbind at 1. unfold Stateful_bind at 1. unfold lift at 1.
  destruct (LayerNorm_construct_suffix (layernorm_before layer) hidden_states dim
              [b; h; w] Hnb Hs) as (x1 & -> & Hs1 & _).
  rewrite Hs in Hs1.
  unfold mbind at 1. unfold Stateful_bind at 1. unfold lift at 1.
  destruct (maybe_pad_Ok layer x1 b h w dim Hs1) as (x2 & -> & Hs2 & _).
  cbv beta iota.
  unfold mbind at 1. unfold Stateful_bind at 1. unfold lift at 1. rewrite Hs2.
  unfold mbind at 1. unfold Stateful_bind at 1. unfold lift at 1.
  assert (NeighborhoodAttentionModule_construct (attention layer) x2 output_attentions
          = Raise OptionalDependencyNotAvailable) as ->; [|done].
  unfold NeighborhoodAttentionModule_construct, NeighborhoodAttention_construct.
  set (a := self_ (attention layer)) in *.
  set (H' := max h (l_kernel_size layer)) in *.
  set (W' := max w (l_kernel_size layer)) in *.
  assert (∀ d, in_channels d = dim → out_channels d = dim →
               ∃ y, Dense_construct d x2 ≫= transpose_for_scores a = Ok y) as Hproj.
  { intros d Hi Ho.
    destruct (Dense_construct_last d x2 [b; H'; W']) as (y & -> & Hy & _);
      [by rewrite Hi|].
    cbn [mbind Result_bind].
    destruct (transpose_for_scores_Ok a y b H' W') as (z & -> & _); [|by eexists].
    rewrite Hy, Ho, Hsize. done. }
  destruct (Hproj (query a) Hqi Hqo) as [q ->].
  destruct (Hproj (key a) Hki Hko) as [k ->].
  destruct (Hproj (value a) Hvi Hvo) as [v ->].
  reflexivity.
Qed.

End layer.
End layer_facts.

(** ** The layer *)

Module layer_properties.
Import py ms nn ms_utils modeling_nat notions examples py_facts encoder_facts layer_facts.

Section layer.
Context `{Backend}.
Variable training : bool.
Variable ACT2FN : gset string.

(** X4: transpose_for_scores splits the last axis of a (batch, height,
    width, channels) tensor into heads and moves the heads in front of the
    grid: the result has shape (batch, heads, height, width, head size).  A
    non-empty tensor whose channels are not heads times head size is
    refused by the view. *)
Theorem transpose_for_scores_shape (self : NeighborhoodAttention) (x : Tensor) b h w c :
  shape x = [b; h; w; c] →
  (c = num_attention_heads self * attention_head_size self →
   ∃ y, transpose_for_scores self x = Ok y ∧
        shape y = [b; num_attention_heads self; h; w; attention_head_size self] ∧
        dtype y = dtype x) ∧
  (c ≠ num_attention_heads self * attention_head_size self → 0 < b * h * w →
   transpose_for_scores self x = Raise (ShapeError "view")).
Proof.
  intros Hs. split.
  - intros ->. by apply transpose_for_scores_Ok.
  - intros Hc Hpos. unfold transpose_for_scores, ndim, view. rewrite Hs.
    cbn [length Nat.sub take app]. rewrite decide_False; [done|].
    unfold numel. simpl. nia.
Qed.

(** X5: maybe_pad, called on a (batch, height, width, channels) tensor with
    its own height and width, pads at the right and at the bottom only, by
    what is missing to the kernel size: the result has height max(height,
    kernel_size) and width max(width, kernel_size), and when both extents
    reach the kernel size the tensor is handed back as it is, with pad
    values all zero. *)
Theorem maybe_pad_reaches_kernel_size (self : NatLayer) (hidden_states : Tensor) b h w c :
  shape hidden_states = [b; h; w; c] →
  ∃ padded,
    maybe_pad self hidden_states h w
    = Ok (padded, (0, 0, 0, l_kernel_size self - w, 0, l_kernel_size self - h)) ∧
    shape padded = [b; max h (l_kernel_size self); max w (l_kernel_size self); c] ∧
    dtype padded = dtype hidden_states ∧
    (l_kernel_size self ≤ h → l_kernel_size self ≤ w → padded = hidden_states).
Proof. apply maybe_pad_Ok. Qed.

(** X6: the forward pass of a layer never returns: whatever the layer, its
    input and the flag, it raises, and it does so before any random number
    is drawn (the drop path comes after the attention); so does the forward
    pass of a stage that holds a layer. *)
Theorem NatLayer_construct_never_returns :
  (∀ self hidden_states output_attentions g,
     ∃ e, NatLayer_construct training self hidden_states output_attentions g
          = (Raise e, g)) ∧
  (∀ self hidden_states output_attentions g,
     layers self ≠ [] →
     ∃ e, NatStage_construct training self hidden_states output_attentions g
          = (Raise e, g)).
Proof.
  split.
  - apply NatLayer_construct_raises.
  - intros self x oa g Hl. unfold NatStage_construct.
    destruct (shape x) as [|? [|? [|? [|? [|]]]]]; try by eexists.
    destruct (layers self) as [|layer ls]; [done|]. simpl.
    unfold mbind at 1. unfold Stateful_bind at 1.
    unfold mbind at 1. unfold Stateful_bind at 1.
    unfold mbind at 1. unfold Stateful_bind at 1.
    destruct (NatLayer_construct_raises training layer x oa g) as [e ->]. by eexists.
Qed.

(** X7: on a layer as constructed for [dim] channels, an input of shape
    (batch, height, width, dim) passes the layer normalisation, the padding
    and the three projections, and the forward pass then raises exactly
    OptionalDependencyNotAvailable, at the first kernel call: the failure is
    the missing kernel, not a shape error. *)
Theorem NatLayer_construct_unavailable config dim num_heads rate layer
    (hidden_states : Tensor) b h w output_attentions g :
  NatLayer_init training ACT2FN config dim num_heads rate = Ok layer →
  0 < dim → (Z.of_nat (dim / num_heads) < 2 ^ 53)%Z →
  shape hidden_states = [b; h; w; dim] →
  NatLayer_construct training layer hidden_states output_attentions g
  = (Raise OptionalDependencyNotAvailable, g).
Proof. apply NatLayer_construct_at_kernel. Qed.

(** X8: the feed-forward block of a layer constructed for [dim] channels
    keeps the shape and the element type of its input: NatIntermediate
    widens the last axis from dim to int(mlp_ratio * dim) and NatOutput
    narrows it back to dim.  An activation name that the registry does not
    hold is refused at construction with a KeyError. *)
Theorem feed_forward_keeps_shape config dim :
  (∀ inter (x : Tensor) rest,
     NatIntermediate_init ACT2FN config dim = Ok inter →
     shape x = rest ++ [dim] →
     ∃ y z,
       NatIntermediate_construct inter x = Ok y ∧
       shape y = rest ++ [py.int (mlp_ratio config * Qc_of_nat dim)%Qc] ∧
       NatOutput_construct (NatOutput_init training config dim) y = Ok z ∧
       shape z = shape x ∧ dtype z = dtype x) ∧
  (hidden_act config ∉ ACT2FN →
   NatIntermediate_init ACT2FN config dim = Raise (KeyError (hidden_act config))).
Proof.
  split.
  - intros inter x rest Hinit Hs. unfold NatIntermediate_init in Hinit.
    case_decide; [|done]. cbn [mbind Result_bind mret Result_ret] in Hinit.
    injection Hinit as <-.
    unfold NatIntermediate_construct, NatOutput_construct.
    cbn [int_dense NatOutput_init out_dense out_dropout intermediate_act_fn].
    destruct (Dense_construct_last
                (Dense_init dim (py.int (mlp_ratio config * Qc_of_nat dim)%Qc) true)
                x rest Hs) as (y & -> & Hy & Hdy).
    cbn [mbind Result_bind mret Result_ret].
    destruct (Dense_construct_last
                (Dense_init (py.int (mlp_ratio config * Qc_of_nat dim)%Qc) dim true)
                (activation (hidden_act config) y) rest Hy) as (z & Hz & Hsz & Hdz).
    eexists _, _. split; [reflexivity|]. split; [exact Hy|].
    rewrite Hz. cbn [mbind Result_bind mret Result_ret]. split; [reflexivity|].
    cbn [Dropout_construct shape dtype]. split; [by rewrite Hsz, Hs|].
    rewrite Hdz. cbn. exact Hdy.
  - intros Hact. unfold NatIntermediate_init. by rewrite decide_False.
Qed.

End layer.

(** Six channels are three heads of size two. *)
Lemma transpose_for_scores_shape_witness :
  ∃ y, transpose_for_scores (H:=zero_backend) (self_ example_attention_module)
         (zeros float32 [1; 4; 4; 6]) = Ok y ∧
       shape y = [1; 3; 4; 4; 2].
Proof.
  destruct (transpose_for_scores_shape (H:=zero_backend) (self_ example_attention_module)
              (zeros float32 [1; 4; 4; 6]) 1 4 4 6 eq_refl) as [Hok _].
  destruct (Hok eq_refl) as (y & Hy & Hs & _). exists y. split; [exact Hy|exact Hs].
Defined.

Lemma example_layer_bound : (Z.of_nat (2 / 1) < 2 ^ 53)%Z.
Proof. by vm_compute. Qed.

(** A grid of 2 by 5 positions under a kernel of size 3 gains one row at
    the bottom and no column. *)
Lemma maybe_pad_reaches_kernel_size_witness :
  ∃ layer padded,
    NatLayer_init (H:=zero_backend) false activations (four_stage_config 1 0) 2 1 0%Qc
      = Ok layer ∧
    maybe_pad (H:=zero_backend) layer (zeros float32 [1; 2; 5; 2]) 2 5
      = Ok (padded, (0, 0, 0, 0, 0, 1)) ∧
    shape padded = [1; 3; 5; 2].
Proof.
  destruct (NatLayer_init (H:=zero_backend) false activations (four_stage_config 1 0)
              2 1 0%Qc) as [layer|] eqn:Hinit; [|by vm_compute in Hinit].
  destruct (NatLayer_init_Ok (H:=zero_backend) false activations _ _ _ _ _ Hinit)
    as (Hk & _); [lia|exact example_layer_bound|].
  destruct (maybe_pad_reaches_kernel_size (H:=zero_backend) layer
              (zeros float32 [1; 2; 5; 2]) 1 2 5 2 eq_refl) as (padded & Hp & Hs & _).
  rewrite Hk in Hp, Hs. exists layer, padded. split; [reflexivity|].
  split; [exact Hp|exact Hs].
Defined.

(** The layer of the first stage on a grid of 8 by 8 positions. *)
Lemma NatLayer_construct_unavailable_witness :
  ∃ layer,
    NatLayer_init (H:=zero_backend) false activations (four_stage_config 1 0) 2 1 0%Qc
      = Ok layer ∧
    NatLayer_construct (H:=zero_backend) false layer (zeros float32 [1; 8; 8; 2]) false
      example_generator
    = (Raise OptionalDependencyNotAvailable, example_generator).
Proof.
  destruct (NatLayer_init (H:=zero_backend) false activations (four_stage_config 1 0)
              2 1 0%Qc) as [layer|] eqn:Hinit; [|by vm_compute in Hinit].
  exists layer. split; [reflexivity|].
  apply (NatLayer_construct_unavailable (H:=zero_backend) false activations
           (four_stage_config 1 0) 2 1 0%Qc layer (zeros float32 [1; 8; 8; 2]) 1 8 8);
    [exact Hinit|lia|exact example_layer_bound|reflexivity].
Defined.

End layer_properties.

(** ** Stages and encoder: generator and layers *)

Module forward_facts.
Import py ms nn ms_utils modeling_nat notions py_facts encoder_facts layer_facts.

Section forward.
Context `{Backend}.
Variable training : bool.

(** A stage hands the generator back as it got it, whether it returns or
    raises. *)
Lemma NatStage_construct_generator self (x : Tensor) oa g :
  (NatStage_construct training self x oa g).2 = g.
Proof.
  unfold NatStage_construct.
  destruct (shape x) as [|? [|? [|? [|? [|]]]]]; try done.
  destruct (layers self) as [|layer ls].
  - simpl. unfold mbind, Stateful_bind, pure, lift. simpl.
    destruct (downsample self) as [d|].
    + destruct (NatDownsampler_construct d x); [|done]. by destruct oa.
    + by destruct oa.
  - simpl. unfold mbind at 1. unfold Stateful_bind at 1.
    unfold mbind at 1. unfold Stateful_bind at 1.
    unfold mbind at 1. unfold Stateful_bind at 1.
    by destruct (NatLayer_construct_raises training layer x oa g) as [e ->].
Qed.

Lemma NatStage_construct_layers self (x : Tensor) oa g outs g' :
  NatStage_construct training self x oa g = (Ok outs, g') →
  layers self = [] ∧ oa = false ∧ length outs = 2.
Proof.
  intros Hrun. apply NatStage_construct_Ok in Hrun as (? & ? & _ & h & -> & _). done.
Qed.

Lemma NatEncoder_step_generator oa ohs before st stage g :
  (NatEncoder_step training oa ohs before st stage g).2 = g.
Proof.
  unfold NatEncoder_step. unfold mbind at 1. unfold Stateful_bind at 1.
  pose proof (NatStage_construct_generator stage (loop_hidden_states st) oa g) as Hg.
  destruct (NatStage_construct _ _ _ _ _) as [[outs|] g1] eqn:Hstage; simpl in Hg; subst g1;
    [|done].
  apply NatStage_construct_Ok in Hstage as (_ & -> & _ & h & -> & _).
  unfold mbind, Stateful_bind, lift, pure. simpl.
  destruct ohs, before; simpl.
  - destruct (permute _ _); [|done]. simpl.
    destruct (append (acc_hidden_states st) _); [|done]. simpl.
    by destruct (append (acc_reshaped_hidden_states st) _).
  - destruct (permute _ _); [|done]. simpl.
    destruct (append (acc_hidden_states st) _); [|done]. simpl.
    by destruct (append (acc_reshaped_hidden_states st) _).
  - done.
  - done.
Qed.

Lemma NatEncoder_step_layers oa ohs before st stage g st' g' :
  NatEncoder_step training oa ohs before st stage g = (Ok st', g') →
  layers stage = [] ∧ oa = false.
Proof.
  unfold NatEncoder_step. unfold mbind at 1. unfold Stateful_bind at 1.
  destruct (NatStage_construct _ _ _ _ _) as [[outs|] g1] eqn:Hstage; [|done].
  apply NatStage_construct_layers in Hstage as (? & ? & _). done.
Qed.

Lemma encoder_loop_generator oa ohs before levels st g :
  (foldM (NatEncoder_step training oa ohs before) st levels g).2 = g.
Proof.
  revert st. induction levels as [|s levels IH]; intros st; [done|]. simpl.
  unfold mbind, Stateful_bind.
  pose proof (NatEncoder_step_generator oa ohs before st s g) as Hg.
  destruct (NatEncoder_step _ _ _ _ _ _ _) as [[st1|] g1]; simpl in Hg; subst g1; [|done].
  apply IH.
Qed.

Lemma encoder_loop_layers oa ohs before levels st g st' g' :
  foldM (NatEncoder_step training oa ohs before) st levels g = (Ok st', g') →
  Forall (λ s, layers s = []) levels ∧ (levels ≠ [] → oa = false).
Proof.
  revert st g. induction levels as [|s levels IH]; intros st g; simpl.
  - intros _. split; [constructor|done].
  - unfold mbind, Stateful_bind.
    destruct (NatEncoder_step _ _ _ _ _ _ _) as [[st1|] g1] eqn:Hstep; [|done].
    apply NatEncoder_step_layers in Hstep as [Hl Hoa]. intros Hrest.
    apply IH in Hrest as [Hls _]. split; [by constructor|done].
Qed.

Lemma NatEncoder_construct_generator self (x : Tensor) oa ohs before rd g :
  (NatEncoder_construct training self x oa ohs before rd g).2 = g.
Proof.
  unfold NatEncoder_construct. cbv zeta.
  unfold mbind at 1. unfold Stateful_bind at 1.
  assert (∀ (m : Stateful Generator (option (list Tensor) * option (list Tensor))),
            (∀ g0, (m g0).2 = g0) →
            (let '(r, g1) := m g in
             match r with
             | Ok a =>
                 (let '(all_hidden_states, all_reshaped_hidden_states) := a in
                  st ← foldM (NatEncoder_step training oa ohs before)
                         {| loop_hidden_states := x;
                            acc_hidden_states := all_hidden_states;
                            acc_reshaped_hidden_states := all_reshaped_hidden_states;
                            acc_self_attentions := if oa then Some [] else None |}
                         (levels self);
                  if negb rd then
                    pure (EncoderTuple (not_None [VTensor (loop_hidden_states st);
                                                  of_optional (acc_hidden_states st);
                                                  of_optional (acc_self_attentions st)]))
                  else
                    pure (EncoderRecord
                            {| last_hidden_state := loop_hidden_states st;
                               hidden_states := acc_hidden_states st;
                               attentions := acc_self_attentions st;
                               reshaped_hidden_states := acc_reshaped_hidden_states st |}))
                   g1
             | Raise e => (Raise e, g1)
             end).2 = g) as Hgen.
  { intros m Hm. specialize (Hm g). destruct (m g) as [[[a r]|] g1]; simpl in Hm; subst g1;
      [|done].
    unfold mbind, Stateful_bind.
    pose proof (encoder_loop_generator oa ohs before (levels self)
                  {| loop_hidden_states := x; acc_hidden_states := a;
                     acc_reshaped_hidden_states := r;
                     acc_self_attentions := if oa then Some [] else None |} g) as Hg.
    destruct (foldM _ _ _ _) as [[st|] g1]; simpl in Hg; subst g1; [|done].
    by destruct rd. }
  apply Hgen. intros g0. destruct ohs; [|done].
  unfold mbind, Stateful_bind, lift, pure. by destruct (permute x [0; 3; 1; 2]).
Qed.

Lemma NatEncoder_construct_layers self (x : Tensor) oa ohs before rd g out g' :
  NatEncoder_construct training self x oa ohs before rd g = (Ok out, g') →
  Forall (λ s, layers s = []) (levels self) ∧ (levels self ≠ [] → oa = false).
Proof.
  unfold NatEncoder_construct. cbv zeta.
  unfold mbind at 1. unfold Stateful_bind at 1.
  match goal with |- context [let '(r, g1) := ?m g in _] =>
    destruct (m g) as [[[a r]|] g1]; [|done] end.
  unfold mbind at 1. unfold Stateful_bind at 1.
  destruct (foldM _ _ _ _) as [[st|] g2] eqn:Hloop; [|done].
  intros _. by apply encoder_loop_layers in Hloop.
Qed.

End forward.
End forward_facts.

(** ** The forward passes of the models, inverted *)

Module model_facts.
Import py ms nn ms_utils modeling_nat notions py_facts encoder_facts layer_facts
  forward_facts.

Section model.
Context `{Backend}.
Variable training : bool.

Lemma with_generator_store {A} (m : Stateful Generator A) s :
  (m (generator s)).2 = generator s → (with_generator m s).2 = s.
Proof.
  unfold with_generator, zoom. destruct (m (generator s)) as [r g]. simpl.
  intros ->. by destruct s.
Qed.

Lemma with_generator_Ok {A} (m : Stateful Generator A) s a s' :
  with_generator m s = (Ok a, s') → ∃ g, m (generator s) = (Ok a, g).
Proof.
  unfold with_generator, zoom. destruct (m (generator s)) as [r g].
  intros [= -> _]. by exists g.
Qed.

(** The bare model hands the store back as it got it; when it returns, the
    pixel values were there and the embeddings and the encoder returned. *)
Lemma NatModel_construct_inv self pixel_values oa ohs rd s r s' :
  NatModel_construct training self pixel_values oa ohs rd s = (r, s') →
  s' = s ∧
  ∀ out, r = Ok out →
    ∃ pv emb enc g,
      pixel_values = Some pv ∧
      NatEmbeddings_construct (embeddings self) pv = Ok emb ∧
      NatEncoder_construct training (encoder self) emb
        (default (modeling_nat.output_attentions (modeling_nat.config s)) oa)
        (default (modeling_nat.output_hidden_states (modeling_nat.config s)) ohs)
        false (default (use_return_dict (modeling_nat.config s)) rd) (generator s)
      = (Ok enc, g).
Proof.
  unfold NatModel_construct.
  unfold mbind at 1. unfold Stateful_bind at 1. unfold gets at 1. cbv beta iota zeta.
  unfold mbind at 1. unfold Stateful_bind at 1. unfold lift at 1.
  destruct pixel_values as [pv|]; [|by intros [= <- <-]]. cbv beta iota.
  unfold mbind at 1. unfold Stateful_bind at 1. unfold lift at 1.
  destruct (NatEmbeddings_construct _ _) as [emb|] eqn:Hemb; [|by intros [= <- <-]].
  cbv beta iota.
  unfold mbind at 1. unfold Stateful_bind at 1.
  match goal with |- context [with_generator ?m s] =>
    pose proof (with_generator_store m s
                  (NatEncoder_construct_generator training _ _ _ _ _ _ _)) as Hstore;
    destruct (with_generator m s) as [[enc|] s1] eqn:Henc; simpl in Hstore; subst s1
  end; [|by intros [= <- <-]].
  apply with_generator_Ok in Henc as [g Henc].
  assert (∀ out : ModelReturn, ∃ pv0 emb0 enc0 g0,
            Some pv = Some pv0 ∧
            NatEmbeddings_construct (embeddings self) pv0 = Ok emb0 ∧
            NatEncoder_construct training (encoder self) emb0
              (default (modeling_nat.output_attentions (modeling_nat.config s)) oa)
              (default (modeling_nat.output_hidden_states (modeling_nat.config s)) ohs)
              false (default (use_return_dict (modeling_nat.config s)) rd) (generator s)
            = (Ok enc0, g0)) as Hex by (intros _; by exists pv, emb, enc, g).
  unfold mbind at 1. unfold Stateful_bind at 1. unfold lift at 1.
  destruct (tuple_at _ 0 ≫= as_tensor) as [x|]; [|by intros [= <- <-]]. cbv beta iota.
  unfold mbind at 1. unfold Stateful_bind at 1. unfold lift at 1.
  destruct (LayerNorm_construct _ x) as [y|]; [|by intros [= <- <-]]. cbv beta iota.
  unfold mbind at 1. unfold Stateful_bind at 1.
  destruct (pooler self).
  - unfold lift at 1. destruct (_ ≫= _) as [p|]; [|by intros [= <- <-]].
    destruct (negb _); [intros [= <- <-]; (split; [done|]); intros out0 _; apply (Hex out0)|].
    destruct enc; unfold lift, pure; [by intros [= <- <-]|intros [= <- <-]; (split; [done|]); intros out0 _; apply (Hex out0)].
  - unfold pure at 1. destruct (negb _); [intros [= <- <-]; (split; [done|]); intros out0 _; apply (Hex out0)|].
    destruct enc; unfold lift, pure; [by intros [= <- <-]|intros [= <- <-]; (split; [done|]); intros out0 _; apply (Hex out0)].
Qed.

Lemma NatBackbone_construct_inv self (pixel_values : Tensor) ohs oa rd s r s' :
  NatBackbone_construct training self pixel_values ohs oa rd s = (r, s') →
  s' = s ∧
  ∀ out, r = Ok out →
    ∃ emb enc g,
      NatEmbeddings_construct (bb_embeddings self) pixel_values = Ok emb ∧
      NatEncoder_construct training (bb_encoder self) emb
        (default (modeling_nat.output_attentions (modeling_nat.config s)) oa)
        true true true (generator s)
      = (Ok enc, g).
Proof.
  unfold NatBackbone_construct.
  unfold mbind at 1. unfold Stateful_bind at 1. unfold gets at 1. cbv beta iota zeta.
  unfold mbind at 1. unfold Stateful_bind at 1. unfold lift at 1.
  destruct (NatEmbeddings_construct _ _) as [emb|] eqn:Hemb; [|by intros [= <- <-]].
  cbv beta iota.
  unfold mbind at 1. unfold Stateful_bind at 1.
  match goal with |- context [with_generator ?m s] =>
    pose proof (with_generator_store m s
                  (NatEncoder_construct_generator training _ _ _ _ _ _ _)) as Hstore;
    destruct (with_generator m s) as [[enc|] s1] eqn:Henc; simpl in Hstore; subst s1
  end; [|by intros [= <- <-]].
  apply with_generator_Ok in Henc as [g Henc].
  unfold mbind at 1. unfold Stateful_bind at 1. unfold lift at 1.
  destruct enc as [items|r0]; [by intros [= <- <-]|]. cbv beta iota.
  unfold mbind at 1. unfold Stateful_bind at 1. unfold lift at 1.
  destruct (reshaped_hidden_states r0) as [hs|]; [|by intros [= <- <-]]. cbv beta iota.
  unfold mbind at 1. unfold Stateful_bind at 1.
  match goal with |- context [foldM ?f ?a ?l s] =>
    assert (∀ l0 a0, (foldM f a0 l0 s).2 = s) as Hloop
  end.
  { induction l0 as [|[stage h] l0 IH]; intros a0; [done|]. simpl.
    unfold mbind at 1. unfold Stateful_bind at 1.
    destruct (decide (stage ∈ bb_out_features self)); [|apply IH].
    unfold mbind at 1. unfold Stateful_bind at 1. unfold lift at 1.
    destruct (hidden_states_norms self !! stage); [|done]. cbv beta iota.
    unfold mbind at 1. unfold Stateful_bind at 1. unfold lift at 1.
    destruct (NatBackbone_feature_map _ _); [|done]. cbv beta iota.
    unfold pure. apply IH. }
  match goal with |- context [foldM ?f ?a ?l s] =>
    specialize (Hloop l a); destruct (foldM f a l s) as [[maps|] s1]
  end; simpl in Hloop; subst s1; [|by intros [= <- <-]].
  destruct (negb _); unfold pure; intros [= <- <-]; (split; [done|]); intros out0 _;
    by exists emb, (EncoderRecord r0), g.
Qed.

(** The one write of the classification model to the store. *)
Lemma classification_store_inv self pixel_values labels oa ohs rd s :
  (NatForImageClassification_construct training self pixel_values labels oa ohs rd s).2 = s ∨
  ∃ lab out,
    labels = Some lab ∧ problem_type (modeling_nat.config s) = None ∧
    (NatModel_construct training (nat_ self) pixel_values oa ohs
       (Some (default (use_return_dict (modeling_nat.config s)) rd)) s).1 = Ok out ∧
    (NatForImageClassification_construct training self pixel_values labels oa ohs rd s).2
    = (set_problem_type (infer_problem_type (c_num_labels self) (dtype lab)) s).2.
Proof.
  destruct (NatForImageClassification_construct training self pixel_values labels
              oa ohs rd s) as [res s'] eqn:Hrun.
  cbn [snd]. revert Hrun. unfold NatForImageClassification_construct.
  unfold mbind at 1. unfold Stateful_bind at 1. unfold gets at 1. cbv beta iota zeta.
  unfold mbind at 1. unfold Stateful_bind at 1.
  destruct (NatModel_construct training (nat_ self) pixel_values oa ohs
              (Some (default (use_return_dict (modeling_nat.config s)) rd)) s)
    as [r s1] eqn:Hmodel.
  apply NatModel_construct_inv in Hmodel as [-> _].
  destruct r as [outputs|e]; [|intros [= <- <-]; by left]. cbv beta iota.
  unfold mbind at 1. unfold Stateful_bind at 1. unfold lift at 1.
  destruct (tuple_at _ 1) as [pooled|]; [|intros [= <- <-]; by left]. cbv beta iota.
  unfold mbind at 1. unfold Stateful_bind at 1. unfold lift at 1.
  destruct (match classifier self with
            | Some d => as_tensor pooled ≫= Dense_construct d
            | None => as_tensor pooled
            end) as [logits|]; [|intros [= <- <-]; by left]. cbv beta iota.
  unfold mbind at 1. unfold Stateful_bind at 1.
  destruct labels as [lab|].
  - unfold mbind at 1. unfold Stateful_bind at 1. unfold gets at 1. cbv beta iota.
    destruct (decide (problem_type (modeling_nat.config s) = None)) as [Hnone|Hsome].
    + intros Hrun. right. exists lab, outputs.
      split; [done|]. split; [done|]. split; [done|]. revert Hrun.
      unfold mbind, Stateful_bind, gets, lift, pure, set_problem_type, modify.
      cbv beta iota.
      destruct (loss_for _ _ _ _); [|by intros [= <- <-]]. cbv beta iota.
      destruct (negb _); [by intros [= <- <-]|]. destruct outputs; by intros [= <- <-].
    + intros Hrun. left. revert Hrun.
      unfold mbind, Stateful_bind, gets, lift, pure. cbv beta iota.
      destruct (loss_for _ _ _ _); [|by intros [= <- <-]]. cbv beta iota.
      destruct (negb _); [by intros [= <- <-]|]. destruct outputs; by intros [= <- <-].
  - intros Hrun. left. revert Hrun. unfold pure at 1. cbv beta iota.
    destruct (negb _); [by intros [= <- <-]|]. destruct outputs; by intros [= <- <-].
Qed.

End model.
End model_facts.

(** ** What a forward pass needs and leaves *)

Module forward_properties.
Import py ms nn ms_utils modeling_nat notions examples py_facts encoder_facts layer_facts
  forward_facts model_facts.

Section forward.
Context `{Backend}.
Variable training : bool.

(** X9: a stage returns exactly when it holds no layer, attentions are
    not asked for, its input has four axes and its downsampler, if it has
    one, accepts the input; it then returns the pair of the downsampled
    input (the input itself without downsampler) and the input, and leaves
    the generator alone. *)
Theorem NatStage_construct_returns self (x : Tensor) oa g outs g' :
  NatStage_construct training self x oa g = (Ok outs, g') ↔
  layers self = [] ∧ oa = false ∧ g' = g ∧ length (shape x) = 4 ∧
  ∃ h, outs = [h; x] ∧
       match downsample self with
       | Some d => NatDownsampler_construct d x = Ok h
       | None => h = x
       end.
Proof.
  split.
  - intros Hrun. pose proof Hrun as Hrun'.
    apply NatStage_construct_Ok in Hrun as (Hl & Hoa & Hg & h & Houts & Hd).
    split_and!; [done..| |by exists h].
    unfold NatStage_construct in Hrun'.
    by destruct (shape x) as [|? [|? [|? [|? [|]]]]].
  - intros (Hl & -> & -> & Hlen & h & -> & Hd). unfold NatStage_construct.
    destruct (shape x) as [|? [|? [|? [|? [|]]]]]; try done.
    rewrite Hl. simpl. unfold mbind, Stateful_bind, pure, lift. simpl.
    destruct (downsample self) as [d|]; [by rewrite Hd|by subst h].
Qed.

(** X10: asking a stage without layers for attentions raises an
    UnboundLocalError: the loop over the layers never binds layer_outputs,
    which the stage reads once the downsampler has run. *)
Theorem NatStage_construct_attentions_unbound self (x : Tensor) g :
  layers self = [] → length (shape x) = 4 →
  match downsample self with
  | Some d => ∃ h, NatDownsampler_construct d x = Ok h
  | None => True
  end →
  NatStage_construct training self x true g
  = (Raise (UnboundLocalError "layer_outputs"), g).
Proof.
  intros Hl Hlen Hd. unfold NatStage_construct.
  destruct (shape x) as [|? [|? [|? [|? [|]]]]]; try done.
  rewrite Hl. simpl. unfold mbind, Stateful_bind, pure, lift. simpl.
  destruct (downsample self) as [d|]; [|done]. by destruct Hd as [h ->].
Qed.

(** X11: the encoder never draws a random number, whether it returns or
    raises, and it returns only if none of its stages holds a layer; with
    at least one stage it returns only if attentions are not asked for. *)
Theorem NatEncoder_construct_needs_no_layer self (x : Tensor) oa ohs before rd g :
  (NatEncoder_construct training self x oa ohs before rd g).2 = g ∧
  ∀ out, (NatEncoder_construct training self x oa ohs before rd g).1 = Ok out →
    Forall (λ st, layers st = []) (levels self) ∧ (levels self ≠ [] → oa = false).
Proof.
  split; [apply NatEncoder_construct_generator|].
  intros out Hout.
  destruct (NatEncoder_construct training self x oa ohs before rd g) as [r g'] eqn:Hrun.
  simpl in Hout. subst r. by apply NatEncoder_construct_layers in Hrun.
Qed.

(** X12: the forward passes of the bare model and of the backbone leave
    the store as they found it, whether they return or raise: they write
    nothing to the configuration and draw no random number, in training
    mode as well. *)
Theorem forward_leaves_the_store :
  (∀ self pixel_values oa ohs rd s,
     (NatModel_construct training self pixel_values oa ohs rd s).2 = s) ∧
  (∀ self pixel_values ohs oa rd s,
     (NatBackbone_construct training self pixel_values ohs oa rd s).2 = s).
Proof.
  split.
  - intros self pv oa ohs rd s.
    destruct (NatModel_construct training self pv oa ohs rd s) as [r s'] eqn:Hrun.
    by apply NatModel_construct_inv in Hrun as [-> _].
  - intros self pv ohs oa rd s.
    destruct (NatBackbone_construct training self pv ohs oa rd s) as [r s'] eqn:Hrun.
    by apply NatBackbone_construct_inv in Hrun as [-> _].
Qed.

Lemma no_layer_or_some levels :
  Forall (λ st : NatStage, layers st = []) levels →
  Exists (λ st : NatStage, layers st ≠ []) levels → False.
Proof.
  intros Hall Hex. apply Exists_exists in Hex as (st & Hin & Hne).
  rewrite Forall_forall in Hall. by apply Hne, Hall.
Qed.

(** X13: a model one of whose stages holds a layer cannot complete a
    forward pass: the bare model, the classification model and the backbone
    all raise, on every input and with every flag, and leave the store as
    it was. *)
Theorem forward_raises_with_layers :
  (∀ self pixel_values oa ohs rd s,
     Exists (λ st, layers st ≠ []) (levels (encoder self)) →
     ∃ e, NatModel_construct training self pixel_values oa ohs rd s = (Raise e, s)) ∧
  (∀ self pixel_values labels oa ohs rd s,
     Exists (λ st, layers st ≠ []) (levels (encoder (nat_ self))) →
     ∃ e, NatForImageClassification_construct training self pixel_values labels
            oa ohs rd s = (Raise e, s)) ∧
  (∀ self pixel_values ohs oa rd s,
     Exists (λ st, layers st ≠ []) (levels (bb_encoder self)) →
     ∃ e, NatBackbone_construct training self pixel_values ohs oa rd s = (Raise e, s)).
Proof.
  assert (∀ self pixel_values oa ohs rd s,
     Exists (λ st, layers st ≠ []) (levels (encoder self)) →
     ∃ e, NatModel_construct training self pixel_values oa ohs rd s = (Raise e, s))
    as Hmodel.
  { intros self pv oa ohs rd s Hex.
    destruct (NatModel_construct training self pv oa ohs rd s) as [r s'] eqn:Hrun.
    apply NatModel_construct_inv in Hrun as [-> Hok].
    destruct r as [out|e]; [|by exists e].
    destruct (Hok out eq_refl) as (pv0 & emb & enc & g & _ & _ & Henc).
    apply NatEncoder_construct_layers in Henc as [Hall _].
    destruct (no_layer_or_some _ Hall Hex). }
  split_and!; [done| |].
  - intros self pv labels oa ohs rd s Hex.
    unfold NatForImageClassification_construct.
    unfold mbind at 1. unfold Stateful_bind at 1. unfold gets at 1. cbv beta iota zeta.
    unfold mbind at 1. unfold Stateful_bind at 1.
    destruct (Hmodel (nat_ self) pv oa ohs
                (Some (default (use_return_dict (modeling_nat.config s)) rd)) s Hex)
      as [e ->]. by exists e.
  - intros self pv ohs oa rd s Hex.
    destruct (NatBackbone_construct training self pv ohs oa rd s) as [r s'] eqn:Hrun.
    apply NatBackbone_construct_inv in Hrun as [-> Hok].
    destruct r as [out|e]; [|by exists e].
    destruct (Hok out eq_refl) as (emb & enc & g & _ & Henc).
    apply NatEncoder_construct_layers in Henc as [Hall _].
    destruct (no_layer_or_some _ Hall Hex).
Qed.

(** X14: the forward pass of the classification model changes the store in
    one case only: labels are given, no problem type is stored and the bare
    model has returned; the store then differs from the one before in the
    problem type alone, which is the inferred one.  Without labels, with a
    problem type already stored, or when the bare model raises, the store
    is left as it was. *)
Theorem classification_store_is_written_once self pixel_values labels oa ohs rd s :
  let run := NatForImageClassification_construct training self pixel_values labels
               oa ohs rd s in
  run.2 = s ∨
  ∃ lab out,
    labels = Some lab ∧ problem_type (modeling_nat.config s) = None ∧
    (NatModel_construct training (nat_ self) pixel_values oa ohs
       (Some (default (use_return_dict (modeling_nat.config s)) rd)) s).1 = Ok out ∧
    run.2 = (set_problem_type (infer_problem_type (c_num_labels self) (dtype lab)) s).2.
Proof. cbv zeta. apply classification_store_inv. Qed.

End forward.

(** A last stage of depth 0, on a grid of 8 by 8 positions. *)
Lemma NatStage_construct_attentions_unbound_witness :
  NatStage_construct (H:=zero_backend) false
    {| st_dim := 2; layers := []; downsample := None; pointing := false |}
    (zeros float32 [1; 8; 8; 2]) true example_generator
  = (Raise (UnboundLocalError "layer_outputs"), example_generator).
Proof.
  apply (NatStage_construct_attentions_unbound (H:=zero_backend) false
           {| st_dim := 2; layers := []; downsample := None; pointing := false |}
           (zeros float32 [1; 8; 8; 2]) example_generator); done.
Defined.

End forward_properties.

(** ** Construction of stages, encoder and classification head *)

Module construction_facts.
Import py ms nn ms_utils modeling_nat notions py_facts pruning_facts.

Section construction.
Context `{Backend}.
Variable training : bool.
Variable ACT2FN : gset string.

Lemma NatStage_init_Ok config dim depth heads rates (ds : bool) st :
  NatStage_init training ACT2FN config dim depth heads rates ds = Ok st →
  st_dim st = dim ∧ length (layers st) = depth ∧
  downsample st = (if ds then Some (NatDownsampler_init dim) else None) ∧
  pointing st = false.
Proof.
  unfold NatStage_init. destruct (mapM _ _) as [ls|] eqn:Hls; [|done].
  intros [= <-]. cbn. apply mapM_Ok_length in Hls. rewrite length_seq in Hls. done.
Qed.

Lemma NatEncoder_init_Ok config enc :
  NatEncoder_init training ACT2FN config = Ok enc →
  num_levels enc = length (depths config) ∧
  length (levels enc) = length (depths config) ∧
  ∀ i st, levels enc !! i = Some st →
    st_dim st = embed_dim config * 2 ^ i ∧
    depths config !! i = Some (length (layers st)) ∧
    (∃ heads, num_heads config !! i = Some heads) ∧
    downsample st =
      (if bool_decide (i < length (depths config) - 1)
       then Some (NatDownsampler_init (embed_dim config * 2 ^ i)) else None) ∧
    pointing st = false.
Proof.
  unfold NatEncoder_init. cbv zeta.
  destruct (linspace _ _) as [dpr|]; [|done]. cbn [mbind Result_bind].
  destruct (mapM _ _) as [ls|] eqn:Hls; [|done].
  intros [= <-]. cbn [num_levels levels]. split; [done|].
  pose proof (mapM_Ok_length _ _ _ Hls) as Hlen. rewrite length_seq in Hlen.
  split; [done|]. intros i st Hst.
  apply mapM_Forall2 in Hls.
  destruct (Forall2_lookup_r _ _ _ _ _ Hls Hst) as (j & Hj & Hf).
  apply lookup_seq in Hj as [-> Hi]. simpl in Hf.
  unfold tuple_at in Hf.
  destruct (depths config !! i) as [depth|] eqn:Hd; [|done]. cbn [mbind Result_bind] in Hf.
  destruct (num_heads config !! i) as [heads|] eqn:Hh; [|done].
  cbn [mbind Result_bind] in Hf.
  apply NatStage_init_Ok in Hf as (? & <- & ? & ?). split_and!; eauto.
Qed.

End construction.
End construction_facts.

Module model_construction_properties.
Import py ms nn ms_utils modeling_nat notions examples config_examples py_facts
  pruning_facts construction_facts.

Section construction.
Context `{Backend}.
Variable training : bool.
Variable ACT2FN : gset string.

(** X15: a constructed encoder has one stage per entry of depths; stage i
    works on embed_dim * 2^i channels, holds depths[i] layers, and has a
    downsampler for its own width exactly when it is not the last stage. *)
Theorem NatEncoder_init_structure config enc :
  NatEncoder_init training ACT2FN config = Ok enc →
  num_levels enc = length (depths config) ∧
  length (levels enc) = length (depths config) ∧
  ∀ i st, levels enc !! i = Some st →
    st_dim st = embed_dim config * 2 ^ i ∧
    depths config !! i = Some (length (layers st)) ∧
    downsample st =
      (if bool_decide (i < length (depths config) - 1)
       then Some (NatDownsampler_init (embed_dim config * 2 ^ i)) else None) ∧
    pointing st = false.
Proof.
  intros Hinit. apply NatEncoder_init_Ok in Hinit as (Hn & Hlen & Hst).
  split_and!; [done..|]. intros i st Hi.
  destruct (Hst i st Hi) as (? & ? & _ & ? & ?). done.
Qed.

(** X16: a configuration that lists fewer head counts than depths is
    refused at construction: the encoder, the bare model, the
    classification model and the backbone all raise. *)
Theorem fewer_heads_than_depths_is_refused config :
  length (num_heads config) < length (depths config) →
  (∃ e, NatEncoder_init training ACT2FN config = Raise e) ∧
  (∀ pooling, ∃ e, NatModel_init training ACT2FN config pooling = Raise e) ∧
  (∃ e, NatForImageClassification_init training ACT2FN config = Raise e) ∧
  (∃ e, NatBackbone_init training ACT2FN config = Raise e).
Proof.
  intros Hlen.
  assert (∃ e, NatEncoder_init training ACT2FN config = Raise e) as [e He].
  { destruct (NatEncoder_init training ACT2FN config) as [enc|e] eqn:Hinit; [|by exists e].
    apply NatEncoder_init_Ok in Hinit as (_ & Hl & Hst).
    destruct (lookup_lt_is_Some_2 (levels enc) (length (num_heads config))) as [st Hi];
      [lia|].
    destruct (Hst _ _ Hi) as (_ & _ & [heads Hh] & _).
    apply lookup_lt_Some in Hh. lia. }
  assert (∀ pooling, ∃ e', NatModel_init training ACT2FN config pooling = Raise e')
    as Hmodel.
  { intros pooling. unfold NatModel_init. cbv zeta.
    destruct (NatEmbeddings_init training config); [|by eexists].
    cbn [mbind Result_bind]. rewrite He. by eexists. }
  split_and!; [by exists e|done| |].
  - unfold NatForImageClassification_init. destruct (Hmodel true) as [e' ->]. by eexists.
  - unfold NatBackbone_init. cbv zeta.
    destruct (NatEmbeddings_init training config); [|by eexists].
    cbn [mbind Result_bind]. rewrite He. by eexists.
Qed.

(** X17: in a constructed classification model the final layer
    normalisation and the classifier fit the last stage: both work on the
    channels of the last stage, embed_dim * 2^(stages - 1); the classifier
    is a dense layer onto num_labels outputs when num_labels is positive,
    and the identity when it is zero. *)
Theorem classification_head_fits_last_stage config model st :
  NatForImageClassification_init training ACT2FN config = Ok model →
  last (levels (encoder (nat_ model))) = Some st →
  st_dim st = embed_dim config * 2 ^ (length (depths config) - 1) ∧
  normalized_shape (layernorm (nat_ model)) = [st_dim st] ∧
  m_num_features (nat_ model) = st_dim st ∧
  c_num_labels model = num_labels config ∧
  match classifier model with
  | Some d => 0 < num_labels config ∧ in_channels d = st_dim st ∧
              out_channels d = num_labels config
  | None => num_labels config = 0
  end.
Proof.
  intros Hinit Hlast.
  unfold NatForImageClassification_init, NatModel_init in Hinit. cbv zeta in Hinit.
  destruct (NatEmbeddings_init training config) as [emb|]; [|done].
  cbn [mbind Result_bind] in Hinit.
  destruct (NatEncoder_init training ACT2FN config) as [enc|] eqn:Henc; [|done].
  cbn [mbind Result_bind mret Result_ret] in Hinit. injection Hinit as <-.
  cbn [nat_ encoder layernorm m_num_features c_num_labels classifier LayerNorm_init
    normalized_shape] in *.
  apply NatEncoder_init_Ok in Henc as (_ & Hlen & Hst).
  rewrite last_lookup in Hlast. rewrite Hlen in Hlast.
  destruct (Hst _ _ Hlast) as (Hdim & _).
  assert (0 < length (depths config)) as Hpos.
  { apply lookup_lt_Some in Hlast. lia. }
  assert (last_stage_width (embed_dim config) (length (depths config)) = st_dim st) as Hw.
  { rewrite Hdim. destruct (length (depths config)) as [|n]; [lia|]. done. }
  rewrite Hw. replace (Init.Nat.pred (length (depths config)))
    with (length (depths config) - 1) in Hdim by lia.
  split_and!; [done..|].
  case_decide as Hlabels; cbn; [done|lia].
Qed.

End construction.

(** The four stages of the example configuration work on 2, 4, 8 and 16
    channels. *)
Lemma NatEncoder_init_structure_witness :
  ∃ enc,
    NatEncoder_init (H:=zero_backend) false activations (four_stage_config 1 0) = Ok enc ∧
    length (levels enc) = 4 ∧
    ∀ i st, levels enc !! i = Some st →
      st_dim st = 2 * 2 ^ i ∧ length (layers st) = 1.
Proof.
  destruct (NatEncoder_init (H:=zero_backend) false activations (four_stage_config 1 0))
    as [enc|] eqn:Hinit; [|by vm_compute in Hinit].
  destruct (NatEncoder_init_structure (H:=zero_backend) false activations
              (four_stage_config 1 0) enc Hinit) as (_ & Hlen & Hst).
  exists enc. split; [reflexivity|]. split; [exact Hlen|].
  intros i st Hi. destruct (Hst i st Hi) as (Hdim & Hdepth & _).
  split; [exact Hdim|].
  assert (i < 4) as Hlt by (apply lookup_lt_Some in Hi; by rewrite Hlen in Hi).
  destruct i as [|[|[|[|]]]]; simpl in Hdepth; try lia; by injection Hdepth.
Defined.

(** Four depths and three head counts. *)
Lemma fewer_heads_than_depths_is_refused_witness :
  ∃ e, NatBackbone_init (H:=zero_backend) false activations
         (with_num_heads [1; 1; 1] (four_stage_config 1 0)) = Raise e.
Proof.
  destruct (fewer_heads_than_depths_is_refused (H:=zero_backend) false activations
              (with_num_heads [1; 1; 1] (four_stage_config 1 0))) as (_ & _ & _ & Hbb).
  - simpl. lia.
  - exact Hbb.
Defined.

(** Five labels on the 16 channels of the fourth stage. *)
Lemma classification_head_fits_last_stage_witness :
  ∃ model d,
    NatForImageClassification_init (H:=zero_backend) false activations
      (four_stage_config 1 5) = Ok model ∧
    normalized_shape (layernorm (nat_ model)) = [16] ∧
    classifier model = Some d ∧ in_channels d = 16 ∧ out_channels d = 5.
Proof.
  destruct (NatForImageClassification_init (H:=zero_backend) false activations
              (four_stage_config 1 5)) as [model|] eqn:Hinit; [|by vm_compute in Hinit].
  destruct (last (levels (encoder (nat_ model)))) as [st|] eqn:Hlast.
  2:{ vm_compute in Hinit. injection Hinit as <-. by vm_compute in Hlast. }
  destruct (classification_head_fits_last_stage (H:=zero_backend) false activations
              (four_stage_config 1 5) model st Hinit Hlast)
    as (Hdim & Hnorm & _ & _ & Hcls).
  simpl in Hdim. rewrite Hdim in Hnorm, Hcls.
  destruct (classifier model) as [d|] eqn:Hd; [|simpl in Hcls; lia].
  destruct Hcls as (_ & Hin & Hout).
  exists model, d. split; [reflexivity|]. split; [exact Hnorm|]. split; [exact Hd|].
  split; [exact Hin|exact Hout].
Defined.

End model_construction_properties.

(** ** The feature maps of the backbone *)

Module backbone_selection.
Import py ms nn ms_utils modeling_nat notions examples py_facts
  encoder_facts backbone_facts layer_facts forward_facts model_facts.

Section selection.
Context `{Backend}.
Variable training : bool.

Lemma permute_dtype (t t' : Tensor) perm :
  permute t perm = Ok t' → dtype t' = dtype t.
Proof.
  unfold permute. destruct (is_permutation _ _); [|done]. by intros [= <-].
Qed.

(** X18: the body of the backbone's loop keeps the shape and the element
    type of a reshaped hidden state of shape (batch, channels, height,
    width) when the layer normalisation it is given is one for that number
    of channels, and raises otherwise. *)
Theorem NatBackbone_feature_map_shape (norm : LayerNorm) (hidden_state : Tensor)
    b c h w c' :
  shape hidden_state = [b; c; h; w] → normalized_shape norm = [c'] →
  (c' = c →
   ∃ f, NatBackbone_feature_map norm hidden_state = Ok f ∧
        shape f = [b; c; h; w] ∧ dtype f = dtype hidden_state) ∧
  (c' ≠ c →
   NatBackbone_feature_map norm hidden_state = Raise (ShapeError "LayerNorm")).
Proof.
  intros Hs Hn. unfold NatBackbone_feature_map. rewrite Hs.
  destruct (proj2 (permute_shape4 hidden_state b c h w Hs)) as (x1 & Hx1 & Hs1).
  pose proof (permute_dtype _ _ _ Hx1) as Hd1. rewrite Hx1.
  cbn [fmap Result_fmap mbind Result_bind contiguous].
  unfold view, contiguous. rewrite Hs1.
  rewrite decide_True by (unfold numel; simpl; lia).
  cbn [mbind Result_bind]. unfold LayerNorm_construct. rewrite Hn. cbn [shape].
  split.
  - intros ->. rewrite decide_True by (by exists [b; h * w]).
    cbn [mbind Result_bind shape].
    rewrite decide_True by (unfold numel; simpl; lia).
    cbn [mbind Result_bind].
    match goal with |- context [permute ?t _] =>
      destruct (proj1 (permute_shape4 t b h w c eq_refl)) as (x2 & Hx2 & Hs2);
      pose proof (permute_dtype _ _ _ Hx2) as Hd2; rewrite Hx2 end.
    eexists. split; [reflexivity|]. split; [exact Hs2|].
    rewrite Hd2. cbn. exact Hd1.
  - intros Hc. rewrite decide_False; [done|].
    intros Hsuf. apply Hc.
    apply (suffix_snoc_inv_1 c' c [] [b; h * w]). exact Hsuf.
Qed.

End selection.

(** A reshaped hidden state of two channels under a layer normalisation
    for two channels. *)
Lemma NatBackbone_feature_map_shape_witness :
  ∃ f, NatBackbone_feature_map (H:=zero_backend)
         (LayerNorm_init [2] default_epsilon) (zeros float32 [1; 2; 8; 8]) = Ok f ∧
       shape f = [1; 2; 8; 8].
Proof.
  destruct (NatBackbone_feature_map_shape (H:=zero_backend)
              (LayerNorm_init [2] default_epsilon) (zeros float32 [1; 2; 8; 8])
              1 2 8 8 2 eq_refl eq_refl) as [Hok _].
  destruct (Hok eq_refl) as (f & Hf & Hs & _). exists f. split; [exact Hf|exact Hs].
Defined.

End backbone_selection.

(** ** Invariants of head pruning *)

Module pruning_invariants.
Import ms nn ms_utils modeling_nat notions examples pruning_facts.

(** X22: a completed prune_heads leaves the head size, the kernel size, the
    relative positional biases and the dropouts of the module as they were
    (the biases keep a row for every original head), never reports fewer
    pruned heads or more attention heads than before, and, for a non-empty
    list, leaves all_head_size equal to the head size times the number of
    heads; for the empty list it changes nothing. *)
Theorem prune_heads_keeps_head_geometry (heads : list nat)
    (m m1 : NeighborhoodAttentionModule) :
  prune_heads heads m = (Ok tt, m1) →
  attention_head_size (self_ m1) = attention_head_size (self_ m) ∧
  na_kernel_size (self_ m1) = na_kernel_size (self_ m) ∧
  rpb (self_ m1) = rpb (self_ m) ∧
  na_dropout (self_ m1) = na_dropout (self_ m) ∧
  nao_dropout (output m1) = nao_dropout (output m) ∧
  pruned_heads m ⊆ pruned_heads m1 ∧
  num_attention_heads (self_ m1) ≤ num_attention_heads (self_ m) ∧
  (heads ≠ [] →
   all_head_size (self_ m1)
   = attention_head_size (self_ m1) * num_attention_heads (self_ m1)) ∧
  (heads = [] → m1 = m).
Proof.
  unfold prune_heads. case_decide as Hlen.
  { unfold pure. intros [= <-]. split_and!; try done.
    intros Hne. destruct heads; [done|]. simpl in Hlen. lia. }
  unfold mbind, Stateful_bind, get, lift, set_self, modify. cbn beta iota.
  destruct (find_pruneable_heads_and_indices _ _ _ _) as [[H index]|] eqn:Hfind; [|done].
  cbn beta iota.
  destruct (prune_linear_layer (query _) index 0) as [q|] eqn:Hq; [|done]. cbn.
  destruct (prune_linear_layer (key _) index 0) as [k|] eqn:Hk; [|done]. cbn.
  destruct (prune_linear_layer (value _) index 0) as [v|] eqn:Hv; [|done]. cbn.
  destruct (prune_linear_layer (nao_dense _) index 1) as [d|] eqn:Hd; [|done]. cbn.
  intros [= <-]. cbn. split_and!; try done; [set_solver|lia|].
  intros ->. done.
Qed.

(** X23: a completed prune_heads with a non-empty list records the given
    heads next to those pruned before, lowers the number of attention heads
    by the number of heads that were not pruned before, and cuts the query,
    key and value projections to all_head_size outputs and the output
    projection to all_head_size inputs. *)
Theorem prune_heads_accumulates (heads : list nat) (m m1 : NeighborhoodAttentionModule) :
  heads ≠ [] →
  prune_heads heads m = (Ok tt, m1) →
  pruned_heads m1 = pruned_heads m ∪ list_to_set heads ∧
  num_attention_heads (self_ m1)
  = num_attention_heads (self_ m) - size (list_to_set heads ∖ pruned_heads m : gset nat) ∧
  out_channels (query (self_ m1)) = all_head_size (self_ m1) ∧
  out_channels (key (self_ m1)) = all_head_size (self_ m1) ∧
  out_channels (value (self_ m1)) = all_head_size (self_ m1) ∧
  in_channels (nao_dense (output m1)) = all_head_size (self_ m1).
Proof.
  intros Hne. unfold prune_heads. case_decide as Hlen.
  { destruct heads; [done|]. simpl in Hlen. lia. }
  unfold mbind, Stateful_bind, get, lift, set_self, modify. cbn beta iota.
  destruct (find_pruneable_heads_and_indices _ _ _ _) as [[H index]|] eqn:Hfind; [|done].
  cbn beta iota.
  destruct (prune_linear_layer (query _) index 0) as [q|] eqn:Hq; [|done]. cbn.
  destruct (prune_linear_layer (key _) index 0) as [k|] eqn:Hk; [|done]. cbn.
  destruct (prune_linear_layer (value _) index 0) as [v|] eqn:Hv; [|done]. cbn.
  destruct (prune_linear_layer (nao_dense _) index 1) as [d|] eqn:Hd; [|done]. cbn.
  intros [= <-]. cbn.
  apply find_pruneable_spec in Hfind as (-> & Hindex & Hsize).
  apply prune_rows_spec in Hq as (_ & Hq & _).
  apply prune_rows_spec in Hk as (_ & Hk & _).
  apply prune_rows_spec in Hv as (_ & Hv & _).
  apply prune_cols_spec in Hd as (_ & Hd).
  split_and!; [|done|lia..].
  apply set_eq. intros h. destruct (decide (h ∈ pruned_heads m)); set_solver.
Qed.

(** Head 2 of three heads of size two: two heads and four channels stay. *)
Lemma prune_heads_keeps_head_geometry_witness :
  ∃ m1, prune_heads [2] example_attention_module = (Ok tt, m1) ∧
        all_head_size (self_ m1) = 4 ∧ shape (rpb (self_ m1)) = [3; 5; 5].
Proof.
  destruct (prune_heads [2] example_attention_module) as [[[]|] m1] eqn:Hrun;
    [|by vm_compute in Hrun].
  destruct (prune_heads_keeps_head_geometry [2] example_attention_module m1 Hrun)
    as (Hsize & _ & Hrpb & _ & _ & _ & _ & Hall & _).
  exists m1. split; [reflexivity|]. rewrite Hrpb, (Hall ltac:(done)), Hsize.
  split; [|reflexivity].
  vm_compute in Hrun. by injection Hrun as <-.
Defined.

(** Heads 0 and 2, head 2 being pruned already. *)
Lemma prune_heads_accumulates_witness :
  ∃ m1 m2,
    prune_heads [2] example_attention_module = (Ok tt, m1) ∧
    prune_heads [0; 2] m1 = (Ok tt, m2) ∧
    pruned_heads m2 = {[0; 2]} ∧ num_attention_heads (self_ m2) = 1 ∧
    out_channels (query (self_ m2)) = 2.
Proof.
  destruct (prune_heads [2] example_attention_module) as [[[]|] m1] eqn:Hrun1;
    [|by vm_compute in Hrun1].
  destruct (prune_heads [0; 2] m1) as [[[]|] m2] eqn:Hrun2.
  2:{ vm_compute in Hrun1. injection Hrun1 as <-. by vm_compute in Hrun2. }
  destruct (prune_heads_accumulates [0; 2] m1 m2 ltac:(done) Hrun2)
    as (Hpruned & Hnum & Hq & _).
  exists m1, m2. split; [reflexivity|]. split; [exact Hrun2|].
  vm_compute in Hrun1. injection Hrun1 as <-.
  vm_compute in Hrun2. injection Hrun2 as <-.
  split; [|split]; vm_compute; reflexivity.
Defined.

End pruning_invariants.

(** ** Construction of the backbone *)

Module backbone_construction.
Import py ms nn ms_utils modeling_nat notions examples py_facts pruning_facts
  backbone_facts.

Section construction.
Context `{Backend}.
Variable training : bool.
Variable ACT2FN : gset string.

(** The width [channels] finds for a stage name. *)
Lemma channels_Ok stage_names (l : list string) num_features chans :
  channels stage_names l num_features = Ok chans →
  let w := λ name, match index_of name stage_names with
                   | Some i => default 0 (num_features !! i)
                   | None => 0
                   end in
  chans = w <$> l ∧
  ∀ name, name ∈ l →
    ∃ i, index_of name stage_names = Some i ∧ num_features !! i = Some (w name).
Proof.
  cbv zeta. unfold channels. revert chans.
  induction l as [|x l IH]; intros chans; cbn [mapM]; cbv beta.
  - intros [= <-]. split; [done|]. intros name Hin. by apply elem_of_nil in Hin.
  - destruct (index_of x stage_names) as [i|] eqn:Hi; cbn [mbind Result_bind];
      [|by intros [=]].
    destruct (tuple_at num_features i) as [c|] eqn:Hc; cbn [mbind Result_bind];
      [|by intros [=]].
    unfold tuple_at in Hc. destruct (num_features !! i) as [c'|] eqn:Hc'; [|done].
    injection Hc as ->.
    destruct (mapM _ l) as [cs|] eqn:Hcs; cbn [mbind Result_bind mret Result_ret];
      [|by intros [=]].
    intros [= <-]. destruct (IH cs eq_refl) as [-> Hl]. split.
    + cbn [fmap list_fmap]. by rewrite Hi, Hc'.
    + intros name [->|Hin]%elem_of_cons; [|by apply Hl].
      exists i. by rewrite Hi, Hc'.
Qed.

(** X24: a constructed backbone takes its stage names and out-features from
    the configuration and holds one layer normalisation per out-feature and
    no other: the one of a selected stage is built for the width of that
    stage, embed_dim for the stem and embed_dim * 2^j for the stage at
    position j + 1 of the stage names. *)
Theorem NatBackbone_init_norms config bb :
  NatBackbone_init training ACT2FN config = Ok bb →
  bb_stage_names bb = stage_names config ∧
  bb_out_features bb = out_features config ∧
  dom (hidden_states_norms bb) = list_to_set (out_features config) ∧
  ∀ name, name ∈ out_features config →
    ∃ i, index_of name (stage_names config) = Some i ∧ i ≤ length (depths config) ∧
         hidden_states_norms bb !! name
         = Some (LayerNorm_init
                   [match i with
                    | 0 => embed_dim config
                    | S j => embed_dim config * 2 ^ j
                    end] default_epsilon).
Proof.
  unfold NatBackbone_init. cbv zeta.
  destruct (NatEmbeddings_init training config) as [emb|]; [|done].
  cbn [mbind Result_bind].
  destruct (NatEncoder_init training ACT2FN config) as [enc|]; [|done].
  cbn [mbind Result_bind].
  destruct (channels _ _ _) as [chans|] eqn:Hch; [|done].
  cbn [mbind Result_bind mret Result_ret]. intros [= <-].
  cbn [bb_stage_names bb_out_features hidden_states_norms].
  apply channels_Ok in Hch as [-> Hw]. cbv zeta in Hw.
  set (nf := embed_dim config :: ((λ i, embed_dim config * 2 ^ i)
                                    <$> seq 0 (length (depths config)))) in *.
  set (w := λ name, match index_of name (stage_names config) with
                    | Some i => default 0 (nf !! i)
                    | None => 0
                    end) in *.
  split; [done|]. split; [done|].
  assert (∀ k, foldl (λ (norms : gmap string LayerNorm) '(stage, num_channels),
                        <[stage := LayerNorm_init [num_channels] default_epsilon]> norms)
                 ∅ (zip (out_features config) (w <$> out_features config)) !! k
               = if decide (k ∈ out_features config)
                 then Some (LayerNorm_init [w k] default_epsilon) else None) as Hnorms.
  { intros k. rewrite (norms_lookup (λ c, LayerNorm_init [c] default_epsilon) w).
    by rewrite lookup_empty. }
  split.
  - apply set_eq. intros k. rewrite elem_of_dom, Hnorms, elem_of_list_to_set.
    destruct (decide (k ∈ out_features config)); [by split; eauto|].
    split; [by intros [? ?]|done].
  - intros name Hin. destruct (Hw name Hin) as (i & Hi & Hnf).
    exists i. split; [done|]. rewrite Hnorms, decide_True by done.
    apply lookup_lt_Some in Hnf. unfold nf in Hnf. cbn [length] in Hnf.
    rewrite length_fmap, length_seq in Hnf. split; [lia|].
    unfold w. rewrite Hi. unfold nf. destruct i as [|j]; [done|].
    rewrite lookup_cons_ne_0 by lia. cbn [Nat.pred].
    rewrite list_lookup_fmap, lookup_seq_lt by lia. done.
Qed.

End construction.

(** The backbone of the example configuration: stage1 on 2 channels and
    stage3 on 8. *)
Lemma NatBackbone_init_norms_witness :
  ∃ bb,
    NatBackbone_init (H:=zero_backend) false activations (four_stage_config 1 0) = Ok bb ∧
    dom (hidden_states_norms bb) = {["stage1"; "stage3"]} ∧
    hidden_states_norms bb !! "stage3" = Some (LayerNorm_init [8] default_epsilon).
Proof.
  destruct (NatBackbone_init (H:=zero_backend) false activations (four_stage_config 1 0))
    as [bb|] eqn:Hinit; [|by vm_compute in Hinit].
  destruct (NatBackbone_init_norms (H:=zero_backend) false activations
              (four_stage_config 1 0) bb Hinit) as (_ & _ & Hdom & Hnorm).
  exists bb. split; [reflexivity|]. split.
  - rewrite Hdom. simpl. set_solver.
  - destruct (Hnorm "stage3") as (i & Hi & _ & Hl); [simpl; set_solver|].
    vm_compute in Hi. injection Hi as <-. exact Hl.
Defined.

End backbone_construction.

(** ** Models as their constructors leave them *)

Module constructed_facts.
Import py ms nn ms_utils modeling_nat notions py_facts encoder_facts layer_facts
  forward_facts model_facts construction_facts pruning_facts backbone_facts examples.

Section constructed.
Context `{Backend}.
Variable training : bool.
Variable ACT2FN : gset string.








(** *** The first layer *)






End constructed.


End constructed_facts.

(** ** The forward pass of the backbone *)

Module backbone_properties.
Import py ms nn ms_utils modeling_nat notions encoder_facts backbone_facts examples
  constructed_facts.

Section backbone.
Context `{Backend}.
Variable training : bool.
Variable ACT2FN : gset string.


End backbone.




End backbone_properties.

(** ** The forward pass of the classification model *)

Module classification_properties.
Import py ms nn ms_utils modeling_nat notions examples encoder_facts backbone_facts
  model_facts constructed_facts.

Section classification.
Context `{Backend}.
Variable training : bool.
Variable ACT2FN : gset string.


End classification.



End classification_properties.
